(** * otrust-cli: request signing and the local credential store

    A shallow embedding of the two programs of the repository,
    [otrust-cli.js] (the command line client, a process-wide [config]
    object) and [lib/api.js] (class [OtrustCLI], the same operations as a
    library), together with the parts of the JavaScript runtime they rest on:
    JSON values, [JSON.stringify], [JSON.parse], [parseFloat], the file
    system calls of [fs] and the calls of [crypto] and [axios].

    Conventions of the embedding.
    - A JavaScript string is a [string]: a sequence of 8-bit code units (the
      Latin-1 range of UTF-16).  PEM keys, URLs and tokens are ASCII.
    - A JavaScript number is [NaN], an infinity, or a decimal [m * 10^e]
      ([Dec m e]).  Rounding to binary64 is not modelled: [parseFloat] keeps
      the decimal it read, and [Number::toString] prints it back with the
      digit-and-exponent rules of the language.  The two agree with the
      runtime for decimals of at most 15 significant digits, which covers
      millisecond timestamps and confidence levels.
    - An object is the list of its own enumerable string-keyed properties in
      insertion order (the order [JSON.stringify] follows); integer-like keys,
      which the runtime orders first, do not occur in this program. *)

From Stdlib Require Import ZArith List String Ascii Bool Lia.
From Stdlib Require Import DecimalString.
From Stdlib Require DecimalFacts DecimalPos DecimalZ.
Import ListNotations.
Open Scope string_scope.
Open Scope Z_scope.
Set Warnings "-register-all".

(** ** JavaScript values and JSON *)

Module JS.

Inductive number : Type :=
| NaN
| Infinity (negative : bool)
| Dec (m e : Z).

Inductive value : Type :=
| Undefined
| Null
| Bool (b : bool)
| Num (n : number)
| Str (s : string)
| Arr (elements : list value)
| Obj (properties : list (string * value)).

Definition of_Z (z : Z) : number := Dec z 0.

(** [m1 * 10^e1 <= m2 * 10^e2], both sides scaled to the smaller exponent. *)
Definition dec_leb (m1 e1 m2 e2 : Z) : bool :=
  let e := Z.min e1 e2 in
  (m1 * 10 ^ (e1 - e) <=? m2 * 10 ^ (e2 - e)).

(** The relational operator [a <= b] on numbers; any comparison with [NaN]
    is false. *)
Definition num_leb (a b : number) : bool :=
  match a, b with
  | NaN, _ | _, NaN => false
  | Infinity true, _ => true
  | _, Infinity false => true
  | Infinity false, _ => false
  | _, Infinity true => false
  | Dec m1 e1, Dec m2 e2 => dec_leb m1 e1 m2 e2
  end.

Definition isNaN (a : number) : bool :=
  match a with NaN => true | _ => false end.

(** ToBoolean. *)
Definition truthy (v : value) : bool :=
  match v with
  | Undefined | Null => false
  | Bool b => b
  | Num NaN => false
  | Num (Infinity _) => true
  | Num (Dec m _) => negb (m =? 0)
  | Str s => negb (String.eqb s "")
  | Arr _ | Obj _ => true
  end.

(** [a || b] *)
Definition or_else (a b : value) : value := if truthy a then a else b.

(** A string property that may be missing. *)
Definition opt (o : option string) : value :=
  match o with
  | Some s => Str s
  | None => Undefined
  end.

(** *** Objects as ordered property lists *)

Fixpoint lookup (k : string) (ps : list (string * value)) : option value :=
  match ps with
  | [] => None
  | (k', v) :: ps' => if String.eqb k k' then Some v else lookup k ps'
  end.

(** [o.k] on a value that is neither [null] nor [undefined]: a missing
    property reads as [undefined]. *)
Definition get (o : value) (k : string) : value :=
  match o with
  | Obj ps => match lookup k ps with Some v => v | None => Undefined end
  | _ => Undefined
  end.

(** [o.k = v] on a property list: an existing key keeps its position, a new
    key goes last. *)
Fixpoint assign (k : string) (v : value) (ps : list (string * value))
  : list (string * value) :=
  match ps with
  | [] => [(k, v)]
  | (k', v') :: ps' =>
      if String.eqb k k' then (k, v) :: ps' else (k', v') :: assign k v ps'
  end.

Definition set (o : value) (k : string) (v : value) : value :=
  match o with
  | Obj ps => Obj (assign k v ps)
  | _ => o
  end.

(** The own enumerable properties an object spread [...v] copies; [null],
    [undefined], booleans and numbers contribute none.  (Arrays and strings
    would contribute index keys; a config file holding one is outside the
    embedding and contributes none here.) *)
Definition own_properties (v : value) : list (string * value) :=
  match v with
  | Obj ps => ps
  | _ => []
  end.

(** [{ ...a, ...b }] *)
Definition spread2 (a b : value) : value :=
  Obj (fold_left (fun acc kv => assign (fst kv) (snd kv) acc)
                 (own_properties b)
                 (fold_left (fun acc kv => assign (fst kv) (snd kv) acc)
                            (own_properties a) [])).

(** *** Number::toString *)

Fixpoint zeros (n : nat) : string :=
  match n with
  | O => ""
  | S n' => String "0" (zeros n')
  end.

(** Splits a digit string into its part without trailing zeros and the
    number of zeros removed. *)
Fixpoint strip0 (s : string) : string * nat :=
  match s with
  | EmptyString => (EmptyString, O)
  | String c r =>
      let (r', j) := strip0 r in
      if (String.eqb r' "" && Ascii.eqb c "0")%bool
      then (EmptyString, S j)
      else (String c r', j)
  end.

Definition digits_of_pos (p : positive) : string :=
  NilEmpty.string_of_uint (Pos.to_uint p).

Definition string_of_Z (z : Z) : string :=
  NilZero.string_of_int (Z.to_int z).

(** The exponent suffix [e+N] / [e-N] of the scientific form. *)
Definition exponent_part (x : Z) : string :=
  "e" ++ (if x <? 0 then "-" else "+") ++ string_of_Z (Z.abs x).

(** Number::toString for a positive decimal with significant digits [s]
    (no trailing zero, [k] of them) and value [0.s * 10^n]. *)
Definition digits_to_string (s : string) (n : Z) : string :=
  let k := Z.of_nat (String.length s) in
  if ((k <=? n) && (n <=? 21))%bool then
    s ++ zeros (Z.to_nat (n - k))
  else if ((0 <? n) && (n <=? 21))%bool then
    substring 0 (Z.to_nat n) s ++ "." ++
    substring (Z.to_nat n) (Z.to_nat (k - n)) s
  else if ((-6 <? n) && (n <=? 0))%bool then
    "0." ++ zeros (Z.to_nat (- n)) ++ s
  else if k =? 1 then
    s ++ exponent_part (n - 1)
  else
    substring 0 1 s ++ "." ++ substring 1 (Z.to_nat (k - 1)) s ++
    exponent_part (n - 1).

Definition number_to_string (a : number) : string :=
  match a with
  | NaN => "NaN"
  | Infinity false => "Infinity"
  | Infinity true => "-Infinity"
  | Dec 0 _ => "0"
  | Dec (Zpos p) e =>
      let (s, j) := strip0 (digits_of_pos p) in
      digits_to_string s (Z.of_nat (String.length s) + Z.of_nat j + e)
  | Dec (Zneg p) e =>
      let (s, j) := strip0 (digits_of_pos p) in
      "-" ++ digits_to_string s (Z.of_nat (String.length s) + Z.of_nat j + e)
  end.

(** *** JSON.stringify *)

Definition hex_digit (n : N) : ascii :=
  match n with
  | 0%N => "0" | 1%N => "1" | 2%N => "2" | 3%N => "3" | 4%N => "4"
  | 5%N => "5" | 6%N => "6" | 7%N => "7" | 8%N => "8" | 9%N => "9"
  | 10%N => "a" | 11%N => "b" | 12%N => "c" | 13%N => "d" | 14%N => "e"
  | _ => "f"
  end%char.

(** The double quote character, code 34. *)
Definition dquote : ascii := "034"%char.

(** The escape of one code unit inside a JSON string literal. *)
Definition escape_char (c : ascii) : string :=
  let n := N_of_ascii c in
  if (n =? 8)%N then "\b"
  else if (n =? 9)%N then "\t"
  else if (n =? 10)%N then "\n"
  else if (n =? 12)%N then "\f"
  else if (n =? 13)%N then "\r"
  else if (n =? 34)%N then String "\" (String dquote "")
  else if (n =? 92)%N then "\\"
  else if (n <? 32)%N then
    "\u00" ++ String (hex_digit (n / 16)) (String (hex_digit (n mod 16)) "")
  else String c "".

Fixpoint escape (s : string) : string :=
  match s with
  | EmptyString => EmptyString
  | String c r => escape_char c ++ escape r
  end.

(** QuoteJSONString *)
Definition quote (s : string) : string :=
  String dquote (escape s ++ String dquote "").

Fixpoint join (sep : string) (parts : list string) : string :=
  match parts with
  | [] => ""
  | [p] => p
  | p :: ps => p ++ sep ++ join sep ps
  end.

Definition nl : string := String "010" "".

(** The brackets and separators SerializeJSONObject and SerializeJSONArray
    put around the serialized parts; [gap] is the indentation unit ([""] for
    the compact form) and [stepback] the indentation of the enclosing
    level. *)
Definition wrap (open close gap stepback : string) (parts : list string)
  : string :=
  match parts with
  | [] => open ++ close
  | _ =>
      if String.eqb gap "" then open ++ join "," parts ++ close
      else
        let indent := stepback ++ gap in
        open ++ nl ++ indent ++
        join ("," ++ nl ++ indent) parts ++
        nl ++ stepback ++ close
  end.

(** SerializeJSONProperty: [None] is the "undefined" result, which makes an
    object drop the property and an array print [null]. *)
Fixpoint serialize (gap indent : string) (v : value) : option string :=
  match v with
  | Undefined => None
  | Null => Some "null"
  | Bool true => Some "true"
  | Bool false => Some "false"
  | Num (Dec m e) => Some (number_to_string (Dec m e))
  | Num _ => Some "null"
  | Str s => Some (quote s)
  | Arr vs =>
      Some (wrap "[" "]" gap indent
              (map (fun x => match serialize gap (indent ++ gap) x with
                             | Some t => t
                             | None => "null"
                             end) vs))
  | Obj ps =>
      Some (wrap "{" "}" gap indent
              (flat_map
                 (fun kv =>
                    match serialize gap (indent ++ gap) (snd kv) with
                    | Some t =>
                        [quote (fst kv) ++ ":" ++
                         (if String.eqb gap "" then "" else " ") ++ t]
                    | None => []
                    end) ps))
  end.

(** [JSON.stringify(v)] *)
Definition stringify (v : value) : option string := serialize "" "" v.

(** [JSON.stringify(v, null, 2)] *)
Definition stringify_indent2 (v : value) : option string :=
  serialize "  " "" v.


(** *** JSON.parse *)

Definition is_json_ws (c : ascii) : bool :=
  let n := N_of_ascii c in
  ((n =? 32) || (n =? 9) || (n =? 10) || (n =? 13))%N.

Fixpoint skip_ws (s : string) : string :=
  match s with
  | EmptyString => EmptyString
  | String c r => if is_json_ws c then skip_ws r else s
  end.

Definition is_digit (c : ascii) : bool :=
  let n := N_of_ascii c in ((48 <=? n) && (n <=? 57))%N.

Definition hex_value (c : ascii) : option N :=
  let n := N_of_ascii c in
  if ((48 <=? n) && (n <=? 57))%N then Some (n - 48)%N
  else if ((97 <=? n) && (n <=? 102))%N then Some (n - 87)%N
  else if ((65 <=? n) && (n <=? 70))%N then Some (n - 55)%N
  else None.

(** The character a two-character escape stands for. *)
Definition unescape_simple (c : ascii) : option ascii :=
  let n := N_of_ascii c in
  if (n =? 34)%N then Some dquote
  else if (n =? 92)%N then Some "\"%char
  else if (n =? 47)%N then Some "/"%char
  else if (n =? 98)%N then Some "008"%char
  else if (n =? 102)%N then Some "012"%char
  else if (n =? 110)%N then Some "010"%char
  else if (n =? 114)%N then Some "013"%char
  else if (n =? 116)%N then Some "009"%char
  else None.

Definition cons_char (c : ascii) (r : option (string * string))
  : option (string * string) :=
  match r with
  | Some (t, rest) => Some (String c t, rest)
  | None => None
  end.

(** The characters of a string literal after its opening quote, up to and
    including the closing quote: the decoded string and what follows.  A raw
    control character, an unknown escape or a missing closing quote is a
    syntax error; so is, in this embedding, a [\uXXXX] escape above U+00FF. *)
Fixpoint parse_chars (s : string) : option (string * string) :=
  match s with
  | EmptyString => None
  | String c r =>
      if Ascii.eqb c dquote then Some (EmptyString, r)
      else if Ascii.eqb c "\" then
        match r with
        | EmptyString => None
        | String e r' =>
            match unescape_simple e with
            | Some ch => cons_char ch (parse_chars r')
            | None =>
                if Ascii.eqb e "u" then
                  match r' with
                  | String h1 (String h2 (String h3 (String h4 r''))) =>
                      match hex_value h1, hex_value h2,
                            hex_value h3, hex_value h4 with
                      | Some 0%N, Some 0%N, Some a, Some b =>
                          cons_char (ascii_of_N (16 * a + b)) (parse_chars r'')
                      | _, _, _, _ => None
                      end
                  | _ => None
                  end
                else None
            end
        end
      else if (N_of_ascii c <? 32)%N then None
      else cons_char c (parse_chars r)
  end.

(** The longest prefix of decimal digits, and the rest. *)
Fixpoint span_digits (s : string) : string * string :=
  match s with
  | EmptyString => (EmptyString, EmptyString)
  | String c r =>
      if is_digit c then let (d, rest) := span_digits r in (String c d, rest)
      else (EmptyString, s)
  end.

(** The natural number a digit string denotes. *)
Definition digits_value (d : string) : Z :=
  match NilEmpty.uint_of_string d with
  | Some u => Z.of_uint u
  | None => 0
  end.

Definition signed (negative : bool) (z : Z) : Z :=
  if negative then - z else z.

(** An optional exponent part [e] sign digits: its value and the rest; the
    input itself when no digit follows. *)
Definition parse_exponent (s : string) : Z * string :=
  match s with
  | String c r =>
      if (Ascii.eqb c "e" || Ascii.eqb c "E")%bool then
        let '(negative, r1) :=
          match r with
          | String "-" r1 => (true, r1)
          | String "+" r1 => (false, r1)
          | _ => (false, r)
          end in
        let (d, rest) := span_digits r1 in
        if String.eqb d "" then (0, s)
        else (signed negative (digits_value d), rest)
      else (0, s)
  | EmptyString => (0, s)
  end.

(** A JSON number: an optional minus, an integer part without a leading
    zero, an optional fraction and an optional exponent. *)
Definition parse_number (s : string) : option (number * string) :=
  let '(negative, s1) :=
    match s with
    | String "-" r => (true, r)
    | _ => (false, s)
    end in
  let (ip, s2) := span_digits s1 in
  if String.eqb ip "" then None
  else if (Nat.ltb 1 (String.length ip) && prefix "0" ip)%bool then None
  else
    match s2 with
    | String "." r =>
        let (fp, s3) := span_digits r in
        if String.eqb fp "" then None
        else
          let (x, s4) := parse_exponent s3 in
          Some (Dec (signed negative (digits_value (ip ++ fp)))
                    (x - Z.of_nat (String.length fp)), s4)
    | _ =>
        let (x, s4) := parse_exponent s2 in
        Some (Dec (signed negative (digits_value ip)) x, s4)
    end.

(** [prefix p s] with the rest of [s] after [p]. *)
Fixpoint strip_prefix (p s : string) : option string :=
  match p, s with
  | EmptyString, _ => Some s
  | String a p', String b s' =>
      if Ascii.eqb a b then strip_prefix p' s' else None
  | _, EmptyString => None
  end.

(** A repeated key keeps its first position and takes the last value. *)
Definition create_properties (ps : list (string * value))
  : list (string * value) :=
  fold_left (fun acc kv => assign (fst kv) (snd kv) acc) ps [].

(** The recursive descent of JSON.parse.  [fuel] bounds the number of nested
    and successive values; every call consumes a character before it
    recurses, so the length of the text is always enough. *)
Fixpoint parse_value (fuel : nat) (s : string) : option (value * string) :=
  match fuel with
  | O => None
  | S f =>
      match skip_ws s with
      | EmptyString => None
      | String c r =>
          if Ascii.eqb c "{" then
            match skip_ws r with
            | String "}" r' => Some (Obj [], r')
            | _ =>
                match parse_members f r with
                | Some (ps, r') => Some (Obj (create_properties ps), r')
                | None => None
                end
            end
          else if Ascii.eqb c "[" then
            match skip_ws r with
            | String "]" r' => Some (Arr [], r')
            | _ =>
                match parse_elements f r with
                | Some (vs, r') => Some (Arr vs, r')
                | None => None
                end
            end
          else if Ascii.eqb c dquote then
            match parse_chars r with
            | Some (t, r') => Some (Str t, r')
            | None => None
            end
          else if Ascii.eqb c "t" then
            option_map (fun r' => (Bool true, r')) (strip_prefix "rue" r)
          else if Ascii.eqb c "f" then
            option_map (fun r' => (Bool false, r')) (strip_prefix "alse" r)
          else if Ascii.eqb c "n" then
            option_map (fun r' => (Null, r')) (strip_prefix "ull" r)
          else
            match parse_number (String c r) with
            | Some (n, r') => Some (Num n, r')
            | None => None
            end
      end
  end
with parse_members (fuel : nat) (s : string)
  : option (list (string * value) * string) :=
  match fuel with
  | O => None
  | S f =>
      match skip_ws s with
      | String c r =>
          if Ascii.eqb c dquote then
            match parse_chars r with
            | Some (k, r1) =>
                match skip_ws r1 with
                | String ":" r2 =>
                    match parse_value f r2 with
                    | Some (v, r3) =>
                        match skip_ws r3 with
                        | String "," r4 =>
                            match parse_members f r4 with
                            | Some (ps, r5) => Some ((k, v) :: ps, r5)
                            | None => None
                            end
                        | String "}" r4 => Some ([(k, v)], r4)
                        | _ => None
                        end
                    | None => None
                    end
                | _ => None
                end
            | None => None
            end
          else None
      | EmptyString => None
      end
  end
with parse_elements (fuel : nat) (s : string)
  : option (list value * string) :=
  match fuel with
  | O => None
  | S f =>
      match parse_value f s with
      | Some (v, r) =>
          match skip_ws r with
          | String "," r' =>
              match parse_elements f r' with
              | Some (vs, r'') => Some (v :: vs, r'')
              | None => None
              end
          | String "]" r' => Some ([v], r')
          | _ => None
          end
      | None => None
      end
  end.

(** [JSON.parse(text)]: [None] is a thrown SyntaxError. *)
Definition parse (text : string) : option value :=
  match parse_value (S (String.length text)) text with
  | Some (v, rest) =>
      if String.eqb (skip_ws rest) "" then Some v else None
  | None => None
  end.

(** *** Strings: ToString, trim, split, parseFloat *)

(** White space and line terminators of the language, within Latin-1. *)
Definition is_space (c : ascii) : bool :=
  let n := N_of_ascii c in
  (((9 <=? n) && (n <=? 13)) || (n =? 32) || (n =? 160))%N.

Fixpoint trim_start (s : string) : string :=
  match s with
  | EmptyString => EmptyString
  | String c r => if is_space c then trim_start r else s
  end.

Fixpoint trim_end (s : string) : string :=
  match s with
  | EmptyString => EmptyString
  | String c r =>
      match trim_end r with
      | EmptyString => if is_space c then EmptyString else String c EmptyString
      | r' => String c r'
      end
  end.

(** [s.trim()] *)
Definition trim (s : string) : string := trim_end (trim_start s).

(** [s.split(sep)] for a one-character separator. *)
Fixpoint split (sep : ascii) (s : string) : list string :=
  match s with
  | EmptyString => [EmptyString]
  | String c r =>
      if Ascii.eqb c sep then EmptyString :: split sep r
      else
        match split sep r with
        | [] => [String c EmptyString]
        | p :: ps => String c p :: ps
        end
  end.

(** ToString.  An array is its elements joined by commas, [null] and
    [undefined] elements counting as empty. *)
Fixpoint to_string (v : value) : string :=
  match v with
  | Undefined => "undefined"
  | Null => "null"
  | Bool true => "true"
  | Bool false => "false"
  | Num n => number_to_string n
  | Str s => s
  | Arr vs =>
      join "," (map (fun x => match x with
                              | Undefined | Null => ""
                              | _ => to_string x
                              end) vs)
  | Obj _ => "[object Object]"
  end.

(** [parseFloat(s)]: the longest prefix of the trimmed string that is a
    decimal literal, [NaN] when there is none. *)
Definition parseFloat_string (s : string) : number :=
  let s0 := trim_start s in
  let '(negative, s1) :=
    match s0 with
    | String "-" r => (true, r)
    | String "+" r => (false, r)
    | _ => (false, s0)
    end in
  if prefix "Infinity" s1 then Infinity negative
  else
    let (ip, s2) := span_digits s1 in
    let (fp, s3) :=
      match s2 with
      | String "." r => span_digits r
      | _ => (EmptyString, s2)
      end in
    if (String.eqb ip "" && String.eqb fp "")%bool then NaN
    else
      let (x, _) := parse_exponent s3 in
      Dec (signed negative (digits_value (ip ++ fp)))
          (x - Z.of_nat (String.length fp)).

(** [parseFloat(v)]: the argument is converted to a string first. *)
Definition parseFloat (v : value) : number := parseFloat_string (to_string v).

End JS.

(** ** The runtime around the program: errors, files, network, console *)

Module Node.
Import JS.

(** What a [throw] carries.  [Error] is a [new Error(message)] of the
    program's own; [TypeError] is the runtime's (a property read on [null]);
    [SystemError] comes from [fs], [CryptoError] from [crypto], [AxiosError]
    from a rejected request ([response] is [None] when no answer came). *)
Inductive exn : Type :=
| Error (message : string)
| TypeError (message : string)
| SyntaxError (message : string)
| SystemError (code : string)
| CryptoError (message : string)
| AxiosError (response : option (Z * value)) (message : string)
| PromptClosed.

Definition message (e : exn) : string :=
  match e with
  | Error m | TypeError m | SyntaxError m | CryptoError m => m
  | SystemError code => code
  | AxiosError _ m => m
  | PromptClosed => "prompt closed"
  end.

Inductive result (A : Type) : Type :=
| Return (a : A)
| Throw (e : exn).
Arguments Return {A} a.
Arguments Throw {A} e.

(** [o.k]: reading a property of [null] or [undefined] throws. *)
Definition member (o : value) (k : string) : result value :=
  match o with
  | Undefined =>
      Throw (TypeError ("Cannot read properties of undefined (reading '"
                          ++ k ++ "')"))
  | Null =>
      Throw (TypeError ("Cannot read properties of null (reading '"
                          ++ k ++ "')"))
  | Str s =>
      Return (if String.eqb k "length"
              then Num (of_Z (Z.of_nat (String.length s))) else Undefined)
  | Arr vs =>
      Return (if String.eqb k "length"
              then Num (of_Z (Z.of_nat (List.length vs))) else Undefined)
  | _ => Return (get o k)
  end.

(** *** Files *)

(** [path.join(dir, name)] for a file: kept as its two parts. *)
Record filepath : Type := FilePath { dirname : string; basename : string }.

(** Directories with the files they hold, and whether the volume currently
    refuses reads or writes (permissions, a full or read-only disk). *)
Record Fs : Type := {
  dirs : list (string * list (string * string));
  read_fails : bool;
  write_fails : bool
}.

Fixpoint find {A : Type} (k : string) (l : list (string * A)) : option A :=
  match l with
  | [] => None
  | (k', a) :: l' => if String.eqb k k' then Some a else find k l'
  end.

Fixpoint put {A : Type} (k : string) (a : A) (l : list (string * A))
  : list (string * A) :=
  match l with
  | [] => [(k, a)]
  | (k', a') :: l' =>
      if String.eqb k k' then (k, a) :: l' else (k', a') :: put k a l'
  end.

Definition dir_exists (d : string) (fs : Fs) : bool :=
  match find d (dirs fs) with Some _ => true | None => false end.

(** The content of a file, when it exists. *)
Definition file_content (p : filepath) (fs : Fs) : option string :=
  match find (dirname p) (dirs fs) with
  | Some entries => find (basename p) entries
  | None => None
  end.

Definition file_exists (p : filepath) (fs : Fs) : bool :=
  match file_content p fs with Some _ => true | None => false end.

Definition with_dirs (fs : Fs) (ds : list (string * list (string * string)))
  : Fs :=
  {| dirs := ds; read_fails := read_fails fs; write_fails := write_fails fs |}.

(** The file [p] holding exactly [data]; no effect when its directory is
    missing. *)
Definition store (p : filepath) (data : string) (fs : Fs) : Fs :=
  match find (dirname p) (dirs fs) with
  | Some entries =>
      with_dirs fs (put (dirname p) (put (basename p) data entries) (dirs fs))
  | None => fs
  end.

(** The primitive steps the file calls of the program break into.  There is
    no rename among them: the program never calls one. *)
Inductive fs_op : Type :=
| OpMkdir (d : string)
| OpOpenTruncate (p : filepath)
| OpWrite (p : filepath) (data : string).

Definition apply_op (op : fs_op) (fs : Fs) : Fs :=
  match op with
  | OpMkdir d =>
      if dir_exists d fs then fs else with_dirs fs (dirs fs ++ [(d, [])])
  | OpOpenTruncate p => store p EmptyString fs
  | OpWrite p data =>
      match file_content p fs with
      | Some written => store p (written ++ data) fs
      | None => fs
      end
  end.

Definition apply_ops (l : list fs_op) (fs : Fs) : Fs :=
  fold_left (fun acc op => apply_op op acc) l fs.

(** [fs.mkdirSync(d, { recursive: true })] *)
Definition mkdir_ops (d : string) : list fs_op := [OpMkdir d].

(** [fs.writeFileSync(p, data)]: the file is opened with flag [w], which
    creates or empties it, then [data] is written to it. *)
Definition write_ops (p : filepath) (data : string) : list fs_op :=
  [OpOpenTruncate p; OpWrite p data].

(** The same call stopped (power loss, kill) when [k] bytes had gone out,
    [k] less than the length of [data]. *)
Definition interrupted_write (p : filepath) (data : string) (k : nat)
  (fs : Fs) : Fs :=
  apply_ops [OpOpenTruncate p; OpWrite p (substring 0 k data)] fs.

(** *** Network *)

Record request : Type := {
  req_method : string;
  req_baseURL : value;
  req_url : string;
  req_authorization : option string;
  req_body : value
}.

(** What the server side of a request turns out to be: an HTTP response of
    any status, or no response at all. *)
Inductive reply : Type :=
| Response (status : Z) (statusText : string) (data : value)
| NoResponse.

(** *** Console *)

(** A call of [console.log], [console.info], [console.warn] or
    [console.error] with its arguments, or a state of the [ora] spinner. *)
Inductive line : Type :=
| Console (method : string) (args : list value)
| Spinner (state : string) (text : string).

(** *** What the program does not control *)

Record Env : Type := {
  homedir : string;
  (** [Date.now()] *)
  now : Z;
  (** [crypto.generateKeyPairSync('rsa', { modulusLength, ... })]: the PEM
      pair drawn, or the error thrown. *)
  generateKeyPairSync : Z -> result (string * string);
  (** [crypto.createSign('SHA256')] over [data], signed with [key], in hex;
      [None] when the key is rejected. *)
  sign_sha256_hex : string -> string -> option string;
  (** [x.toFixed(digits)], which only formats what is printed *)
  toFixed : value -> Z -> result string;
  (** the remote service *)
  server : request -> reply;
  (** the lines typed at the interactive prompts *)
  stdin : list string
}.

(** *** State and exceptions *)

(** The part of the state both programs share: the disk, the file
    operations and console lines issued so far, and the requests sent. *)
Record World : Type := {
  fs : Fs;
  ops : list fs_op;
  console : list line;
  sent : list request
}.

Class HasWorld (S : Type) : Type := {
  world : S -> World;
  with_world : World -> S -> S
}.

Definition M (S A : Type) : Type := S -> result A * S.

Definition ret {S A : Type} (a : A) : M S A := fun s => (Return a, s).

Definition throw {S A : Type} (e : exn) : M S A := fun s => (Throw e, s).

Definition bind {S A B : Type} (m : M S A) (k : A -> M S B) : M S B :=
  fun s =>
    match m s with
    | (Return a, s') => k a s'
    | (Throw e, s') => (Throw e, s')
    end.

(** [try { m } catch (error) { handler(error) }] *)
Definition try_catch {S A : Type} (m : M S A) (handler : exn -> M S A)
  : M S A :=
  fun s =>
    match m s with
    | (Return a, s') => (Return a, s')
    | (Throw e, s') => handler e s'
    end.

Definition lift {S A : Type} (r : result A) : M S A := fun s => (r, s).

Declare Scope js_scope.
Delimit Scope js_scope with js.
Notation "x <- m ;; k" := (bind m (fun x => k))
  (at level 61, m at next level, right associativity) : js_scope.
Notation "m ;; k" := (bind m (fun _ => k))
  (at level 61, right associativity) : js_scope.

(** [l.slice(1, -2)] *)
Definition slice_1_m2 {A : Type} (l : list A) : list A :=
  firstn (List.length l - 3) (skipn 1 l).

Section WorldOps.
Context {S : Type} `{HasWorld S}.

Definition update_world (f : World -> World) : M S unit :=
  fun s => (Return tt, with_world (f (world s)) s).

Definition run_ops (l : list fs_op) (w : World) : World :=
  {| fs := apply_ops l (fs w); ops := ops w ++ l;
     console := console w; sent := sent w |}.

Definition existsSync_dir (d : string) : M S bool :=
  fun s => (Return (dir_exists d (fs (world s))), s).

Definition existsSync (p : filepath) : M S bool :=
  fun s => (Return (file_exists p (fs (world s))), s).

Definition mkdirSync (d : string) : M S unit :=
  fun s =>
    if write_fails (fs (world s)) then (Throw (SystemError "EACCES"), s)
    else (Return tt, with_world (run_ops (mkdir_ops d) (world s)) s).

Definition readFileSync (p : filepath) : M S string :=
  fun s =>
    if read_fails (fs (world s)) then (Throw (SystemError "EACCES"), s)
    else match file_content p (fs (world s)) with
         | Some text => (Return text, s)
         | None => (Throw (SystemError "ENOENT"), s)
         end.

Definition writeFileSync (p : filepath) (data : string) : M S unit :=
  fun s =>
    if write_fails (fs (world s)) then (Throw (SystemError "EACCES"), s)
    else if dir_exists (dirname p) (fs (world s))
    then (Return tt, with_world (run_ops (write_ops p data) (world s)) s)
    else (Throw (SystemError "ENOENT"), s).

Definition print (l : line) : M S unit :=
  update_world (fun w =>
    {| fs := fs w; ops := ops w; console := console w ++ [l];
       sent := sent w |}).

Definition console_log (args : list value) : M S unit :=
  print (Console "log" args).

Definition console_error (args : list value) : M S unit :=
  print (Console "error" args).

(** The request goes out and is answered. *)
Definition send (E : Env) (r : request) : M S reply :=
  fun s =>
    (Return (server E r),
     with_world
       {| fs := fs (world s); ops := ops (world s);
          console := console (world s); sent := sent (world s) ++ [r] |} s).

(** [JSON.parse(text)] *)
Definition JSON_parse (text : string) : M S value :=
  match parse text with
  | Some v => ret v
  | None => throw (SyntaxError "Unexpected token in JSON")
  end.

(** [JSON.stringify(o)] where a string is expected. *)
Definition the_string (o : option string) : M S string :=
  match o with
  | Some t => ret t
  | None => throw (TypeError "The data argument must be of type string")
  end.

(** [x.a.b]: a chain of property reads. *)
Fixpoint path (v : value) (keys : list string) : M S value :=
  match keys with
  | [] => ret v
  | k :: ks =>
      match member v k with
      | Return x => path x ks
      | Throw e => throw e
      end
  end.

(** [pem.split('\n').slice(1, -2).join('')]: the body of a PEM block. *)
Definition pem_body (pem : value) : M S value :=
  match pem with
  | Str s => ret (Str (join "" (slice_1_m2 (split "010" s))))
  | Undefined | Null =>
      throw (TypeError "Cannot read properties of undefined (reading 'split')")
  | _ => throw (TypeError "split is not a function")
  end.

(** [s.substring(0, n) + '...'] *)
Definition excerpt (v : value) (n : nat) : M S string :=
  match v with
  | Str s => ret (substring 0 n s ++ "...")
  | Undefined | Null =>
      throw (TypeError "Cannot read properties of undefined (reading 'substring')")
  | _ => throw (TypeError "substring is not a function")
  end.

End WorldOps.

(** *** inquirer *)

(** The questions the program asks: a line of free input with its default,
    filter and validation, or a choice in a list. *)
Inductive question : Type :=
| Input (name : string) (default : value) (filter : value -> value)
        (validate : value -> bool)
| Choice (name : string) (default : value) (choices : list string).

(** An input question is asked again until a line passes: an empty line
    stands for the default, the filter runs first and the validation sees
    its result. *)
Fixpoint ask_input (default : value) (filter : value -> value)
  (validate : value -> bool) (lines : list string)
  : option (value * list string) :=
  match lines with
  | [] => None
  | l :: rest =>
      let input :=
        if String.eqb l "" then
          match default with
          | Undefined | Null => Str ""
          | d => d
          end
        else Str l in
      let answer := filter input in
      if validate answer then Some (answer, rest)
      else ask_input default filter validate rest
  end.

(** A list question only ever yields one of its choices; a line that names
    none of them is skipped, an empty line takes the default or the first
    choice. *)
Fixpoint ask_choice (default : value) (choices : list string)
  (lines : list string) : option (value * list string) :=
  match lines with
  | [] => None
  | l :: rest =>
      let picked :=
        if String.eqb l "" then
          match default with
          | Str d => if existsb (String.eqb d) choices then d else hd "" choices
          | _ => hd "" choices
          end
        else l in
      if existsb (String.eqb picked) choices then Some (Str picked, rest)
      else ask_choice default choices rest
  end.

(** [inquirer.prompt(questions)]: the answers object, or [None] when the
    input ends before every question has a valid answer. *)
Fixpoint prompt (questions : list question) (lines : list string)
  : option (list (string * value)) :=
  match questions with
  | [] => Some []
  | q :: qs =>
      let asked :=
        match q with
        | Input name d f v =>
            option_map (fun r => (name, fst r, snd r)) (ask_input d f v lines)
        | Choice name d cs =>
            option_map (fun r => (name, fst r, snd r)) (ask_choice d cs lines)
        end in
      match asked with
      | Some (name, answer, rest) =>
          match prompt qs rest with
          | Some answers => Some ((name, answer) :: answers)
          | None => None
          end
      | None => None
      end
  end.

End Node.

(** ** otrust-cli.js: the command line client *)

Module Cli.
Import JS Node.
Open Scope js_scope.

(** The process: the global [config] object and the world. *)
Record State : Type := {
  config : value;
  cli_world : World
}.

#[global] Instance State_world : HasWorld State := {
  world := cli_world;
  with_world := fun w s => {| config := config s; cli_world := w |}
}.

Definition get_config : M State value := fun s => (Return (config s), s).

Definition set_config (c : value) : M State unit :=
  fun s => (Return tt, {| config := c; cli_world := cli_world s |}).

(** [config.k = v] *)
Definition set_config_field (k : string) (v : value) : M State unit :=
  c <- get_config ;; set_config (set c k v).

(** The initial value of the global [config]. *)
Definition default_config : value :=
  Obj [("server", Str "http://localhost:3000");
       ("keyPair", Null);
       ("token", Null)].

(** What commander hands to an action: the value of an option that takes
    one, when it was given ([opt]), and whether a flag was given. *)
Definition flag (b : bool) : value := if b then Bool true else Undefined.

Record config_options : Type := {
  config_server : option string;
  config_print : bool
}.

Record claim_options : Type := {
  claim_interactive : bool;
  claim_text : option string;
  claim_evidence : option string;
  claim_type : option string;
  claim_subject : option string;
  claim_predicate : option string;
  claim_object : option string
}.

Record proof_options : Type := {
  proof_interactive : bool;
  proof_claimId : option string;
  proof_action : option string;
  proof_reason : option string;
  proof_confidence : option string
}.

Record profile_options : Type := {
  profile_name : option string;
  profile_email : option string
}.

Section Commands.
Variable E : Env.

Definition CONFIG_DIR : string := homedir E ++ "/.otrust".
Definition CONFIG_FILE : filepath := FilePath CONFIG_DIR "config.json".

Definition saveConfig : M State unit :=
  try_catch
    (c <- get_config ;;
     match stringify_indent2 c with
     | Some text => writeFileSync CONFIG_FILE text
     | None => throw (TypeError "The data argument must be of type string")
     end)
    (fun error =>
       console_error [Str "Error saving config file:"; Str (message error)]).

Definition initConfig : M State unit :=
  d <- existsSync_dir CONFIG_DIR ;;
  (if negb d then mkdirSync CONFIG_DIR else ret tt) ;;
  f <- existsSync CONFIG_FILE ;;
  if f then
    try_catch
      (text <- readFileSync CONFIG_FILE ;;
       parsed <- JSON_parse text ;;
       c <- get_config ;;
       set_config (spread2 c parsed))
      (fun error =>
         console_error [Str "Error loading config file:"; Str (message error)])
  else saveConfig.

Definition generateKeyPair : M State value :=
  match generateKeyPairSync E 2048 with
  | Return (publicKey, privateKey) =>
      ret (Obj [("publicKey", Str publicKey); ("privateKey", Str privateKey)])
  | Throw e => throw e
  end.

Definition signData (data : string) (privateKey : value) : M State string :=
  match privateKey with
  | Str key =>
      match sign_sha256_hex E data key with
      | Some signature => ret signature
      | None => throw (CryptoError "error:1E08010C:DECODER routines::unsupported")
      end
  | _ => throw (TypeError "The key argument must be a string or a key object")
  end.

(** An instance made by [getAxiosInstance], applied to one request: the
    request carries the configured server and the bearer token if there is
    one; the response interceptor prints what went wrong and rejects. *)
Definition api_request (method url : string) (body : value) : M State value :=
  c <- get_config ;;
  r <- send E {| req_method := method;
                 req_baseURL := get c "server";
                 req_url := url;
                 req_authorization :=
                   if truthy (get c "token")
                   then Some ("Bearer " ++ to_string (get c "token"))
                   else None;
                 req_body := body |} ;;
  match r with
  | Response status statusText data =>
      if ((200 <=? status) && (status <? 300))%bool
      then ret (Obj [("data", data)])
      else
        (if status =? 401 then
           console_error [Str "Authentication error:"; Str "Please login first"]
         else if (truthy data && truthy (get data "error"))%bool then
           console_error [Str ("Error (" ++ string_of_Z status ++ "):");
                          get data "error"] ;;
           (if truthy (get data "message")
            then console_error [Str "Details:"; get data "message"]
            else ret tt)
         else
           console_error [Str ("Error " ++ string_of_Z status ++ ":");
                          Str statusText]) ;;
        throw (AxiosError (Some (status, data))
                 ("Request failed with status code " ++ string_of_Z status))
  | NoResponse =>
      console_error [Str "Network error:"; Str "Could not connect to server"] ;;
      throw (AxiosError None "Network Error")
  end.

Definition api_post := api_request "POST".

(** [config] *)
Definition config_action (o : config_options) : M State unit :=
  let options := Obj [("server", opt (config_server o));
                      ("print", flag (config_print o))] in
  (if truthy (get options "server") then
     set_config_field "server" (get options "server") ;;
     saveConfig ;;
     c <- get_config ;;
     console_log [Str "Server URL updated:"; get c "server"]
   else ret tt) ;;
  if (truthy (get options "print") || negb (truthy (get options "server")))%bool
  then
    c <- get_config ;;
    console_log [Str "Current configuration:"] ;;
    console_log [Str "Server URL:"; get c "server"] ;;
    console_log [Str "Public key:";
                 Str (if truthy (get c "keyPair")
                      then "Configured" else "Not configured")] ;;
    console_log [Str "Authentication:";
                 Str (if truthy (get c "token")
                      then "Logged in" else "Not logged in")]
  else ret tt.

(** [init] *)
Definition init_action (force : bool) : M State unit :=
  c <- get_config ;;
  if (truthy (get c "keyPair") && negb (truthy (flag force)))%bool
  then
    console_log [Str "Key pair already exists."; Str "Use --force to regenerate"]
  else
    print (Spinner "start" "Generating key pair...") ;;
    try_catch
      (kp <- generateKeyPair ;;
       set_config_field "keyPair" kp ;;
       saveConfig ;;
       print (Spinner "succeed" "Key pair generated and saved") ;;
       console_log [Str "Public key:"] ;;
       c' <- get_config ;;
       pk <- path c' ["keyPair"; "publicKey"] ;;
       body <- pem_body pk ;;
       console_log [body])
      (fun error =>
         print (Spinner "fail" "Failed to generate key pair") ;;
         console_error [Str "Error:"; Str (message error)]).

(** The canonical string [register] and [login] sign. *)
Definition auth_payload (action : string) (publicKey : value) (timestamp : Z)
  : option string :=
  stringify (Obj [("action", Str action);
                  ("publicKey", publicKey);
                  ("timestamp", Num (of_Z timestamp))]).

(** The bodies of [register] and [login] differ in the action name, the
    endpoint and the messages only. *)
Definition authenticate (action url starting succeeded failed : string)
  (report : value -> M State unit) : M State unit :=
  c <- get_config ;;
  if negb (truthy (get c "keyPair")) then
    console_error [Str "Error:";
                   Str ("No key pair found. Run " ++ String dquote "otrust-cli init"
                          ++ String dquote " first")]
  else
    print (Spinner "start" starting) ;;
    try_catch
      (let timestamp := now E in
       publicKey <- path c ["keyPair"; "publicKey"] ;;
       payload <- the_string (auth_payload action publicKey timestamp) ;;
       privateKey <- path c ["keyPair"; "privateKey"] ;;
       signature <- signData payload privateKey ;;
       response <- api_post url
                     (Obj [("publicKey", publicKey);
                           ("signature", Str signature);
                           ("timestamp", Num (of_Z timestamp))]) ;;
       token <- path response ["data"; "token"] ;;
       set_config_field "token" token ;;
       saveConfig ;;
       print (Spinner "succeed" succeeded) ;;
       report response)
      (fun _ => print (Spinner "fail" failed)).

(** [register] *)
Definition register_action : M State unit :=
  authenticate "register" "/api/auth/register" "Registering account..."
    "Account registered successfully" "Registration failed"
    (fun response =>
       pk <- path response ["data"; "user"; "publicKey"] ;;
       console_log [Str "You are now logged in as:"; pk]).

(** [login] *)
Definition login_action : M State unit :=
  authenticate "login" "/api/auth/login" "Logging in..."
    "Login successful" "Login failed"
    (fun response =>
       pk <- path response ["data"; "user"; "publicKey"] ;;
       console_log [Str "You are logged in as:"; pk] ;;
       name <- path response ["data"; "user"; "displayName"] ;;
       (if truthy name then console_log [Str "Display name:"; name]
        else ret tt) ;;
       score <- path response ["data"; "user"; "score"] ;;
       console_log [Str "Score:"; score]).

(** [logout] *)
Definition logout_action : M State unit :=
  c <- get_config ;;
  if negb (truthy (get c "token")) then
    console_log [Str "You are not logged in"]
  else
    set_config_field "token" Null ;;
    saveConfig ;;
    console_log [Str "Logged out successfully"].


(** [input.length] of a prompt answer, [0] when it has none. *)
Definition length_of (v : value) : Z :=
  match v with
  | Str s => Z.of_nat (String.length s)
  | Arr vs => Z.of_nat (List.length vs)
  | _ => 0
  end.

(** [s.split(',').map(e => e.trim())] *)
Definition split_trim (s : string) : value :=
  Arr (map (fun e => Str (trim e)) (split "," s)).

Definition split_trim_value (v : value) : value :=
  match v with
  | Str s => split_trim s
  | _ => Undefined
  end.

(** [a.join(', ')] *)
Definition join_comma (v : value) : string :=
  match v with
  | Arr vs => join ", " (map to_string vs)
  | _ => ""
  end.

Definition non_empty (input : value) : bool := 0 <? length_of input.

Definition claim_types : list string :=
  ["factual"; "opinion"; "analysis"; "reference"].

Definition claim_questions (claimData : value) : list question :=
  [Input "claim" (get claimData "claim") (fun x => x)
     (fun input => ((3 <=? length_of input) && (length_of input <=? 5000))%bool);
   Input "evidence"
     (if truthy (get claimData "evidence")
      then Str (join_comma (get claimData "evidence")) else Str "")
     split_trim_value non_empty;
   Choice "type" (get claimData "type") claim_types;
   Input "subject" (get (get claimData "semantic") "subject")
     (fun x => x) non_empty;
   Input "predicate" (get (get claimData "semantic") "predicate")
     (fun x => x) non_empty;
   Input "object" (get (get claimData "semantic") "object")
     (fun x => x) non_empty].

(** The canonical string a claim is signed over. *)
Definition claim_payload (claimData : value) : option string :=
  stringify (Obj [("claim", get claimData "claim");
                  ("evidence", get claimData "evidence");
                  ("publicKey", get claimData "publicKey");
                  ("type", get claimData "type");
                  ("parent_id", get claimData "parent_id");
                  ("timestamp", get claimData "timestamp");
                  ("semantic", get claimData "semantic")]).

(** The claim data the options give, before any prompt. *)
Definition claim_data_of_options (o : claim_options) : value :=
  Obj [("claim", opt (claim_text o));
       ("evidence", match claim_evidence o with
                    | Some s => if truthy (Str s) then split_trim s else Null
                    | None => Null
                    end);
       ("type", opt (claim_type o));
       ("semantic", Obj [("subject", opt (claim_subject o));
                         ("predicate", opt (claim_predicate o));
                         ("object", opt (claim_object o))])].

Definition claim_needs_prompt (o : claim_options) (claimData : value) : bool :=
  (claim_interactive o
   || negb (truthy (get claimData "claim"))
   || negb (truthy (get claimData "evidence"))
   || negb (truthy (get claimData "type"))
   || negb (truthy (get (get claimData "semantic") "subject"))
   || negb (truthy (get (get claimData "semantic") "predicate"))
   || negb (truthy (get (get claimData "semantic") "object")))%bool.

(** The claim data once the prompt, if any, is over. *)
Definition claim_data (o : claim_options) : M State value :=
  let claimData := claim_data_of_options o in
  if claim_needs_prompt o claimData then
    match prompt (claim_questions claimData) (stdin E) with
    | Some a =>
        let answers := Obj a in
        ret (Obj [("claim", get answers "claim");
                  ("evidence", get answers "evidence");
                  ("type", get answers "type");
                  ("semantic", Obj [("subject", get answers "subject");
                                    ("predicate", get answers "predicate");
                                    ("object", get answers "object")])])
    | None => throw PromptClosed
    end
  else ret claimData.

(** [claimData.timestamp = ...; claimData.publicKey = ...;
    claimData.parent_id = null] *)
Definition stamp_claim (claimData publicKey : value) (timestamp : Z) : value :=
  set (set (set claimData "timestamp" (Num (of_Z timestamp)))
           "publicKey" publicKey)
      "parent_id" Null.

Fixpoint for_each (vs : list value) (f : value -> M State unit)
  : M State unit :=
  match vs with
  | [] => ret tt
  | v :: vs' => f v ;; for_each vs' f
  end.

(** [claim:create] *)
Definition claim_create_action (o : claim_options) : M State unit :=
  c <- get_config ;;
  if (negb (truthy (get c "token")) || negb (truthy (get c "keyPair")))%bool
  then
    console_error [Str "Error:"; Str "You must be logged in to create a claim"]
  else
    claimData0 <- claim_data o ;;
    let timestamp := now E in
    publicKey <- path c ["keyPair"; "publicKey"] ;;
    let claimData := stamp_claim claimData0 publicKey timestamp in
    payload <- the_string (claim_payload claimData) ;;
    privateKey <- path c ["keyPair"; "privateKey"] ;;
    signature <- signData payload privateKey ;;
    let claimData := set claimData "signature" (Str signature) in
    print (Spinner "start" "Creating claim...") ;;
    try_catch
      (response <- api_post "/api/claim" claimData ;;
       print (Spinner "succeed" "Claim created successfully") ;;
       id <- path response ["data"; "id"] ;;
       console_log [Str "Claim ID:"; id] ;;
       status <- path response ["data"; "blockchainStatus"] ;;
       console_log [Str "Blockchain Status:"; status] ;;
       conflicts <- path response ["data"; "conflicts"] ;;
       if (truthy conflicts && (0 <? length_of conflicts))%bool then
         console_log [Str (nl ++ "Warning:");
                      Str "Potential conflicting claims found:"] ;;
         match conflicts with
         | Arr l =>
             for_each l (fun conflict =>
               cid <- lift (member conflict "id") ;;
               text <- lift (member conflict "claim") ;;
               short <- excerpt text 50 ;;
               console_log [Str ("- " ++ to_string cid ++ ": " ++ short)])
         | _ =>
             throw (TypeError "response.data.conflicts.forEach is not a function")
         end
       else ret tt)
      (fun _ => print (Spinner "fail" "Failed to create claim")).

(** [value >= 0 && value <= 1], [false] for [NaN]. *)
Definition valid_confidence (input : value) : bool :=
  let value := parseFloat input in
  (negb (isNaN value) && num_leb (of_Z 0) value && num_leb value (of_Z 1))%bool.

Definition proof_actions : list string :=
  ["confirmed"; "disputed"; "invalidated"].

Definition proof_questions (proofData : value) : list question :=
  [Input "claimId" (get proofData "claimId") (fun x => x) non_empty;
   Choice "action" (get proofData "action") proof_actions;
   Input "reason" (get proofData "reason") (fun x => x) (fun _ => true);
   Input "confidence" (get proofData "confidence")
     (fun input => Num (parseFloat input)) valid_confidence].

(** The proof data the options give, before any prompt. *)
Definition proof_data_of_options (o : proof_options) : value :=
  Obj [("claimId", opt (proof_claimId o));
       ("action", opt (proof_action o));
       ("reason", opt (proof_reason o));
       ("confidence",
        if truthy (opt (proof_confidence o))
        then Num (parseFloat (opt (proof_confidence o)))
        else Num (Dec 1 0))].

Definition proof_needs_prompt (o : proof_options) (proofData : value) : bool :=
  (proof_interactive o
   || negb (truthy (get proofData "claimId"))
   || negb (truthy (get proofData "action")))%bool.

(** The proof data once the prompt, if any, is over. *)
Definition proof_data (o : proof_options) : M State value :=
  let proofData := proof_data_of_options o in
  if proof_needs_prompt o proofData then
    match prompt (proof_questions proofData) (stdin E) with
    | Some a =>
        let answers := Obj a in
        ret (Obj [("claimId", get answers "claimId");
                  ("action", get answers "action");
                  ("reason", get answers "reason");
                  ("confidence", get answers "confidence")])
    | None => throw PromptClosed
    end
  else ret proofData.

(** The canonical string a proof is signed over. *)
Definition proof_payload (proofData : value) : option string :=
  stringify (Obj [("claimId", get proofData "claimId");
                  ("action", get proofData "action");
                  ("publicKey", get proofData "publicKey");
                  ("timestamp", get proofData "timestamp");
                  ("reason", get proofData "reason");
                  ("confidence", get proofData "confidence")]).

(** [proofData.timestamp = ...; proofData.publicKey = ...] *)
Definition stamp_proof (proofData publicKey : value) (timestamp : Z) : value :=
  set (set proofData "timestamp" (Num (of_Z timestamp))) "publicKey" publicKey.

Definition fixed (v : value) (digits : Z) : M State value :=
  match toFixed E v digits with
  | Return t => ret (Str t)
  | Throw e => throw e
  end.

(** [proof:add] *)
Definition proof_add_action (o : proof_options) : M State unit :=
  c <- get_config ;;
  if (negb (truthy (get c "token")) || negb (truthy (get c "keyPair")))%bool
  then
    console_error [Str "Error:"; Str "You must be logged in to add a proof"]
  else
    proofData0 <- proof_data o ;;
    let timestamp := now E in
    publicKey <- path c ["keyPair"; "publicKey"] ;;
    let proofData := stamp_proof proofData0 publicKey timestamp in
    payload <- the_string (proof_payload proofData) ;;
    privateKey <- path c ["keyPair"; "privateKey"] ;;
    signature <- signData payload privateKey ;;
    let proofData := set proofData "signature" (Str signature) in
    print (Spinner "start" "Adding proof...") ;;
    try_catch
      (response <- api_post "/api/proof" proofData ;;
       print (Spinner "succeed" "Proof added successfully") ;;
       id <- path response ["data"; "claimId"] ;;
       console_log [Str "Claim ID:"; id] ;;
       status <- path response ["data"; "blockchainStatus"] ;;
       console_log [Str "Blockchain Status:"; status] ;;
       console_log [Str "Credibility:"] ;;
       score <- path response ["data"; "credibility"; "score"] ;;
       shown <- fixed score 2 ;;
       console_log [Str "Score:"; shown] ;;
       confirmations <- path response ["data"; "credibility"; "confirmations"] ;;
       console_log [Str "Confirmations:"; confirmations] ;;
       disputes <- path response ["data"; "credibility"; "disputes"] ;;
       console_log [Str "Disputes:"; disputes])
      (fun _ => print (Spinner "fail" "Failed to add proof")).

Definition api_put := api_request "PUT".

(** [profile] *)
Definition profile_action (o : profile_options) : M State unit :=
  let options := Obj [("name", opt (profile_name o));
                      ("email", opt (profile_email o))] in
  c <- get_config ;;
  if negb (truthy (get c "token")) then
    console_error [Str "Error:";
                   Str "You must be logged in to update your profile"]
  else if (negb (truthy (get options "name"))
           && negb (truthy (get options "email")))%bool then
    console_log [Str "No updates provided.";
                 Str "Use --name or --email to update profile"]
  else
    print (Spinner "start" "Updating profile...") ;;
    try_catch
      (response <- api_put "/api/user/profile"
                     (Obj [("displayName", get options "name");
                           ("email", get options "email")]) ;;
       print (Spinner "succeed" "Profile updated successfully") ;;
       console_log [Str "Profile:"] ;;
       pk <- path response ["data"; "user"; "publicKey"] ;;
       console_log [Str "Public key:"; pk] ;;
       name <- path response ["data"; "user"; "displayName"] ;;
       console_log [Str "Display name:"; or_else name (Str "Not set")] ;;
       score <- path response ["data"; "user"; "score"] ;;
       console_log [Str "Score:"; score])
      (fun _ => print (Spinner "fail" "Profile update failed")).

End Commands.
End Cli.

(** ** lib/api.js: class OtrustCLI *)

Module OtrustCLI.
Import JS Node.
Open Scope js_scope.

(** An instance: its fields, the defaults of its axios client
    ([api.defaults.baseURL] and the [Authorization] header), and the
    world. *)
Record State : Type := {
  server : value;
  configDir : string;
  configFile : filepath;
  logLevel : string;
  config : value;
  baseURL : value;
  authorization : option string;
  api_world : World
}.

#[global] Instance State_world : HasWorld State := {
  world := api_world;
  with_world := fun w s =>
    {| server := server s; configDir := configDir s;
       configFile := configFile s; logLevel := logLevel s;
       config := config s; baseURL := baseURL s;
       authorization := authorization s; api_world := w |}
}.

Definition this : M State State := fun s => (Return s, s).

Definition set_config (c : value) : M State unit :=
  fun s => (Return tt,
    {| server := server s; configDir := configDir s;
       configFile := configFile s; logLevel := logLevel s;
       config := c; baseURL := baseURL s;
       authorization := authorization s; api_world := api_world s |}).

(** [this.server = v; this.api.defaults.baseURL = v] *)
Definition set_server (v : value) : M State unit :=
  fun s => (Return tt,
    {| server := v; configDir := configDir s;
       configFile := configFile s; logLevel := logLevel s;
       config := config s; baseURL := v;
       authorization := authorization s; api_world := api_world s |}).

Definition set_authorization (h : option string) : M State unit :=
  fun s => (Return tt,
    {| server := server s; configDir := configDir s;
       configFile := configFile s; logLevel := logLevel s;
       config := config s; baseURL := baseURL s;
       authorization := h; api_world := api_world s |}).

Definition get_config : M State value := fun s => (Return (config s), s).

Definition set_config_field (k : string) (v : value) : M State unit :=
  c <- get_config ;; set_config (set c k v).

Definition levels (level : string) : option Z :=
  if String.eqb level "debug" then Some 0
  else if String.eqb level "info" then Some 1
  else if String.eqb level "warn" then Some 2
  else if String.eqb level "error" then Some 3
  else None.

Definition _log (level text : string) : M State unit :=
  s <- this ;;
  match levels level, levels (logLevel s) with
  | Some a, Some b =>
      if b <=? a then
        print (Console (if String.eqb level "debug" then "log" else level)
                       [Str ("[OTRUST] " ++ text)])
      else ret tt
  | _, _ => ret tt
  end.

Section Methods.
Variable E : Env.

Definition _loadConfig : M State unit :=
  try_catch
    (s <- this ;;
     f <- existsSync (configFile s) ;;
     if f then
       data <- readFileSync (configFile s) ;;
       parsed <- JSON_parse data ;;
       set_config (spread2 (config s) parsed) ;;
       c <- get_config ;;
       v <- lift (member c "server") ;;
       set_server v ;;
       (if truthy (get c "token")
        then set_authorization
               (Some ("Bearer " ++ to_string (get c "token")))
        else ret tt) ;;
       _log "debug" "Konfiguration laddad"
     else ret tt)
    (fun error =>
       _log "error" ("Fel vid laddning av konfiguration: " ++ message error)).

(** [new OtrustCLI(options)] *)
Record options : Type := {
  opt_server : option string;
  opt_configDir : option string;
  opt_logLevel : option string
}.

Definition or_default (o : option string) (d : string) : string :=
  match o with
  | Some s => if String.eqb s "" then d else s
  | None => d
  end.

(** [options.configDir || path.join(os.homedir(), '.otrust')] *)
Definition config_dir_of (o : options) : string :=
  or_default (opt_configDir o) (homedir E ++ "/.otrust").

Definition constructor (o : options) (w : World) : result unit * State :=
  let server0 := or_default (opt_server o) "http://localhost:3000" in
  let dir := config_dir_of o in
  _loadConfig
    {| server := Str server0;
       configDir := dir;
       configFile := FilePath dir "config.json";
       logLevel := or_default (opt_logLevel o) "info";
       config := Obj [("server", Str server0);
                      ("keyPair", Null);
                      ("token", Null)];
       baseURL := Str server0;
       authorization := None;
       api_world := w |}.

Definition _saveConfig : M State unit :=
  try_catch
    (s <- this ;;
     d <- existsSync_dir (configDir s) ;;
     (if negb d then mkdirSync (configDir s) else ret tt) ;;
     match stringify_indent2 (config s) with
     | Some text => writeFileSync (configFile s) text
     | None => throw (TypeError "The data argument must be of type string")
     end ;;
     _log "debug" "Konfiguration sparad")
    (fun error =>
       _log "error" ("Fel vid sparande av konfiguration: " ++ message error) ;;
       throw error).

Definition _generateKeyPair : M State value :=
  try_catch
    (_log "debug" "Genererar nytt nyckelpar" ;;
     match generateKeyPairSync E 2048 with
     | Return (publicKey, privateKey) =>
         ret (Obj [("publicKey", Str publicKey);
                   ("privateKey", Str privateKey)])
     | Throw e => throw e
     end)
    (fun error =>
       _log "error" ("Fel vid generering av nyckelpar: " ++ message error) ;;
       throw error).

(** [_sign(data, privateKey)]; the callers in this class pass no key, which
    is [privateKey = Undefined]. *)
Definition _sign (data : string) (privateKey : value) : M State string :=
  try_catch
    (c <- get_config ;;
     key <- (if truthy privateKey then ret privateKey
             else if truthy (get c "keyPair")
                  then lift (member (get c "keyPair") "privateKey")
                  else ret Null) ;;
     if negb (truthy key) then throw (Error "Ingen privat nyckel konfigurerad")
     else
       match key with
       | Str k =>
           match sign_sha256_hex E data k with
           | Some signature => ret signature
           | None =>
               throw (CryptoError "error:1E08010C:DECODER routines::unsupported")
           end
       | _ =>
           throw (TypeError "The key argument must be a string or a key object")
       end)
    (fun error =>
       _log "error" ("Fel vid signering: " ++ message error) ;;
       throw error).

Definition getConfig : M State value :=
  c <- get_config ;;
  ret (Obj [("server", get c "server");
            ("hasKeyPair", Bool (truthy (get c "keyPair")));
            ("isLoggedIn", Bool (truthy (get c "token")))]).

Definition setConfig (new_server : option string) : M State value :=
  (if truthy (opt new_server) then
     set_config_field "server" (opt new_server) ;;
     set_server (opt new_server)
   else ret tt) ;;
  _saveConfig ;;
  getConfig.

(** [init({ force })] *)
Definition init (force : bool) : M State value :=
  c <- get_config ;;
  (if (negb (truthy (get c "keyPair")) || force)%bool then
     kp <- _generateKeyPair ;;
     set_config_field "keyPair" kp ;;
     _saveConfig ;;
     _log "info" "Nytt nyckelpar genererat"
   else _log "info" "Nyckelpar finns redan") ;;
  c' <- get_config ;;
  kp <- lift (member c' "keyPair") ;;
  pk <- lift (member kp "publicKey") ;;
  body <- pem_body pk ;;
  ret (Obj [("publicKey", body)]).

Definition loadKeyPair (keyPair : value) : M State unit :=
  pub <- lift (member keyPair "publicKey") ;;
  priv <- lift (member keyPair "privateKey") ;;
  if (negb (truthy pub) || negb (truthy priv))%bool then
    throw (Error "Både publik och privat nyckel krävs")
  else
    set_config_field "keyPair"
      (Obj [("publicKey", pub); ("privateKey", priv)]) ;;
    _saveConfig ;;
    _log "info" "Nyckelpar laddat".

(** The axios client of the instance applied to one request; its
    interceptor logs a rejection and passes it on. *)
Definition api_request (method url : string) (body : value) : M State value :=
  s <- this ;;
  r <- send E {| req_method := method;
                 req_baseURL := baseURL s;
                 req_url := url;
                 req_authorization := authorization s;
                 req_body := body |} ;;
  match r with
  | Response status statusText data =>
      if ((200 <=? status) && (status <? 300))%bool
      then ret (Obj [("data", data)])
      else
        let text := "Request failed with status code " ++ string_of_Z status in
        _log "error" ("API Error: " ++ text) ;;
        throw (AxiosError (Some (status, data)) text)
  | NoResponse =>
      _log "error" "API Error: Network Error" ;;
      throw (AxiosError None "Network Error")
  end.

Definition api_post := api_request "POST".

(** [error.response ? error.response.data : error.message] *)
Definition failure (error : exn) : M State value :=
  match error with
  | AxiosError (Some (_, data)) _ =>
      ret (Obj [("success", Bool false); ("error", data)])
  | _ => ret (Obj [("success", Bool false); ("error", Str (message error))])
  end.

Definition no_key_pair : string :=
  "Inget nyckelpar konfigurerat. Kör init() först.".

(** The canonical string [register()] and [login()] sign. *)
Definition auth_payload (action : string) (publicKey : value) (timestamp : Z)
  : option string :=
  stringify (Obj [("action", Str action);
                  ("publicKey", publicKey);
                  ("timestamp", Num (of_Z timestamp))]).

(** [register()] and [login()] differ in the action name and the endpoint
    only. *)
Definition authenticate (action url : string) : M State value :=
  c <- get_config ;;
  if negb (truthy (get c "keyPair")) then throw (Error no_key_pair)
  else
    let timestamp := now E in
    publicKey <- path c ["keyPair"; "publicKey"] ;;
    payload <- the_string (auth_payload action publicKey timestamp) ;;
    signature <- _sign payload Undefined ;;
    try_catch
      (response <- api_post url
                     (Obj [("publicKey", publicKey);
                           ("signature", Str signature);
                           ("timestamp", Num (of_Z timestamp))]) ;;
       token <- path response ["data"; "token"] ;;
       set_config_field "token" token ;;
       set_authorization (Some ("Bearer " ++ to_string token)) ;;
       _saveConfig ;;
       user <- path response ["data"; "user"] ;;
       ret (Obj [("success", Bool true); ("user", user)]))
      failure.

Definition register : M State value :=
  authenticate "register" "/api/auth/register".

Definition login : M State value :=
  authenticate "login" "/api/auth/login".

Definition logout : M State value :=
  set_config_field "token" Null ;;
  set_authorization None ;;
  _saveConfig ;;
  ret (Obj [("success", Bool true)]).

(** The canonical string [buildClaimPayload] returns. *)
Definition claim_payload (claim evidence publicKey type parent_id : value)
  (timestamp : Z) (semantic : value) : option string :=
  stringify (Obj [("claim", claim);
                  ("evidence", evidence);
                  ("publicKey", publicKey);
                  ("type", type);
                  ("parent_id", or_else parent_id Null);
                  ("timestamp", Num (of_Z timestamp));
                  ("semantic", semantic)]).

Definition buildClaimPayload (claimData : value) : M State string :=
  c <- get_config ;;
  if negb (truthy (get c "keyPair")) then throw (Error no_key_pair)
  else
    let timestamp := now E in
    publicKey <- path c ["keyPair"; "publicKey"] ;;
    claim <- lift (member claimData "claim") ;;
    evidence <- lift (member claimData "evidence") ;;
    type <- lift (member claimData "type") ;;
    parent_id <- lift (member claimData "parent_id") ;;
    semantic <- lift (member claimData "semantic") ;;
    the_string
      (claim_payload claim evidence publicKey type parent_id timestamp
                     semantic).

(** [error.response ? prefix + error.response.data.error
                    : prefix + error.message] *)
Definition rethrow (prefix : string) (error : exn) : M State value :=
  match error with
  | AxiosError (Some (_, data)) _ =>
      e <- lift (member data "error") ;;
      throw (Error (prefix ++ to_string e))
  | _ => throw (Error (prefix ++ message error))
  end.

Definition createClaim (claimData : value) : M State value :=
  c <- get_config ;;
  if negb (truthy (get c "token"))
  then throw (Error "Du måste vara inloggad för att skapa påståenden")
  else
    payload <- buildClaimPayload claimData ;;
    signature <- _sign payload Undefined ;;
    claim <- JSON_parse payload ;;
    let claim := set claim "signature" (Str signature) in
    try_catch
      (response <- api_post "/api/claim" claim ;;
       path response ["data"])
      (rethrow "Fel vid skapande av påstående: ").

(** The canonical string [addProof] signs. *)
Definition proof_payload (claimId action publicKey : value) (timestamp : Z)
  (reason confidence : value) : option string :=
  stringify (Obj [("claimId", claimId);
                  ("action", action);
                  ("publicKey", publicKey);
                  ("timestamp", Num (of_Z timestamp));
                  ("reason", reason);
                  ("confidence", confidence)]).

Definition addProof (proofData : value) : M State value :=
  c <- get_config ;;
  if negb (truthy (get c "token"))
  then throw (Error "Du måste vara inloggad för att lägga till bevis")
  else
    let timestamp := now E in
    claimId <- lift (member proofData "claimId") ;;
    action <- lift (member proofData "action") ;;
    publicKey <- path c ["keyPair"; "publicKey"] ;;
    reason <- lift (member proofData "reason") ;;
    confidence <- lift (member proofData "confidence") ;;
    payload <- the_string
                 (proof_payload claimId action publicKey timestamp reason
                                confidence) ;;
    signature <- _sign payload Undefined ;;
    proof <- JSON_parse payload ;;
    let proof := set proof "signature" (Str signature) in
    try_catch
      (response <- api_post "/api/proof" proof ;;
       path response ["data"])
      (rethrow "Fel vid läggning av bevis: ").

Definition set_logLevel (level : string) : M State unit :=
  fun s => (Return tt,
    {| server := server s; configDir := configDir s;
       configFile := configFile s; logLevel := level;
       config := config s; baseURL := baseURL s;
       authorization := authorization s; api_world := api_world s |}).

Definition log_levels : list string := ["debug"; "info"; "warn"; "error"].

(** [setLogLevel(level)]; a value that is not a string is none of the four
    names. *)
Definition setLogLevel (level : value) : M State unit :=
  match level with
  | Str l =>
      if existsb (String.eqb l) log_levels then set_logLevel l
      else throw (Error ("Ogiltig loggnivå: " ++ l))
  | _ => throw (Error ("Ogiltig loggnivå: " ++ to_string level))
  end.

Definition api_put := api_request "PUT".

(** [this.api.get(url, config)]: a GET carries no body; the record keeps
    the config object of the call ([{ params }], or nothing) in its
    place. *)
Definition api_get := api_request "GET".

(** A parameter with the default [{}]. *)
Definition or_empty (v : value) : value :=
  match v with
  | Undefined => Obj []
  | _ => v
  end.

Definition updateProfile (profile : value) : M State value :=
  let profile := or_empty profile in
  c <- get_config ;;
  if negb (truthy (get c "token"))
  then throw (Error "Du måste vara inloggad för att uppdatera profilen")
  else
    try_catch
      (displayName <- lift (member profile "displayName") ;;
       email <- lift (member profile "email") ;;
       response <- api_put "/api/user/profile"
                     (Obj [("displayName", displayName); ("email", email)]) ;;
       user <- path response ["data"; "user"] ;;
       ret (Obj [("success", Bool true); ("user", user)]))
      failure.

(** [claim.signature = signature] in strict mode, where [claim] is what
    JSON.parse returned: an object takes the property, [null] and the
    primitives refuse it; an array takes it beside its elements, where the
    embedding does not keep it. *)
Definition set_signature (claim signature : value) : M State value :=
  match claim with
  | Obj _ => ret (set claim "signature" signature)
  | Arr _ => ret claim
  | Null | Undefined =>
      throw (TypeError "Cannot set properties of null (setting 'signature')")
  | _ =>
      throw (TypeError ("Cannot create property 'signature' on "
                          ++ to_string claim))
  end.

Definition createClaimWithSignature (payload : string) (signature : value)
  : M State value :=
  c <- get_config ;;
  if negb (truthy (get c "token"))
  then throw (Error "Du måste vara inloggad för att skapa påståenden")
  else
    claim <- JSON_parse payload ;;
    claim <- set_signature claim signature ;;
    try_catch
      (response <- api_post "/api/claim" claim ;;
       path response ["data"])
      (rethrow "Fel vid skapande av påstående: ").

(** The read methods share one body: a GET, the data of the response, and
    any failure thrown again under the method's own prefix. *)
Definition fetch (prefix url : string) (config : value) : M State value :=
  try_catch
    (response <- api_get url config ;;
     path response ["data"])
    (rethrow prefix).

Definition getClaim (id : value) : M State value :=
  fetch "Fel vid hämtning av påstående: "
        ("/api/claim/" ++ to_string id) Undefined.

Definition listClaims (options : value) : M State value :=
  fetch "Fel vid listning av påståenden: " "/api/claims"
        (Obj [("params", or_empty options)]).

(** [{ q: query, ...options }] *)
Definition search_params (query options : value) : value :=
  spread2 (Obj [("q", query)]) (or_empty options).

Definition search (query options : value) : M State value :=
  fetch "Fel vid sökning: " "/api/search"
        (Obj [("params", search_params query options)]).

Definition verify (id : value) : M State value :=
  fetch "Fel vid verifiering: "
        ("/api/claim/" ++ to_string id ++ "/verify") Undefined.

Definition semanticQuery (subject predicate : value) : M State value :=
  fetch "Fel vid semantisk sökning: "
        ("/api/semantic/" ++ to_string subject ++ "/" ++ to_string predicate)
        Undefined.

Definition getUserInfo (publicKey : value) : M State value :=
  try_catch
    (c <- get_config ;;
     key <- (if truthy publicKey then ret publicKey
             else if truthy (get c "keyPair")
                  then lift (member (get c "keyPair") "publicKey")
                  else ret Null) ;;
     if negb (truthy key)
     then throw (Error "Ingen publik nyckel angiven och du är inte inloggad")
     else
       response <- api_get ("/api/user/" ++ to_string key) Undefined ;;
       path response ["data"])
    (rethrow "Fel vid hämtning av användarinfo: ").

Definition getBlockchainStats : M State value :=
  fetch "Fel vid hämtning av blockkedjestatistik: " "/api/blockchain/stats"
        Undefined.

Definition getSystemStats : M State value :=
  fetch "Fel vid hämtning av systemstatistik: " "/api/stats" Undefined.

Definition getHealth : M State value :=
  fetch "Fel vid hälsokontroll: " "/health" Undefined.

End Methods.
End OtrustCLI.

(** ** The data model of the specification *)

(** KeyPair: the two PEM strings. *)
Record KeyPair : Type := {
  publicKey : string;
  privateKey : string
}.

(** Config: the server URL, the key pair if there is one, the session token
    if there is one. *)
Record Config : Type := {
  serverUrl : string;
  keyPair : option KeyPair;
  token : option string
}.

Definition keyPair_value (kp : KeyPair) : JS.value :=
  JS.Obj [("publicKey", JS.Str (publicKey kp));
          ("privateKey", JS.Str (privateKey kp))].

Definition option_value {A : Type} (f : A -> JS.value) (o : option A)
  : JS.value :=
  match o with
  | Some a => f a
  | None => JS.Null
  end.

(** The [config] object that holds a given configuration. *)
Definition config_value (c : Config) : JS.value :=
  JS.Obj [("server", JS.Str (serverUrl c));
          ("keyPair", option_value keyPair_value (keyPair c));
          ("token", option_value JS.Str (token c))].

Definition logged_out (c : Config) : Config :=
  {| serverUrl := serverUrl c; keyPair := keyPair c; token := None |}.

Definition with_keyPair (c : Config) (kp : KeyPair) : Config :=
  {| serverUrl := serverUrl c; keyPair := Some kp; token := token c |}.

(** The text [JSON.stringify(config, null, 2)] writes for a configuration,
    spelled out. *)
Definition keyPair_text (o : option KeyPair) : string :=
  match o with
  | None => "null"
  | Some kp =>
      "{" ++ JS.nl ++
      "    " ++ JS.quote "publicKey" ++ ": " ++ JS.quote (publicKey kp) ++
      "," ++ JS.nl ++
      "    " ++ JS.quote "privateKey" ++ ": " ++ JS.quote (privateKey kp) ++
      JS.nl ++ "  }"
  end.

Definition token_text (o : option string) : string :=
  match o with
  | None => "null"
  | Some t => JS.quote t
  end.

Definition config_text (c : Config) : string :=
  "{" ++ JS.nl ++
  "  " ++ JS.quote "server" ++ ": " ++ JS.quote (serverUrl c) ++ "," ++ JS.nl ++
  "  " ++ JS.quote "keyPair" ++ ": " ++ keyPair_text (keyPair c) ++ "," ++ JS.nl ++
  "  " ++ JS.quote "token" ++ ": " ++ token_text (token c) ++ JS.nl ++
  "}".

(** The configuration the file on disk holds, when it parses. *)
Definition disk_config (p : Node.filepath) (fs : Node.Fs) : option JS.value :=
  match Node.file_content p fs with
  | Some text => JS.parse text
  | None => None
  end.

(** A world with a given disk and nothing done yet. *)
Definition fresh_world (fs : Node.Fs) : Node.World :=
  {| Node.fs := fs; Node.ops := []; Node.console := []; Node.sent := [] |}.

(** Strings made of JSON white space only. *)
Fixpoint all_ws (s : string) : bool :=
  match s with
  | EmptyString => true
  | String c r => (JS.is_json_ws c && all_ws r)%bool
  end.

(** The configuration a first run starts from. *)
Definition default_Config : Config :=
  {| serverUrl := "http://localhost:3000"; keyPair := None; token := None |}.

(** The configuration a new library instance starts from. *)
Definition initial_Config (o : OtrustCLI.options) : Config :=
  {| serverUrl := OtrustCLI.or_default (OtrustCLI.opt_server o)
                    "http://localhost:3000";
     keyPair := None; token := None |}.

Section Vocabulary.
Import JS Node.

(** What [_log] prints at a given level of the instance. *)
Definition log_lines (logLevel level text : string) : list line :=
  match OtrustCLI.levels level, OtrustCLI.levels logLevel with
  | Some a, Some b =>
      if (b <=? a)%Z then
        [Console (if String.eqb level "debug" then "log" else level)
                 [Str ("[OTRUST] " ++ text)]]
      else []
  | _, _ => []
  end.

Definition add_console (l : list line) (w : World) : World :=
  {| fs := fs w; ops := ops w; console := console w ++ l; sent := sent w |}.


Definition save_ops (s : OtrustCLI.State) (text : string) : list fs_op :=
  (if dir_exists (OtrustCLI.configDir s) (fs (world s)) then []
   else mkdir_ops (OtrustCLI.configDir s))
  ++ write_ops (OtrustCLI.configFile s) text.

(** The [Authorization] header a loaded token sets. *)
Definition bearer (previous : option string) (t : option string)
  : option string :=
  match t with
  | Some t => if String.eqb t "" then previous else Some ("Bearer " ++ t)
  | None => previous
  end.

(** The error a load of the config file runs into: the read is refused, or
    the text is not JSON. *)
Definition load_error (p : filepath) (d : Fs) : option exn :=
  if read_fails d then Some (SystemError "EACCES")
  else match file_content p d with
       | Some text =>
           match parse text with
           | Some _ => None
           | None => Some (SyntaxError "Unexpected token in JSON")
           end
       | None => Some (SystemError "ENOENT")
       end.

(** [pem.split('\n').slice(1, -2).join('')]: what [init] shows of a public
    key. *)
Definition pem_body_of (s : string) : string :=
  join "" (slice_1_m2 (split "010" s)).

(** *** Claims and proofs as the documentation types them *)

(** The fields of a claim: text, evidence URLs, type, the parent claim if
    any, and the semantic triple. *)
Record ClaimData : Type := {
  cd_claim : string;
  cd_evidence : list string;
  cd_type : string;
  cd_parent : option string;
  cd_subject : string;
  cd_predicate : string;
  cd_object : string
}.

(** The fields of a proof; the reason is optional, the confidence is the
    decimal [m * 10^e]. *)
Record ProofData : Type := {
  pd_claimId : string;
  pd_action : string;
  pd_reason : option string;
  pd_confidence : Z * Z
}.

Definition semantic_value (k : ClaimData) : value :=
  Obj [("subject", Str (cd_subject k));
       ("predicate", Str (cd_predicate k));
       ("object", Str (cd_object k))].

(** The [claimData] object that holds the fields; [parent_id] is present
    only when there is a parent. *)
Definition claimData_value (k : ClaimData) : value :=
  Obj ([("claim", Str (cd_claim k));
        ("evidence", Arr (map Str (cd_evidence k)));
        ("type", Str (cd_type k))]
       ++ match cd_parent k with
          | Some p => [("parent_id", Str p)]
          | None => []
          end
       ++ [("semantic", semantic_value k)])%list.

Definition confidence_value (p : ProofData) : value :=
  Num (Dec (fst (pd_confidence p)) (snd (pd_confidence p))).

Definition proofData_value (p : ProofData) : value :=
  Obj [("claimId", Str (pd_claimId p));
       ("action", Str (pd_action p));
       ("reason", opt (pd_reason p));
       ("confidence", confidence_value p)].

(** The canonical strings, spelled out: the fields in order, separated by
    commas, no white space. *)
Definition field (k v : string) : string := quote k ++ ":" ++ v.

Definition auth_text (action publicKey : string) (timestamp : Z) : string :=
  "{" ++ field "action" (quote action) ++
  "," ++ field "publicKey" (quote publicKey) ++
  "," ++ field "timestamp" (string_of_Z timestamp) ++ "}".

Definition strings_text (l : list string) : string :=
  "[" ++ join "," (map quote l) ++ "]".

Definition semantic_text (k : ClaimData) : string :=
  "{" ++ field "subject" (quote (cd_subject k)) ++
  "," ++ field "predicate" (quote (cd_predicate k)) ++
  "," ++ field "object" (quote (cd_object k)) ++ "}".

(** A missing or empty parent is written [null]. *)
Definition parent_text (o : option string) : string :=
  match o with
  | Some p => if String.eqb p "" then "null" else quote p
  | None => "null"
  end.

Definition claim_text (k : ClaimData) (publicKey : string) (timestamp : Z)
  : string :=
  "{" ++ field "claim" (quote (cd_claim k)) ++
  "," ++ field "evidence" (strings_text (cd_evidence k)) ++
  "," ++ field "publicKey" (quote publicKey) ++
  "," ++ field "type" (quote (cd_type k)) ++
  "," ++ field "parent_id" (parent_text (cd_parent k)) ++
  "," ++ field "timestamp" (string_of_Z timestamp) ++
  "," ++ field "semantic" (semantic_text k) ++ "}".

(** The [reason] member, with the comma before it; a proof without a
    reason has no such member. *)
Definition reason_text (o : option string) : string :=
  match o with
  | Some r => "," ++ field "reason" (quote r)
  | None => ""
  end.

Definition proof_text (p : ProofData) (publicKey : string) (timestamp : Z)
  : string :=
  "{" ++ field "claimId" (quote (pd_claimId p)) ++
  "," ++ field "action" (quote (pd_action p)) ++
  "," ++ field "publicKey" (quote publicKey) ++
  "," ++ field "timestamp" (string_of_Z timestamp) ++
  reason_text (pd_reason p) ++
  "," ++ field "confidence"
           (number_to_string (Dec (fst (pd_confidence p))
                                  (snd (pd_confidence p)))) ++ "}".

(** The claim data without a parent, as the command line client builds
    it. *)
Definition without_parent (k : ClaimData) : ClaimData :=
  {| cd_claim := cd_claim k; cd_evidence := cd_evidence k;
     cd_type := cd_type k; cd_parent := None;
     cd_subject := cd_subject k; cd_predicate := cd_predicate k;
     cd_object := cd_object k |}.

Fixpoint all_digits (s : string) : bool :=
  match s with
  | EmptyString => true
  | String c r => (is_digit c && all_digits r)%bool
  end.

(** A computation of the command line client that sends nothing. *)
Definition keeps_sent {A : Type} (m : M Cli.State A) : Prop :=
  forall s, sent (world (snd (m s))) = sent (world s).

(** The request an axios instance of the client makes under config [c]. *)
Definition cli_request (c : value) (method url : string) (body : value)
  : request :=
  {| req_method := method;
     req_baseURL := get c "server";
     req_url := url;
     req_authorization :=
       if truthy (get c "token")
       then Some ("Bearer " ++ to_string (get c "token"))
       else None;
     req_body := body |}.

(** A parent that is missing or empty counts as no parent. *)
Definition normal_parent (o : option string) : option string :=
  match o with
  | Some p => if String.eqb p "" then None else Some p
  | None => None
  end.

(** The elements of a string array after the first, up to the bracket. *)
Fixpoint more_strings (l : list string) (rest : string) : string :=
  match l with
  | [] => "]" ++ rest
  | x :: l' => "," ++ quote x ++ more_strings l' rest
  end.

(** The confidence the options of a non-interactive [proof:add] give. *)
Definition confidence_of_flag (f : option string) : number :=
  match f with
  | Some x => if String.eqb x "" then Dec 1 0 else parseFloat_string x
  | None => Dec 1 0
  end.

End Vocabulary.

(** ** Sample data for the worked examples *)

Section Samples.
Import JS Node.

Definition pem (label body : string) : string :=
  "-----BEGIN " ++ label ++ "-----" ++ nl ++ body ++ nl ++
  "-----END " ++ label ++ "-----" ++ nl.

Definition sample_keyPair : KeyPair :=
  {| publicKey := pem "PUBLIC KEY" "MIIBIjANBgkqhkiG9w0BAQEFAAOCAQ8A";
     privateKey := pem "PRIVATE KEY" "MIIEvQIBADANBgkqhkiG9w0BAQEFAASC" |}.

Definition fresh_keyPair : KeyPair :=
  {| publicKey := pem "PUBLIC KEY" "MIIBIjANBgkqhkiG9w0BAQEFAAOCAQ8B";
     privateKey := pem "PRIVATE KEY" "MIIEvQIBADANBgkqhkiG9w0BAQEFAASD" |}.

Definition sample_config : Config :=
  {| serverUrl := "https://api.otrust.eu";
     keyPair := Some sample_keyPair;
     token := Some "eyJhbGciOiJIUzI1NiJ9" |}.

Definition sample_home : string := "/home/alice".

Definition sample_dir : string := sample_home ++ "/.otrust".

Definition sample_file : filepath := FilePath sample_dir "config.json".

(** A disk with the config directory and no config file. *)
Definition empty_disk : Fs :=
  {| dirs := [(sample_dir, [])]; read_fails := false; write_fails := false |}.

(** A disk whose config file holds [sample_config]. *)
Definition sample_disk : Fs :=
  {| dirs := [(sample_dir, [("config.json", config_text sample_config)])];
     read_fails := false; write_fails := false |}.

(** An environment: the clock reads 1700000000000, the key generator
    draws [fresh_keyPair], signing succeeds, the server accepts whatever it
    is sent, nobody types at the prompts. *)
Definition sample_env : Env :=
  {| homedir := sample_home;
     now := 1700000000000;
     generateKeyPairSync := fun _ =>
       Return (publicKey fresh_keyPair, privateKey fresh_keyPair);
     sign_sha256_hex := fun data key => Some "3045022100c0ffee";
     toFixed := fun v _ => Return (to_string v);
     server := fun _ =>
       Response 200 "OK"
         (Obj [("token", Str "eyJhbGciOiJIUzI1NiJ9");
               ("user", Obj [("publicKey", Str (publicKey sample_keyPair));
                             ("score", Num (Dec 1 0))])]);
     stdin := [] |}.

Definition no_options : OtrustCLI.options :=
  {| OtrustCLI.opt_server := None;
     OtrustCLI.opt_configDir := None;
     OtrustCLI.opt_logLevel := None |}.

(** A library instance holding configuration [c] over disk [d]. *)
Definition instance_of (c : Config) (d : Fs) : OtrustCLI.State :=
  {| OtrustCLI.server := Str (serverUrl c);
     OtrustCLI.configDir := sample_dir;
     OtrustCLI.configFile := sample_file;
     OtrustCLI.logLevel := "info";
     OtrustCLI.config := config_value c;
     OtrustCLI.baseURL := Str (serverUrl c);
     OtrustCLI.authorization := bearer None (token c);
     OtrustCLI.api_world := fresh_world d |}.

(** The sample disk when reads are refused. *)
Definition unreadable_disk : Fs :=
  {| dirs := dirs sample_disk; read_fails := true; write_fails := false |}.

(** The sample disk when writes are refused. *)
Definition readonly_disk : Fs :=
  {| dirs := dirs sample_disk; read_fails := false; write_fails := true |}.

(** [config --server https://new.example] *)
Definition new_server : Cli.config_options :=
  {| Cli.config_server := Some "https://new.example";
     Cli.config_print := false |}.

Definition sample_claim : ClaimData :=
  {| cd_claim := "Stockholm is the capital of Sweden";
     cd_evidence := ["https://en.wikipedia.org/wiki/Stockholm"];
     cd_type := "factual";
     cd_parent := None;
     cd_subject := "Stockholm";
     cd_predicate := "is capital of";
     cd_object := "Sweden" |}.

(** The sample claim with an empty parent id. *)
Definition sample_claim_empty_parent : ClaimData :=
  {| cd_claim := cd_claim sample_claim;
     cd_evidence := cd_evidence sample_claim;
     cd_type := cd_type sample_claim;
     cd_parent := Some EmptyString;
     cd_subject := cd_subject sample_claim;
     cd_predicate := cd_predicate sample_claim;
     cd_object := cd_object sample_claim |}.

(** A proof with confidence 0.9. *)
Definition sample_proof : ProofData :=
  {| pd_claimId := "abcdef1234567890";
     pd_action := "confirmed";
     pd_reason := Some "This information is correct";
     pd_confidence := (9, -1) |}.

(** A config with a session token and no key pair, as a config file edited
    by hand can hold. *)
Definition keyless_config : Config :=
  {| serverUrl := "https://api.otrust.eu";
     keyPair := None;
     token := Some "eyJhbGciOiJIUzI1NiJ9" |}.

(** [proof:add --claim-id abcdef1234567890 --action confirmed
    --confidence 5] *)
Definition out_of_range_options : Cli.proof_options :=
  {| Cli.proof_interactive := false;
     Cli.proof_claimId := Some "abcdef1234567890";
     Cli.proof_action := Some "confirmed";
     Cli.proof_reason := None;
     Cli.proof_confidence := Some "5" |}.

(** The command line process holding configuration [c] over disk [d]. *)
Definition process_of (c : Config) (d : Fs) : Cli.State :=
  {| Cli.config := config_value c; Cli.cli_world := fresh_world d |}.

End Samples.

(** ** More vocabulary for the properties *)

Section MoreVocabulary.
Import JS Node.

(** A computation of the command line client that leaves the credential
    store alone: the [config] object, the disk and the file operations issued
    are what they were. *)
Definition keeps_store {A : Type} (m : M Cli.State A) : Prop :=
  forall s,
    Cli.config (snd (m s)) = Cli.config s /\
    fs (world (snd (m s))) = fs (world s) /\
    ops (world (snd (m s))) = ops (world s).

(** Strings in which the character [c] does not occur. *)
Fixpoint lacks (c : ascii) (s : string) : bool :=
  match s with
  | EmptyString => true
  | String d r => (negb (Ascii.eqb d c) && lacks c r)%bool
  end.

(** The lines, each one ended by a line feed. *)
Fixpoint lines_text (l : list string) : string :=
  match l with
  | [] => ""
  | x :: l' => x ++ nl ++ lines_text l'
  end.

(** A PEM block as [crypto] exports it: the BEGIN line, the lines of
    base64, the END line, every line ended by a line feed. *)
Definition pem_block (header : string) (body : list string) (footer : string)
  : string :=
  header ++ nl ++ lines_text body ++ footer ++ nl.

(** Strings that do not begin with white space. *)
Definition starts_clean (s : string) : bool :=
  match s with
  | EmptyString => true
  | String c _ => negb (is_space c)
  end.

Definition with_server (c : Config) (u : string) : Config :=
  {| serverUrl := u; keyPair := keyPair c; token := token c |}.

Definition with_token (c : Config) (t : string) : Config :=
  {| serverUrl := serverUrl c; keyPair := keyPair c; token := Some t |}.

Definition has_keyPair (c : Config) : bool :=
  match keyPair c with Some _ => true | None => false end.

(** A token counts when it is not the empty string. *)
Definition logged_in (c : Config) : bool :=
  match token c with
  | Some t => negb (String.eqb t "")
  | None => false
  end.

(** What the response interceptor of the command line client prints for an
    answer it rejects. *)
Definition rejection_lines (r : reply) : list line :=
  match r with
  | NoResponse =>
      [Console "error" [Str "Network error:";
                        Str "Could not connect to server"]]
  | Response status statusText data =>
      if status =? 401 then
        [Console "error" [Str "Authentication error:";
                          Str "Please login first"]]
      else if (truthy data && truthy (get data "error"))%bool then
        Console "error" [Str ("Error (" ++ string_of_Z status ++ "):");
                         get data "error"]
        :: (if truthy (get data "message")
            then [Console "error" [Str "Details:"; get data "message"]]
            else [])
      else
        [Console "error" [Str ("Error " ++ string_of_Z status ++ ":");
                          Str statusText]]
  end.

(** The error a rejected request is thrown as. *)
Definition rejection (r : reply) : exn :=
  match r with
  | NoResponse => AxiosError None "Network Error"
  | Response status _ data =>
      AxiosError (Some (status, data))
        ("Request failed with status code " ++ string_of_Z status)
  end.

(** Answers with a status in the 2xx range. *)
Definition accepted (r : reply) : bool :=
  match r with
  | Response status _ _ => ((200 <=? status) && (status <? 300))%bool
  | NoResponse => false
  end.

(** What [config] prints of a configuration: the server URL, whether there
    is a key pair, whether there is a token. *)
Definition config_lines (server : string) (kp tok : bool) : list line :=
  [Console "log" [Str "Current configuration:"];
   Console "log" [Str "Server URL:"; Str server];
   Console "log" [Str "Public key:";
                  Str (if kp then "Configured" else "Not configured")];
   Console "log" [Str "Authentication:";
                  Str (if tok then "Logged in" else "Not logged in")]].

(** What [saveConfig] of the command line client prints on a given disk:
    nothing when the write goes through, the error otherwise. *)
Definition save_lines (E : Env) (d : Fs) : list line :=
  if write_fails d then
    [Console "error" [Str "Error saving config file:"; Str "EACCES"]]
  else if dir_exists (Cli.CONFIG_DIR E) d then []
  else [Console "error" [Str "Error saving config file:"; Str "ENOENT"]].

(** The server URL a [config] command sets, if any: an empty [--server]
    counts as none. *)
Definition new_server_of (o : Cli.config_options) : option string :=
  match Cli.config_server o with
  | Some u => if String.eqb u "" then None else Some u
  | None => None
  end.

(** [register] or [login]: the action name that is signed, the endpoint,
    and the command. *)
Definition auth_name (registering : bool) : string :=
  if registering then "register" else "login".

Definition auth_url (registering : bool) : string :=
  if registering then "/api/auth/register" else "/api/auth/login".

Definition cli_auth_action (E : Env) (registering : bool) : M Cli.State unit :=
  if registering then Cli.register_action E else Cli.login_action E.

(** The body [register] and [login] post. *)
Definition auth_body (kp : KeyPair) (sig : string) (timestamp : Z) : value :=
  Obj [("publicKey", Str (publicKey kp));
       ("signature", Str sig);
       ("timestamp", Num (of_Z timestamp))].

(** The environment [E] with a server that gives the answer [r] to every
    request. *)
Definition answering (E : Env) (r : reply) : Env :=
  {| homedir := homedir E;
     now := now E;
     generateKeyPairSync := generateKeyPairSync E;
     sign_sha256_hex := sign_sha256_hex E;
     toFixed := toFixed E;
     server := fun _ => r;
     stdin := stdin E |}.

(** The claim a non-interactive [claim:create] is given: the evidence
    option split on commas and trimmed, no parent. *)
Definition claim_of_options (cl ev ty su pr ob : string) : ClaimData :=
  {| cd_claim := cl;
     cd_evidence := map trim (split "," ev);
     cd_type := ty;
     cd_parent := None;
     cd_subject := su;
     cd_predicate := pr;
     cd_object := ob |}.

Definition add_sent (r : request) (w : World) : World :=
  {| fs := fs w; ops := ops w; console := console w; sent := sent w ++ [r] |}.

(** What the prompts of [claim:create] let through: a claim text of 3 to
    5000 characters, at least one evidence entry, a type of the list, and a
    subject, predicate and object that are not empty. *)
Definition valid_claim (k : ClaimData) : Prop :=
  (3 <= String.length (cd_claim k) <= 5000)%nat /\
  cd_evidence k <> [] /\
  In (cd_type k) Cli.claim_types /\
  cd_parent k = None /\
  cd_subject k <> "" /\ cd_predicate k <> "" /\ cd_object k <> "".

(** The environment [E] with the given lines typed at the prompts. *)
Definition typing (E : Env) (lines : list string) : Env :=
  {| homedir := homedir E;
     now := now E;
     generateKeyPairSync := generateKeyPairSync E;
     sign_sha256_hex := sign_sha256_hex E;
     toFixed := toFixed E;
     server := server E;
     stdin := lines |}.

(** A disk whose config file holds a token and nothing else. *)
Definition token_only_disk : Fs :=
  {| dirs := [(sample_dir,
               [("config.json",
                 "{" ++ quote "token" ++ ":" ++ quote "abc" ++ "}")])];
     read_fails := false; write_fails := false |}.

(** The request the axios client of a library instance makes. *)
Definition api_request_of (a : OtrustCLI.State) (method url : string)
  (body : value) : request :=
  {| req_method := method;
     req_baseURL := OtrustCLI.baseURL a;
     req_url := url;
     req_authorization := OtrustCLI.authorization a;
     req_body := body |}.

(** The instance with another log level. *)
Definition with_logLevel (a : OtrustCLI.State) (l : string)
  : OtrustCLI.State :=
  {| OtrustCLI.server := OtrustCLI.server a;
     OtrustCLI.configDir := OtrustCLI.configDir a;
     OtrustCLI.configFile := OtrustCLI.configFile a;
     OtrustCLI.logLevel := l;
     OtrustCLI.config := OtrustCLI.config a;
     OtrustCLI.baseURL := OtrustCLI.baseURL a;
     OtrustCLI.authorization := OtrustCLI.authorization a;
     OtrustCLI.api_world := OtrustCLI.api_world a |}.

(** The console method [_log] uses for a level. *)
Definition log_method (level : string) : string :=
  if String.eqb level "debug" then "log" else level.

Definition api_auth_method (E : Env) (registering : bool)
  : M OtrustCLI.State value :=
  if registering then OtrustCLI.register E else OtrustCLI.login E.

(** What the library returns for a request that was rejected:
    [error.response ? error.response.data : error.message]. *)
Definition failure_value (r : reply) : value :=
  Obj [("success", Bool false);
       ("error", match r with
                 | Response _ _ data => data
                 | NoResponse => Str "Network Error"
                 end)].

(** The messages of the library for a missing session. *)
Definition no_session_profile : string :=
  "Du måste vara inloggad för att uppdatera profilen".
Definition no_session_claim : string :=
  "Du måste vara inloggad för att skapa påståenden".
Definition no_session_proof : string :=
  "Du måste vara inloggad för att lägga till bevis".

(** A computation of the library that changes nothing. *)
Definition pure {A : Type} (m : M OtrustCLI.State A) : Prop :=
  forall a, snd (m a) = a.

(** A computation of the library that changes the world at most: the
    fields of the instance stay. *)
Definition only_world {A : Type} (m : M OtrustCLI.State A) : Prop :=
  forall a, exists w' : World, snd (m a) = with_world w' a.

(** What a read method of the library throws for a request that was
    rejected: the server's [error] field, or the message of the transport
    error, under the method's prefix; reading [error] off a [null] body is
    itself an error, which then goes out as it is. *)
Definition wrapped (prefix : string) (r : reply) : exn :=
  match r with
  | Response _ _ data =>
      match member data "error" with
      | Return e => Error (prefix ++ to_string e)
      | Throw e => e
      end
  | NoResponse => Error (prefix ++ "Network Error")
  end.

(** The read methods with their prefix, the URL they ask for and the
    config object they pass. *)
Definition read_methods (E : Env) (id subject predicate query options : value)
  : list (M OtrustCLI.State value * (string * string * value)) :=
  [ (OtrustCLI.getClaim E id,
     ("Fel vid hämtning av påstående: ",
      "/api/claim/" ++ to_string id, Undefined));
    (OtrustCLI.listClaims E options,
     ("Fel vid listning av påståenden: ",
      "/api/claims", Obj [("params", OtrustCLI.or_empty options)]));
    (OtrustCLI.search E query options,
     ("Fel vid sökning: ",
      "/api/search",
      Obj [("params", OtrustCLI.search_params query options)]));
    (OtrustCLI.verify E id,
     ("Fel vid verifiering: ",
      "/api/claim/" ++ to_string id ++ "/verify", Undefined));
    (OtrustCLI.semanticQuery E subject predicate,
     ("Fel vid semantisk sökning: ",
      "/api/semantic/" ++ to_string subject ++ "/" ++ to_string predicate,
      Undefined));
    (OtrustCLI.getBlockchainStats E,
     ("Fel vid hämtning av blockkedjestatistik: ",
      "/api/blockchain/stats", Undefined));
    (OtrustCLI.getSystemStats E,
     ("Fel vid hämtning av systemstatistik: ", "/api/stats", Undefined));
    (OtrustCLI.getHealth E,
     ("Fel vid hälsokontroll: ", "/health", Undefined)) ].

(** The environment [E] with a key generator that fails with [e]. *)
Definition failing_generator (E : Env) (e : exn) : Env :=
  {| homedir := homedir E;
     now := now E;
     generateKeyPairSync := fun _ => Throw e;
     sign_sha256_hex := sign_sha256_hex E;
     toFixed := toFixed E;
     server := server E;
     stdin := stdin E |}.

(** A character that ends a number inside an object: a comma or a closing
    brace. *)
Definition ends_number (rest : string) : bool :=
  match rest with
  | String c _ => (Ascii.eqb c "," || Ascii.eqb c "}")%bool
  | EmptyString => false
  end.

(** The object [JSON.parse] reads back from the canonical text of a claim:
    the seven members that were signed. *)
Definition signed_claim (k : ClaimData) (publicKey : string) (timestamp : Z)
  : list (string * value) :=
  [("claim", Str (cd_claim k));
   ("evidence", Arr (map Str (cd_evidence k)));
   ("publicKey", Str publicKey);
   ("type", Str (cd_type k));
   ("parent_id", option_value Str (normal_parent (cd_parent k)));
   ("timestamp", Num (of_Z timestamp));
   ("semantic", semantic_value k)].

End MoreVocabulary.

(** * Properties *)

(** ** JSON strings decode to what was encoded *)

Section JsonStrings.
Import JS.

Lemma parse_chars_escape_char (c : ascii) (rest : string) :
  parse_chars (escape_char c ++ rest) = cons_char c (parse_chars rest).
Proof.
  destruct c as [b0 b1 b2 b3 b4 b5 b6 b7].
  destruct b0, b1, b2, b3, b4, b5, b6, b7; reflexivity.
Qed.

Lemma append_assoc (a b c : string) : (a ++ b) ++ c = a ++ (b ++ c).
Proof.
  induction a as [|x a IH]; simpl; [reflexivity | now rewrite IH].
Qed.

Lemma parse_chars_escape (s rest : string) :
  parse_chars (escape s ++ String dquote rest) = Some (s, rest).
Proof.
  induction s as [|c s IH].
  - reflexivity.
  - cbn [escape]. rewrite append_assoc, parse_chars_escape_char, IH.
    reflexivity.
Qed.

(** A quoted string followed by anything determines both the string and
    what follows. *)
Lemma quote_app_inj (a b r1 r2 : string) :
  quote a ++ r1 = quote b ++ r2 -> a = b /\ r1 = r2.
Proof.
  unfold quote. cbn [append]. rewrite !append_assoc. cbn [append].
  intros H. injection H as H.
  apply (f_equal parse_chars) in H.
  rewrite !parse_chars_escape in H.
  injection H as -> ->. split; reflexivity.
Qed.

Lemma quote_inj (a b : string) : quote a = quote b -> a = b.
Proof.
  intros H.
  destruct (quote_app_inj a b "" "") as [-> _]; [|reflexivity].
  now rewrite H.
Qed.

End JsonStrings.


(** ** Integers print as their decimal digits *)

Section Numbers.
Import JS.

Lemma strip0_spec (s : string) :
  s = fst (strip0 s) ++ zeros (snd (strip0 s)).
Proof.
  induction s as [|c s IH]; [reflexivity|].
  cbn [strip0]. destruct (strip0 s) as [r j]. cbn [fst snd] in *.
  destruct (String.eqb r "" && Ascii.eqb c "0")%bool eqn:H.
  - apply andb_true_iff in H as [Hr Hc].
    apply String.eqb_eq in Hr. apply Ascii.eqb_eq in Hc. subst r c.
    cbn [fst snd append zeros] in *. now rewrite IH at 1.
  - cbn [fst snd append]. now rewrite IH at 1.
Qed.

Lemma length_append (a b : string) :
  String.length (a ++ b) = (String.length a + String.length b)%nat.
Proof. induction a; cbn; [reflexivity | now rewrite IHa]. Qed.

Lemma length_zeros (n : nat) : String.length (zeros n) = n.
Proof. induction n; cbn; [reflexivity | now rewrite IHn]. Qed.

Lemma length_string_of_uint (d : Decimal.uint) :
  String.length (NilEmpty.string_of_uint d) = Decimal.nb_digits d.
Proof. induction d; cbn; congruence. Qed.

Lemma of_uint_acc_lower (d : Decimal.uint) (acc : positive) :
  Zpos acc * 10 ^ Z.of_nat (Decimal.nb_digits d)
  <= Zpos (Pos.of_uint_acc d acc).
Proof.
  revert acc. induction d; intros acc; cbn [Pos.of_uint_acc Decimal.nb_digits];
    [ rewrite Z.pow_0_r; lia | .. ];
    (rewrite Nat2Z.inj_succ, Z.pow_succ_r by lia;
     etransitivity; [|apply IHd];
     assert (0 < 10 ^ Z.of_nat (Decimal.nb_digits d)) by (apply Z.pow_pos_nonneg; lia);
     nia).
Qed.

Lemma to_uint_no_leading_zero (p : positive) (d : Decimal.uint) :
  Pos.to_uint p <> Decimal.D0 d.
Proof.
  intros Hd.
  pose proof (DecimalPos.Unsigned.of_to p) as Hof.
  pose proof (DecimalPos.Unsigned.to_of (Pos.to_uint p)) as Hto.
  rewrite Hof in Hto. cbn [N.to_uint] in Hto.
  rewrite Hd in Hto. unfold Decimal.unorm in Hto. cbn [Decimal.nzhead] in Hto.
  pose proof (DecimalFacts.nb_digits_nzhead d) as Hn.
  destruct (Decimal.nzhead d) as [|u|u|u|u|u|u|u|u|u|u] eqn:Hz;
    try discriminate.
  - injection Hto as ->.
    now apply (DecimalPos.Unsigned.to_uint_nonzero p).
  - injection Hto as ->. cbn [Decimal.nb_digits] in Hn. lia.
Qed.

Lemma nb_digits_to_uint (p : positive) :
  10 ^ (Z.of_nat (Decimal.nb_digits (Pos.to_uint p)) - 1) <= Zpos p.
Proof.
  pose proof (DecimalPos.Unsigned.of_to p) as Hof.
  pose proof (to_uint_no_leading_zero p) as Hz.
  destruct (Pos.to_uint p) as [|d|d|d|d|d|d|d|d|d|d] eqn:Hd;
    cbn [Pos.of_uint] in Hof; try discriminate;
    [ now elim (Hz d) | .. ];
    injection Hof as <-;
    cbn [Decimal.nb_digits]; rewrite Nat2Z.inj_succ;
    replace (Z.succ (Z.of_nat (Decimal.nb_digits d)) - 1)
      with (Z.of_nat (Decimal.nb_digits d)) by lia;
    (etransitivity; [|apply of_uint_acc_lower]);
    assert (0 < 10 ^ Z.of_nat (Decimal.nb_digits d))
      by (apply Z.pow_pos_nonneg; lia);
    nia.
Qed.

Lemma digits_length_bound (p : positive) (n : nat) :
  Zpos p < 10 ^ Z.of_nat n ->
  (String.length (digits_of_pos p) <= n)%nat.
Proof.
  intros Hp. unfold digits_of_pos. rewrite length_string_of_uint.
  pose proof (nb_digits_to_uint p) as Hl.
  destruct (Nat.le_gt_cases (Decimal.nb_digits (Pos.to_uint p)) n) as [H|H];
    [exact H | exfalso].
  assert (10 ^ Z.of_nat n
          <= 10 ^ (Z.of_nat (Decimal.nb_digits (Pos.to_uint p)) - 1))
    by (apply Z.pow_le_mono_r; lia).
  lia.
Qed.

(** A non-negative integer below 10^21 prints as its decimal digits. *)
Lemma number_to_string_integer (z : Z) :
  0 <= z < 10 ^ 21 -> number_to_string (of_Z z) = string_of_Z z.
Proof.
  intros [H0 H1]. destruct z as [|p|p]; [reflexivity| |lia].
  unfold of_Z, number_to_string.
  pose proof (strip0_spec (digits_of_pos p)) as Hs.
  pose proof (digits_length_bound p 21 H1) as Hb.
  destruct (strip0 (digits_of_pos p)) as [r j]. cbn [fst snd] in Hs.
  rewrite Hs, length_append, length_zeros in Hb.
  unfold digits_to_string.
  assert (Hc : ((Z.of_nat (String.length r)
                 <=? Z.of_nat (String.length r) + Z.of_nat j + 0)
                && (Z.of_nat (String.length r) + Z.of_nat j + 0 <=? 21))%bool
               = true).
  { apply andb_true_iff. split; apply Z.leb_le; lia. }
  rewrite Hc.
  replace (Z.to_nat (Z.of_nat (String.length r) + Z.of_nat j + 0
                     - Z.of_nat (String.length r))) with j by lia.
  rewrite <- Hs. unfold string_of_Z, digits_of_pos.
  cbn [Z.to_int NilZero.string_of_int]. unfold NilZero.string_of_uint.
  pose proof (DecimalPos.Unsigned.to_uint_nonnil p) as Hn.
  now destruct (Pos.to_uint p).
Qed.

End Numbers.

(** ** The config file parses back to the config *)

Section ConfigText.
Import JS.

Lemma stringify_config (c : Config) :
  stringify_indent2 (config_value c) = Some (config_text c).
Proof.
  destruct c as [s [[pub priv]|] [t|]];
    cbn; repeat (rewrite !append_assoc; cbn); reflexivity.
Qed.

Lemma skip_ws_app (ws r : string) :
  all_ws ws = true -> skip_ws (ws ++ r) = skip_ws r.
Proof.
  induction ws as [|c ws IH]; simpl; [reflexivity|].
  intros H. apply andb_true_iff in H as [-> H]. auto.
Qed.

Lemma skip_ws_quote (k r : string) : skip_ws (quote k ++ r) = quote k ++ r.
Proof. reflexivity. Qed.


Lemma parse_value_ws (f : nat) (ws r : string) :
  all_ws ws = true -> parse_value f (ws ++ r) = parse_value f r.
Proof.
  intros H. destruct f; [reflexivity|].
  cbn [parse_value]. now rewrite skip_ws_app.
Qed.

Lemma value_quote (f : nat) (w s rest : string) :
  skip_ws w = quote s ++ rest -> parse_value (S f) w = Some (Str s, rest).
Proof.
  intros H. cbn [parse_value]. rewrite H.
  unfold quote. cbn [append]. rewrite append_assoc. cbn [append].
  change (Ascii.eqb dquote "{") with false.
  change (Ascii.eqb dquote "[") with false.
  change (Ascii.eqb dquote dquote) with true. cbv iota.
  now rewrite parse_chars_escape.
Qed.

Lemma value_null (f : nat) (w rest : string) :
  skip_ws w = "null" ++ rest -> parse_value (S f) w = Some (Null, rest).
Proof. intros H. cbn [parse_value]. rewrite H. reflexivity. Qed.

Lemma value_object (f : nat) (w k r : string) ps r' v :
  skip_ws w = quote k ++ r ->
  parse_members f w = Some (ps, r') ->
  Obj (create_properties ps) = v ->
  parse_value (S f) ("{" ++ w) = Some (v, r').
Proof.
  intros H1 H2 <-. cbn [parse_value append skip_ws].
  change (is_json_ws "{") with false. cbv iota.
  change (Ascii.eqb "{" "{") with true. cbv iota.
  rewrite H1, H2. reflexivity.
Qed.

Lemma members_more (f : nat) (k w vt : string) v rem r ps r' :
  skip_ws w = quote k ++ String ":" vt ->
  parse_value f vt = Some (v, rem) ->
  skip_ws rem = String "," r ->
  parse_members f r = Some (ps, r') ->
  parse_members (S f) w = Some ((k, v) :: ps, r').
Proof.
  intros H1 H2 H3 H4. cbn [parse_members]. rewrite H1.
  unfold quote. cbn [append]. rewrite append_assoc. cbn [append].
  change (Ascii.eqb dquote dquote) with true. cbv iota.
  rewrite parse_chars_escape. cbn [skip_ws].
  change (is_json_ws ":") with false. cbv iota.
  rewrite H2, H3, H4. reflexivity.
Qed.

Lemma members_last (f : nat) (k w vt : string) v rem r :
  skip_ws w = quote k ++ String ":" vt ->
  parse_value f vt = Some (v, rem) ->
  skip_ws rem = String "}" r ->
  parse_members (S f) w = Some ([(k, v)], r).
Proof.
  intros H1 H2 H3. cbn [parse_members]. rewrite H1.
  unfold quote. cbn [append]. rewrite append_assoc. cbn [append].
  change (Ascii.eqb dquote dquote) with true. cbv iota.
  rewrite parse_chars_escape. cbn [skip_ws].
  change (is_json_ws ":") with false. cbv iota.
  rewrite H2, H3. reflexivity.
Qed.

Ltac parse_string := eapply value_quote; reflexivity.
Ltac parse_null := eapply value_null; reflexivity.
Ltac more k tac :=
  eapply (members_more _ k); [reflexivity | tac | reflexivity | ].
Ltac last k tac :=
  eapply (members_last _ k); [reflexivity | tac | reflexivity ].
Ltac object k := eapply (value_object _ _ k); [reflexivity | | ].

Lemma parse_value_keyPair (kp : option KeyPair) (f : nat) (rest : string) :
  parse_value (4 + f) (" " ++ keyPair_text kp ++ rest)
  = Some (option_value keyPair_value kp, rest).
Proof.
  destruct kp as [[pub priv]|]; unfold keyPair_text, option_value,
    keyPair_value; cbn [publicKey privateKey]; rewrite ?append_assoc.
  - rewrite (parse_value_ws _ " ") by reflexivity.
    change (4 + f)%nat with (S (3 + f)).
    object "publicKey".
    + more "publicKey" parse_string.
      last "privateKey" parse_string.
    + reflexivity.
  - parse_null.
Qed.

Lemma parse_value_token (t : option string) (f : nat) (rest : string) :
  parse_value (1 + f) (" " ++ token_text t ++ rest)
  = Some (option_value Str t, rest).
Proof.
  destruct t as [t|]; unfold token_text, option_value.
  - parse_string.
  - parse_null.
Qed.

Lemma parse_value_config (c : Config) (f : nat) (rest : string) :
  parse_value (8 + f) (config_text c ++ rest) = Some (config_value c, rest).
Proof.
  destruct c as [s kp t]; unfold config_text, config_value;
    cbn [serverUrl keyPair token]; rewrite !append_assoc.
  change (8 + f)%nat with (S (7 + f)).
  object "server".
  - more "server" parse_string.
    more "keyPair" ltac:(apply (parse_value_keyPair kp (1 + f))).
    last "token" ltac:(apply (parse_value_token t (3 + f))).
  - reflexivity.
Qed.

Lemma parse_config_text (c : Config) :
  parse (config_text c) = Some (config_value c).
Proof.
  unfold parse.
  assert (E : exists f, S (String.length (config_text c)) = (8 + f)%nat).
  { unfold config_text. cbn. eexists. reflexivity. }
  destruct E as [f ->].
  assert (R : config_text c = config_text c ++ "").
  { generalize (config_text c). induction s as [|x s IH]; simpl; congruence. }
  rewrite R at 1.
  rewrite parse_value_config. reflexivity.
Qed.
End ConfigText.

(** ** Files *)

Section Files.
Import Node.

Lemma find_put_same {A : Type} (k : string) (a : A) (l : list (string * A)) :
  find k (put k a l) = Some a.
Proof.
  induction l as [|[k' a'] l IH]; simpl.
  - now rewrite String.eqb_refl.
  - destruct (String.eqb k k') eqn:Hk; simpl.
    + now rewrite String.eqb_refl.
    + now rewrite Hk.
Qed.

Lemma find_put_other {A : Type} (k k' : string) (a : A)
  (l : list (string * A)) :
  String.eqb k' k = false -> find k' (put k a l) = find k' l.
Proof.
  intros Hk. induction l as [|[k0 a0] l IH]; simpl.
  - now rewrite Hk.
  - destruct (String.eqb k k0) eqn:H0; simpl.
    + apply String.eqb_eq in H0. subst k0. now rewrite Hk.
    + now rewrite IH.
Qed.

Lemma put_put {A : Type} (k : string) (a b : A) (l : list (string * A)) :
  put k b (put k a l) = put k b l.
Proof.
  induction l as [|[k' a'] l IH]; simpl.
  - now rewrite String.eqb_refl.
  - destruct (String.eqb k k') eqn:Hk; simpl.
    + now rewrite String.eqb_refl.
    + now rewrite Hk, IH.
Qed.

Lemma file_content_store (p : filepath) (data : string) (fs : Fs) :
  dir_exists (dirname p) fs = true ->
  file_content p (store p data fs) = Some data.
Proof.
  unfold dir_exists, file_content, store.
  destruct (find (dirname p) (dirs fs)) as [entries|]; [|discriminate].
  intros _. simpl. now rewrite !find_put_same.
Qed.

Lemma dir_exists_store (d : string) (p : filepath) (data : string) (fs : Fs) :
  dir_exists d (store p data fs) = dir_exists d fs.
Proof.
  unfold dir_exists, store.
  destruct (find (dirname p) (dirs fs)) as [entries|] eqn:Hd; [|reflexivity].
  simpl. destruct (String.eqb d (dirname p)) eqn:Hk.
  - apply String.eqb_eq in Hk. subst d. now rewrite find_put_same, Hd.
  - now rewrite find_put_other.
Qed.

Lemma store_store (p : filepath) (a b : string) (fs : Fs) :
  store p b (store p a fs) = store p b fs.
Proof.
  unfold store.
  destruct (find (dirname p) (dirs fs)) as [entries|] eqn:Hd.
  - simpl. rewrite find_put_same. unfold with_dirs. simpl.
    now rewrite !put_put.
  - now rewrite Hd.
Qed.

(** A write that runs to its end leaves exactly the data in the file. *)
Lemma apply_write_ops (p : filepath) (data : string) (fs : Fs) :
  dir_exists (dirname p) fs = true ->
  apply_ops (write_ops p data) fs = store p data fs.
Proof.
  intros H. unfold apply_ops, write_ops. simpl.
  rewrite file_content_store by assumption.
  now rewrite store_store.
Qed.

Lemma interrupted_write_store (p : filepath) (data : string) (k : nat)
  (fs : Fs) :
  dir_exists (dirname p) fs = true ->
  interrupted_write p data k fs = store p (substring 0 k data) fs.
Proof.
  intros H. unfold interrupted_write, apply_ops. simpl.
  rewrite file_content_store by assumption.
  now rewrite store_store.
Qed.

Lemma dir_exists_mkdir (d : string) (fs : Fs) :
  dir_exists d (apply_op (OpMkdir d) fs) = true.
Proof.
  unfold apply_op. destruct (dir_exists d fs) eqn:H; [assumption|].
  unfold dir_exists in *. simpl.
  induction (dirs fs) as [|[k a] l IH]; simpl in *.
  - now rewrite String.eqb_refl.
  - destruct (String.eqb d k); [discriminate|auto].
Qed.

(** Creating the directory when it is missing, then writing the file,
    leaves exactly the data in the file. *)
Lemma file_content_mkdir_write (d n data : string) (fs : Fs) :
  file_content (FilePath d n)
    (apply_ops ((if dir_exists d fs then [] else mkdir_ops d)
                ++ write_ops (FilePath d n) data) fs) = Some data.
Proof.
  unfold apply_ops. rewrite fold_left_app.
  set (d1 := fold_left _ _ fs).
  assert (H1 : dir_exists d d1 = true).
  { subst d1. destruct (dir_exists d fs) eqn:H0;
      [exact H0 | apply dir_exists_mkdir]. }
  change (fold_left (fun acc op => apply_op op acc)
            (write_ops (FilePath d n) data) d1)
    with (apply_ops (write_ops (FilePath d n) data) d1).
  rewrite apply_write_ops by exact H1.
  apply file_content_store. exact H1.
Qed.

End Files.

(** ** Saving and loading, command line client *)

Section CliConfig.
Import JS Node.

Lemma spread2_config (c0 c : Config) :
  spread2 (config_value c0) (config_value c) = config_value c.
Proof. reflexivity. Qed.

Lemma default_config_value : Cli.default_config = config_value default_Config.
Proof. reflexivity. Qed.

Lemma read_fails_store p d fs : read_fails (store p d fs) = read_fails fs.
Proof. unfold store. now destruct (find (dirname p) (dirs fs)). Qed.

Lemma write_fails_store p d fs : write_fails (store p d fs) = write_fails fs.
Proof. unfold store. now destruct (find (dirname p) (dirs fs)). Qed.

Lemma read_fails_apply_op op fs : read_fails (apply_op op fs) = read_fails fs.
Proof.
  destruct op; simpl.
  - now destruct (dir_exists d fs).
  - apply read_fails_store.
  - destruct (file_content p fs); [apply read_fails_store | reflexivity].
Qed.

Lemma write_fails_apply_op op fs :
  write_fails (apply_op op fs) = write_fails fs.
Proof.
  destruct op; simpl.
  - now destruct (dir_exists d fs).
  - apply write_fails_store.
  - destruct (file_content p fs); [apply write_fails_store | reflexivity].
Qed.

Lemma read_fails_apply_ops l fs : read_fails (apply_ops l fs) = read_fails fs.
Proof.
  revert fs. induction l as [|op l IH]; intros fs; [reflexivity|].
  unfold apply_ops in *. simpl. now rewrite IH, read_fails_apply_op.
Qed.

Lemma write_fails_apply_ops l fs :
  write_fails (apply_ops l fs) = write_fails fs.
Proof.
  revert fs. induction l as [|op l IH]; intros fs; [reflexivity|].
  unfold apply_ops in *. simpl. now rewrite IH, write_fails_apply_op.
Qed.

Lemma cli_saveConfig_writes (E : Env) (s : Cli.State) (c : Config) :
  Cli.config s = config_value c ->
  write_fails (fs (Cli.cli_world s)) = false ->
  dir_exists (Cli.CONFIG_DIR E) (fs (Cli.cli_world s)) = true ->
  Cli.saveConfig E s =
  (Return tt,
   {| Cli.config := config_value c;
      Cli.cli_world :=
        run_ops (write_ops (Cli.CONFIG_FILE E) (config_text c))
                (Cli.cli_world s) |}).
Proof.
  intros Hc Hw Hd.
  unfold Cli.saveConfig, try_catch, bind, Cli.get_config.
  rewrite Hc, stringify_config.
  unfold writeFileSync. simpl. rewrite Hw, Hd, Hc. reflexivity.
Qed.

Lemma cli_initConfig_reads (E : Env) (s : Cli.State) (c0 c : Config) :
  Cli.config s = config_value c0 ->
  read_fails (fs (Cli.cli_world s)) = false ->
  file_content (Cli.CONFIG_FILE E) (fs (Cli.cli_world s))
    = Some (config_text c) ->
  Cli.initConfig E s =
  (Return tt,
   {| Cli.config := config_value c; Cli.cli_world := Cli.cli_world s |}).
Proof.
  intros Hc Hr Hf.
  assert (Hd : dir_exists (Cli.CONFIG_DIR E) (fs (Cli.cli_world s)) = true).
  { unfold file_content in Hf. unfold dir_exists. simpl in Hf.
    destruct (find (Cli.CONFIG_DIR E) (dirs (fs (Cli.cli_world s))));
      [reflexivity | discriminate]. }
  unfold Cli.initConfig, bind, existsSync_dir, existsSync. simpl.
  rewrite Hd. simpl. unfold file_exists. rewrite Hf.
  unfold try_catch, bind, readFileSync. simpl. rewrite Hr, Hf.
  unfold JSON_parse. rewrite parse_config_text. unfold ret. simpl.
  unfold Cli.set_config. rewrite Hc, spread2_config. destruct s; reflexivity.
Qed.

(** Config persistence round trip, command line client. *)
Lemma cli_round_trip (E : Env) (c : Config) (w : World) :
  write_fails (fs w) = false ->
  read_fails (fs w) = false ->
  dir_exists (Cli.CONFIG_DIR E) (fs w) = true ->
  let saved := snd (Cli.saveConfig E {| Cli.config := config_value c;
                                        Cli.cli_world := w |}) in
  let loaded := Cli.initConfig E {| Cli.config := Cli.default_config;
                                    Cli.cli_world := Cli.cli_world saved |} in
  fst loaded = Return tt /\ Cli.config (snd loaded) = config_value c.
Proof.
  intros Hw Hr Hd saved loaded. subst saved loaded.
  rewrite (cli_saveConfig_writes E _ c) by (simpl; auto).
  cbn [snd Cli.cli_world].
  rewrite (cli_initConfig_reads E _ default_Config c).
  - split; reflexivity.
  - reflexivity.
  - cbn [Cli.cli_world fs run_ops]. now rewrite read_fails_apply_ops.
  - cbn [Cli.cli_world fs run_ops]. rewrite apply_write_ops by exact Hd.
    apply file_content_store. exact Hd.
Qed.
End CliConfig.

(** ** Saving and loading, library *)

Section ApiConfig.
Import JS Node.

Lemma log_spec (s : OtrustCLI.State) (level text : string) :
  OtrustCLI._log level text s =
  (Return tt,
   with_world (add_console (log_lines (OtrustCLI.logLevel s) level text)
                           (world s)) s).
Proof.
  unfold OtrustCLI._log, log_lines, bind, OtrustCLI.this.
  destruct (OtrustCLI.levels level) as [a|];
    destruct (OtrustCLI.levels (OtrustCLI.logLevel s)) as [b|];
    try destruct (b <=? a)%Z; unfold ret, print, update_world, add_console;
    simpl; try rewrite app_nil_r; destruct s as [? ? ? ? ? ? ? []]; reflexivity.
Qed.

Lemma api_saveConfig_writes (s : OtrustCLI.State) (c : Config) :
  OtrustCLI.config s = config_value c ->
  write_fails (fs (world s)) = false ->
  OtrustCLI.configFile s = FilePath (OtrustCLI.configDir s) "config.json" ->
  OtrustCLI._saveConfig s =
  (Return tt,
   with_world
     (add_console (log_lines (OtrustCLI.logLevel s) "debug"
                             "Konfiguration sparad")
        (run_ops (save_ops s (config_text c)) (world s))) s).
Proof.
  intros Hc Hw Hf.
  unfold OtrustCLI._saveConfig, try_catch, bind, OtrustCLI.this,
    existsSync_dir, save_ops.
  destruct (dir_exists (OtrustCLI.configDir s) (fs (world s))) eqn:Hd.
  - cbn [negb ret]. rewrite Hc, stringify_config.
    unfold writeFileSync. rewrite Hw, Hf. cbn [dirname]. rewrite Hd.
    rewrite log_spec. destruct s as [? ? ? ? ? ? ? []]. reflexivity.
  - cbn [negb]. unfold mkdirSync. rewrite Hw.
    rewrite Hc, stringify_config. unfold writeFileSync.
    destruct s as [? ? ? ? ? ? ? [fs0 ops0 con0 sent0]].
    cbn - [apply_ops mkdir_ops write_ops dir_exists log_lines OtrustCLI._log] in *.
    rewrite write_fails_apply_ops, Hw. subst configFile.
    cbn [dirname].
    change (apply_ops (mkdir_ops configDir) fs0)
      with (apply_op (OpMkdir configDir) fs0) at 1.
    rewrite dir_exists_mkdir. rewrite log_spec.
    cbn - [apply_ops mkdir_ops write_ops dir_exists log_lines OtrustCLI._log].
    unfold run_ops, add_console.
    cbn - [apply_ops mkdir_ops write_ops dir_exists log_lines OtrustCLI._log].
    rewrite <- app_assoc. unfold apply_ops. rewrite fold_left_app.
    reflexivity.
Qed.

Lemma api_loadConfig_reads (s : OtrustCLI.State) (c0 c : Config) :
  OtrustCLI.config s = config_value c0 ->
  read_fails (fs (world s)) = false ->
  file_content (OtrustCLI.configFile s) (fs (world s))
    = Some (config_text c) ->
  OtrustCLI._loadConfig s =
  (Return tt,
   {| OtrustCLI.server := Str (serverUrl c);
      OtrustCLI.configDir := OtrustCLI.configDir s;
      OtrustCLI.configFile := OtrustCLI.configFile s;
      OtrustCLI.logLevel := OtrustCLI.logLevel s;
      OtrustCLI.config := config_value c;
      OtrustCLI.baseURL := Str (serverUrl c);
      OtrustCLI.authorization := bearer (OtrustCLI.authorization s) (token c);
      OtrustCLI.api_world :=
        add_console (log_lines (OtrustCLI.logLevel s) "debug"
                               "Konfiguration laddad") (world s) |}).
Proof.
  intros Hc Hr Hf.
  unfold OtrustCLI._loadConfig, try_catch, bind, OtrustCLI.this, existsSync,
    file_exists, readFileSync, JSON_parse.
  rewrite Hf. cbv beta iota. rewrite Hr, Hf. cbv beta iota.
  rewrite parse_config_text. unfold ret at 1. cbv beta iota.
  rewrite Hc.
  destruct s as [? ? ? ? ? ? ? [fs0 ops0 con0 sent0]].
  destruct c as [srv kp [t|]];
    cbn - [log_lines OtrustCLI._log].
  - destruct (String.eqb t ""); cbn - [log_lines OtrustCLI._log];
      rewrite log_spec; reflexivity.
  - rewrite log_spec. reflexivity.
Qed.

Lemma api_loadConfig_no_file (s : OtrustCLI.State) :
  file_content (OtrustCLI.configFile s) (fs (world s)) = None ->
  OtrustCLI._loadConfig s = (Return tt, s).
Proof.
  intros Hf.
  unfold OtrustCLI._loadConfig, try_catch, bind, OtrustCLI.this, existsSync,
    file_exists.
  rewrite Hf. reflexivity.
Qed.

(** Config persistence round trip, library. *)
Lemma api_round_trip (E : Env) (c : Config) (s : OtrustCLI.State)
  (o : OtrustCLI.options) :
  OtrustCLI.config s = config_value c ->
  OtrustCLI.configDir s = OtrustCLI.config_dir_of E o ->
  OtrustCLI.configFile s = FilePath (OtrustCLI.configDir s) "config.json" ->
  write_fails (fs (world s)) = false ->
  read_fails (fs (world s)) = false ->
  let saved := OtrustCLI._saveConfig s in
  let loaded := OtrustCLI.constructor E o (world (snd saved)) in
  fst saved = Return tt /\ fst loaded = Return tt /\
  OtrustCLI.config (snd loaded) = config_value c.
Proof.
  intros Hc Hd Hf Hw Hr saved loaded. subst saved loaded.
  rewrite (api_saveConfig_writes s c) by assumption.
  split; [reflexivity|].
  unfold OtrustCLI.constructor.
  rewrite (api_loadConfig_reads _ (initial_Config o) c).
  - split; reflexivity.
  - reflexivity.
  - destruct s as [? ? ? ? ? ? ? [fs0 ops0 con0 sent0]].
    cbn - [apply_ops save_ops log_lines] in *.
    now rewrite read_fails_apply_ops.
  - destruct s as [? ? ? ? ? ? ? [fs0 ops0 con0 sent0]].
    cbn - [apply_ops save_ops log_lines file_content] in *.
    rewrite <- Hd. subst configFile. unfold save_ops.
    cbn - [apply_ops log_lines file_content mkdir_ops write_ops dir_exists].
    unfold apply_ops. rewrite fold_left_app. fold (apply_ops).
    set (fs1 := fold_left _ _ fs0).
    assert (H1 : dir_exists configDir fs1 = true).
    { subst fs1. destruct (dir_exists configDir fs0) eqn:H0; [exact H0|].
      apply dir_exists_mkdir. }
    change (fold_left (fun acc op => apply_op op acc)
              (write_ops (FilePath configDir "config.json") (config_text c)) fs1)
      with (apply_ops (write_ops (FilePath configDir "config.json")
                                 (config_text c)) fs1).
    rewrite apply_write_ops by exact H1.
    apply file_content_store. exact H1.
Qed.
End ApiConfig.

(** ** When the config file cannot be loaded or saved *)

Section LoadFailures.
Import JS Node.

Lemma cli_initConfig_no_file (E : Env) (s : Cli.State) (c : Config) :
  Cli.config s = config_value c ->
  file_content (Cli.CONFIG_FILE E) (fs (world s)) = None ->
  write_fails (fs (world s)) = false ->
  Cli.initConfig E s =
  (Return tt,
   {| Cli.config := config_value c;
      Cli.cli_world :=
        run_ops ((if dir_exists (Cli.CONFIG_DIR E) (fs (world s)) then []
                  else mkdir_ops (Cli.CONFIG_DIR E))
                 ++ write_ops (Cli.CONFIG_FILE E) (config_text c))
                (world s) |}).
Proof.
  intros Hc Hf Hw.
  unfold Cli.initConfig, bind, existsSync_dir, existsSync, file_exists.
  destruct s as [cfg [fs0 ops0 con0 sent0]].
  cbn [world Cli.State_world Cli.cli_world fs Cli.config] in *. subst cfg.
  destruct (dir_exists (Cli.CONFIG_DIR E) fs0) eqn:Hd.
  - cbn [negb ret world Cli.State_world Cli.cli_world fs Cli.config].
    rewrite Hf.
    rewrite (cli_saveConfig_writes E _ c) by (cbn; auto). reflexivity.
  - cbn [negb]. unfold mkdirSync.
    cbn [world Cli.State_world Cli.cli_world fs with_world run_ops].
    rewrite Hw.
    cbn [world Cli.State_world Cli.cli_world fs with_world run_ops].
    assert (Hf' : file_content (Cli.CONFIG_FILE E)
                    (apply_ops (mkdir_ops (Cli.CONFIG_DIR E)) fs0) = None).
    { unfold apply_ops, mkdir_ops. cbn [fold_left apply_op]. rewrite Hd.
      unfold file_content, with_dirs in *. cbn [dirs dirname basename Cli.CONFIG_FILE] in *.
      unfold dir_exists in Hd.
      induction (dirs fs0) as [|[k a] l IH]; cbn [find app] in *.
      - now rewrite String.eqb_refl.
      - destruct (String.eqb (Cli.CONFIG_DIR E) k); [discriminate|auto]. }
    rewrite Hf'.
    rewrite (cli_saveConfig_writes E _ c);
      cbn [Cli.config Cli.cli_world fs run_ops].
    + unfold run_ops. cbn [fs ops console sent]. rewrite <- app_assoc.
      unfold apply_ops. rewrite fold_left_app. reflexivity.
    + reflexivity.
    + now rewrite write_fails_apply_ops.
    + apply dir_exists_mkdir.
Qed.

Lemma cli_initConfig_load_fails (E : Env) (s : Cli.State) (e : exn) :
  file_exists (Cli.CONFIG_FILE E) (fs (world s)) = true ->
  load_error (Cli.CONFIG_FILE E) (fs (world s)) = Some e ->
  Cli.initConfig E s =
  (Return tt,
   with_world
     (add_console [Console "error" [Str "Error loading config file:";
                                    Str (message e)]] (world s)) s).
Proof.
  intros Hx He.
  assert (Hd : dir_exists (Cli.CONFIG_DIR E) (fs (world s)) = true).
  { unfold file_exists, file_content in Hx. unfold dir_exists.
    cbn [dirname Cli.CONFIG_FILE] in Hx.
    destruct (find (Cli.CONFIG_DIR E) (dirs (fs (world s))));
      [reflexivity | discriminate]. }
  unfold Cli.initConfig, bind, existsSync_dir, existsSync.
  rewrite Hd. cbn [negb ret]. cbv beta iota. rewrite Hx.
  unfold try_catch, bind, readFileSync, load_error in *.
  destruct (read_fails (fs (world s))).
  - injection He as <-. reflexivity.
  - unfold file_exists in Hx.
    destruct (file_content (Cli.CONFIG_FILE E) (fs (world s))) as [text|];
      [|discriminate].
    unfold JSON_parse. destruct (parse text); [discriminate|].
    injection He as <-. reflexivity.
Qed.

Lemma cli_saveConfig_fails (E : Env) (s : Cli.State) (c : Config) :
  Cli.config s = config_value c ->
  write_fails (fs (world s)) = true ->
  Cli.saveConfig E s =
  (Return tt,
   with_world
     (add_console [Console "error" [Str "Error saving config file:";
                                    Str "EACCES"]] (world s)) s).
Proof.
  intros Hc Hw.
  unfold Cli.saveConfig, try_catch, bind, Cli.get_config.
  rewrite Hc, stringify_config. unfold writeFileSync. rewrite Hw.
  reflexivity.
Qed.

Lemma api_loadConfig_load_fails (s : OtrustCLI.State) (e : exn) :
  file_exists (OtrustCLI.configFile s) (fs (world s)) = true ->
  load_error (OtrustCLI.configFile s) (fs (world s)) = Some e ->
  OtrustCLI._loadConfig s =
  (Return tt,
   with_world
     (add_console
        (log_lines (OtrustCLI.logLevel s) "error"
           ("Fel vid laddning av konfiguration: " ++ message e))
        (world s)) s).
Proof.
  intros Hx He.
  unfold OtrustCLI._loadConfig, try_catch, bind, OtrustCLI.this, existsSync.
  rewrite Hx. unfold readFileSync, load_error in *.
  destruct (read_fails (fs (world s))).
  - injection He as <-. apply log_spec.
  - unfold file_exists in Hx.
    destruct (file_content (OtrustCLI.configFile s) (fs (world s)))
      as [text|]; [|discriminate].
    unfold JSON_parse. destruct (parse text); [discriminate|].
    injection He as <-. apply log_spec.
Qed.

Lemma api_saveConfig_fails (s : OtrustCLI.State) (c : Config) :
  OtrustCLI.config s = config_value c ->
  write_fails (fs (world s)) = true ->
  OtrustCLI._saveConfig s =
  (Throw (SystemError "EACCES"),
   with_world
     (add_console
        (log_lines (OtrustCLI.logLevel s) "error"
           "Fel vid sparande av konfiguration: EACCES")
        (world s)) s).
Proof.
  intros Hc Hw.
  unfold OtrustCLI._saveConfig, try_catch, bind, OtrustCLI.this,
    existsSync_dir.
  destruct (dir_exists (OtrustCLI.configDir s) (fs (world s))).
  - cbn [negb ret]. rewrite Hc, stringify_config.
    unfold writeFileSync. rewrite Hw. rewrite log_spec. reflexivity.
  - cbn [negb]. unfold mkdirSync. rewrite Hw. rewrite log_spec. reflexivity.
Qed.

End LoadFailures.

(** ** Claim C5 *)

Section ClaimC5.
Import JS Node.

(** C5. Config persistence round trip: on a disk that takes the write and
    gives it back, [save(cfg)] followed by [load()] returns [cfg] in all its
    fields (server URL, key pair, token).  For the command line client the
    load is [initConfig] in a later process, which starts from the default
    config; for the library it is the constructor of a new instance over the
    same directory. *)
Theorem C5_config_round_trip (E : Env) (c : Config) (w : World)
  (s : OtrustCLI.State) (o : OtrustCLI.options) :
  write_fails (fs w) = false ->
  read_fails (fs w) = false ->
  dir_exists (Cli.CONFIG_DIR E) (fs w) = true ->
  OtrustCLI.config s = config_value c ->
  OtrustCLI.configDir s = OtrustCLI.config_dir_of E o ->
  OtrustCLI.configFile s = FilePath (OtrustCLI.configDir s) "config.json" ->
  write_fails (fs (world s)) = false ->
  read_fails (fs (world s)) = false ->
  (let saved := snd (Cli.saveConfig E {| Cli.config := config_value c;
                                         Cli.cli_world := w |}) in
   let loaded := Cli.initConfig E {| Cli.config := Cli.default_config;
                                     Cli.cli_world := Cli.cli_world saved |} in
   fst loaded = Return tt /\ Cli.config (snd loaded) = config_value c)
  /\
  (let saved := OtrustCLI._saveConfig s in
   let loaded := OtrustCLI.constructor E o (world (snd saved)) in
   fst saved = Return tt /\ fst loaded = Return tt /\
   OtrustCLI.config (snd loaded) = config_value c).
Proof.
  intros Hw Hr Hd Hc Hdir Hfile Hw' Hr'. split.
  - apply cli_round_trip; assumption.
  - apply api_round_trip; assumption.
Qed.

Lemma C5_config_round_trip_witness :
  (let saved := snd (Cli.saveConfig sample_env (process_of sample_config empty_disk)) in
   let loaded := Cli.initConfig sample_env
                   {| Cli.config := Cli.default_config;
                      Cli.cli_world := Cli.cli_world saved |} in
   fst loaded = Return tt /\
   Cli.config (snd loaded) = config_value sample_config)
  /\
  (let saved := OtrustCLI._saveConfig (instance_of sample_config empty_disk) in
   let loaded := OtrustCLI.constructor sample_env no_options
                   (world (snd saved)) in
   fst saved = Return tt /\ fst loaded = Return tt /\
   OtrustCLI.config (snd loaded) = config_value sample_config).
Proof.
  apply (C5_config_round_trip sample_env sample_config
           (fresh_world empty_disk) (instance_of sample_config empty_disk)
           no_options); reflexivity.
Defined.

End ClaimC5.

(** ** Claim C7 *)

Section ClaimC7.
Import JS Node.




End ClaimC7.

(** ** Claim C8 *)

Section ClaimC8.
Import JS Node.




End ClaimC8.

(** ** Claim C4 *)

Section ClaimC4.
Import JS Node.

(** C4, as the code has it.  A save is one [fs.writeFileSync] on the config
    file itself: the file is opened for writing, which empties it, and the
    new text is written into it.  No temporary file is written and nothing
    is renamed.  A save that runs to its end leaves exactly the new text in
    the file; one that is interrupted when [k] bytes have gone out leaves
    the first [k] bytes of the new text, whatever the file held before. *)
Theorem C4_save_in_place (E : Env) (s : Cli.State) (a : OtrustCLI.State)
  (c : Config) :
  Cli.config s = config_value c ->
  write_fails (fs (world s)) = false ->
  dir_exists (Cli.CONFIG_DIR E) (fs (world s)) = true ->
  OtrustCLI.config a = config_value c ->
  write_fails (fs (world a)) = false ->
  dir_exists (OtrustCLI.configDir a) (fs (world a)) = true ->
  OtrustCLI.configFile a = FilePath (OtrustCLI.configDir a) "config.json" ->
  (let r := Cli.saveConfig E s in
   fst r = Return tt /\
   ops (world (snd r))
     = (ops (world s)
        ++ [OpOpenTruncate (Cli.CONFIG_FILE E);
            OpWrite (Cli.CONFIG_FILE E) (config_text c)])%list /\
   file_content (Cli.CONFIG_FILE E) (fs (world (snd r)))
     = Some (config_text c) /\
   forall k : nat,
     file_content (Cli.CONFIG_FILE E)
       (interrupted_write (Cli.CONFIG_FILE E) (config_text c) k (fs (world s)))
     = Some (substring 0 k (config_text c)))
  /\
  (let r := OtrustCLI._saveConfig a in
   fst r = Return tt /\
   ops (world (snd r))
     = (ops (world a)
        ++ [OpOpenTruncate (OtrustCLI.configFile a);
            OpWrite (OtrustCLI.configFile a) (config_text c)])%list /\
   file_content (OtrustCLI.configFile a) (fs (world (snd r)))
     = Some (config_text c) /\
   forall k : nat,
     file_content (OtrustCLI.configFile a)
       (interrupted_write (OtrustCLI.configFile a) (config_text c) k
          (fs (world a)))
     = Some (substring 0 k (config_text c))).
Proof.
  intros Hc Hw Hd Hc' Hw' Hd' Hf. split.
  - rewrite (cli_saveConfig_writes E s c) by assumption.
    cbn [fst snd world Cli.State_world Cli.cli_world run_ops fs ops].
    repeat split.
    + rewrite apply_write_ops by exact Hd. now apply file_content_store.
    + intros k. rewrite interrupted_write_store by exact Hd.
      now apply file_content_store.
  - rewrite (api_saveConfig_writes a c) by assumption.
    unfold save_ops. rewrite Hd'. cbn [app].
    assert (Hd'' : dir_exists (dirname (OtrustCLI.configFile a))
                     (fs (world a)) = true) by now rewrite Hf.
    destruct a as [? ? ? ? ? ? ? [d o k q]].
    cbn [fst snd world OtrustCLI.State_world OtrustCLI.api_world with_world
         add_console run_ops fs ops OtrustCLI.configFile] in *.
    repeat split.
    + rewrite apply_write_ops by exact Hd''. now apply file_content_store.
    + intros k0. rewrite interrupted_write_store by exact Hd''.
      now apply file_content_store.
Qed.

Lemma C4_save_in_place_witness :
  let s := process_of (logged_out sample_config) sample_disk in
  let a := instance_of (logged_out sample_config) sample_disk in
  let text := config_text (logged_out sample_config) in
  (let r := Cli.saveConfig sample_env s in
   fst r = Return tt /\
   ops (world (snd r))
     = (ops (world s)
        ++ [OpOpenTruncate (Cli.CONFIG_FILE sample_env);
            OpWrite (Cli.CONFIG_FILE sample_env) text])%list /\
   file_content (Cli.CONFIG_FILE sample_env) (fs (world (snd r)))
     = Some text /\
   forall k : nat,
     file_content (Cli.CONFIG_FILE sample_env)
       (interrupted_write (Cli.CONFIG_FILE sample_env) text k (fs (world s)))
     = Some (substring 0 k text))
  /\
  (let r := OtrustCLI._saveConfig a in
   fst r = Return tt /\
   ops (world (snd r))
     = (ops (world a)
        ++ [OpOpenTruncate (OtrustCLI.configFile a);
            OpWrite (OtrustCLI.configFile a) text])%list /\
   file_content (OtrustCLI.configFile a) (fs (world (snd r))) = Some text /\
   forall k : nat,
     file_content (OtrustCLI.configFile a)
       (interrupted_write (OtrustCLI.configFile a) text k (fs (world a)))
     = Some (substring 0 k text)).
Proof.
  exact (C4_save_in_place sample_env
           (process_of (logged_out sample_config) sample_disk)
           (instance_of (logged_out sample_config) sample_disk)
           (logged_out sample_config)
           eq_refl eq_refl eq_refl eq_refl eq_refl eq_refl eq_refl).
Defined.

(** C4 as stated fails: the sample disk holds a valid config; a logout
    saves the config without its token; stopped after the first file
    operation the save issues, the file is empty, which is neither the
    previous config nor the new one, and no longer parses. *)
Lemma C4_interrupted_save_loses_the_file :
  let s := process_of (logged_out sample_config) sample_disk in
  let issued := ops (world (snd (Cli.saveConfig sample_env s))) in
  let crashed := apply_ops (firstn 1 issued) sample_disk in
  disk_config sample_file sample_disk = Some (config_value sample_config)
  /\ file_content sample_file crashed = Some EmptyString
  /\ disk_config sample_file crashed = None
  /\ crashed = interrupted_write sample_file
                 (config_text (logged_out sample_config)) 0 sample_disk.
Proof. vm_compute. repeat split. Qed.

End ClaimC4.

(** ** Logout and key generation *)

Section Credentials.
Import JS Node.

Lemma set_token_null (c : Config) :
  set (config_value c) "token" Null = config_value (logged_out c).
Proof. reflexivity. Qed.

Lemma set_keyPair (c : Config) (kp : KeyPair) :
  set (config_value c) "keyPair" (keyPair_value kp)
  = config_value (with_keyPair c kp).
Proof. reflexivity. Qed.

Lemma truthy_token (c : Config) :
  truthy (get (config_value c) "token")
  = match token c with
    | Some t => negb (String.eqb t "")
    | None => false
    end.
Proof. destruct c as [s kp [t|]]; reflexivity. Qed.

Lemma truthy_keyPair (c : Config) :
  truthy (get (config_value c) "keyPair")
  = match keyPair c with Some _ => true | None => false end.
Proof. destruct c as [s [kp|] t]; reflexivity. Qed.

Lemma file_content_dir_exists (p : filepath) (d : Fs) (text : string) :
  file_content p d = Some text -> dir_exists (dirname p) d = true.
Proof.
  unfold file_content, dir_exists.
  now destruct (find (dirname p) (dirs d)).
Qed.

Lemma cli_logout_logged_in (E : Env) (s : Cli.State) (c : Config) (t : string) :
  Cli.config s = config_value c ->
  token c = Some t -> t <> "" ->
  write_fails (fs (world s)) = false ->
  dir_exists (Cli.CONFIG_DIR E) (fs (world s)) = true ->
  Cli.logout_action E s =
  (Return tt,
   {| Cli.config := config_value (logged_out c);
      Cli.cli_world :=
        add_console [Console "log" [Str "Logged out successfully"]]
          (run_ops (write_ops (Cli.CONFIG_FILE E)
                              (config_text (logged_out c))) (world s)) |}).
Proof.
  intros Hc Ht Hne Hw Hd.
  unfold Cli.logout_action, bind at 1, Cli.get_config.
  rewrite Hc, truthy_token, Ht.
  apply String.eqb_neq in Hne. rewrite Hne. cbn [negb].
  unfold Cli.set_config_field, bind, Cli.get_config, Cli.set_config.
  rewrite Hc, set_token_null.
  rewrite (cli_saveConfig_writes E _ (logged_out c)) by (cbn; auto).
  reflexivity.
Qed.

Lemma cli_logout_logged_out (E : Env) (s : Cli.State) (c : Config) :
  Cli.config s = config_value c ->
  token c = None ->
  Cli.logout_action E s =
  (Return tt,
   with_world (add_console [Console "log" [Str "You are not logged in"]]
                           (world s)) s).
Proof.
  intros Hc Ht.
  unfold Cli.logout_action, bind at 1, Cli.get_config.
  rewrite Hc, truthy_token, Ht. reflexivity.
Qed.

Lemma api_logout_spec (a : OtrustCLI.State) (c : Config) :
  OtrustCLI.config a = config_value c ->
  write_fails (fs (world a)) = false ->
  OtrustCLI.configFile a = FilePath (OtrustCLI.configDir a) "config.json" ->
  OtrustCLI.logout a =
  (Return (Obj [("success", Bool true)]),
   {| OtrustCLI.server := OtrustCLI.server a;
      OtrustCLI.configDir := OtrustCLI.configDir a;
      OtrustCLI.configFile := OtrustCLI.configFile a;
      OtrustCLI.logLevel := OtrustCLI.logLevel a;
      OtrustCLI.config := config_value (logged_out c);
      OtrustCLI.baseURL := OtrustCLI.baseURL a;
      OtrustCLI.authorization := None;
      OtrustCLI.api_world :=
        add_console (log_lines (OtrustCLI.logLevel a) "debug"
                               "Konfiguration sparad")
          (run_ops (save_ops a (config_text (logged_out c))) (world a)) |}).
Proof.
  intros Hc Hw Hf.
  unfold OtrustCLI.logout, OtrustCLI.set_config_field, bind,
    OtrustCLI.get_config, OtrustCLI.set_config, OtrustCLI.set_authorization.
  rewrite Hc, set_token_null.
  rewrite (api_saveConfig_writes _ (logged_out c)) by (cbn; auto).
  destruct a; reflexivity.
Qed.


Lemma cli_init_keeps (E : Env) (s : Cli.State) (c : Config) (kp : KeyPair) :
  Cli.config s = config_value c ->
  keyPair c = Some kp ->
  Cli.init_action E false s =
  (Return tt,
   with_world
     (add_console [Console "log" [Str "Key pair already exists.";
                                  Str "Use --force to regenerate"]]
                  (world s)) s).
Proof.
  intros Hc Hk.
  unfold Cli.init_action, bind at 1, Cli.get_config.
  rewrite Hc, truthy_keyPair, Hk. reflexivity.
Qed.

Lemma cli_init_generates (E : Env) (s : Cli.State) (c : Config)
  (kp' : KeyPair) (force : bool) :
  Cli.config s = config_value c ->
  (force = true \/ keyPair c = None) ->
  generateKeyPairSync E 2048 = Return (publicKey kp', privateKey kp') ->
  write_fails (fs (world s)) = false ->
  dir_exists (Cli.CONFIG_DIR E) (fs (world s)) = true ->
  Cli.init_action E force s =
  (Return tt,
   {| Cli.config := config_value (with_keyPair c kp');
      Cli.cli_world :=
        add_console
          [Spinner "succeed" "Key pair generated and saved";
           Console "log" [Str "Public key:"];
           Console "log" [Str (pem_body_of (publicKey kp'))]]
          (run_ops (write_ops (Cli.CONFIG_FILE E)
                              (config_text (with_keyPair c kp')))
             (add_console [Spinner "start" "Generating key pair..."]
                          (world s))) |}).
Proof.
  intros Hc Hforce Hg Hw Hd.
  unfold Cli.init_action, bind at 1, Cli.get_config.
  rewrite Hc, truthy_keyPair.
  assert (Hcond : ((match keyPair c with Some _ => true | None => false end)
                   && negb (truthy (Cli.flag force)))%bool = false).
  { destruct Hforce as [-> | ->]; [apply andb_false_r | reflexivity]. }
  rewrite Hcond.
  unfold bind at 1, print, update_world.
  unfold try_catch, bind at 1, Cli.generateKeyPair. rewrite Hg.
  unfold ret at 1, bind at 1.
  unfold Cli.set_config_field, bind at 1, Cli.get_config at 1, Cli.set_config.
  cbn [Cli.config with_world world Cli.State_world Cli.cli_world].
  rewrite Hc.
  change (Obj [("publicKey", Str (publicKey kp'));
               ("privateKey", Str (privateKey kp'))])
    with (keyPair_value kp').
  rewrite set_keyPair.
  unfold bind at 1.
  rewrite (cli_saveConfig_writes E _ (with_keyPair c kp')) by (cbn; auto).
  destruct s as [cfg [d o k q]]. destruct c as [srv okp tok].
  cbn - [apply_ops write_ops config_text pem_body_of].
  unfold add_console, run_ops.
  cbn - [apply_ops write_ops config_text pem_body_of].
  rewrite <- !app_assoc. reflexivity.
Qed.


Lemma api_init_keeps (E : Env) (a : OtrustCLI.State) (c : Config)
  (kp : KeyPair) :
  OtrustCLI.config a = config_value c ->
  keyPair c = Some kp ->
  OtrustCLI.init E false a =
  (Return (Obj [("publicKey", Str (pem_body_of (publicKey kp)))]),
   with_world
     (add_console (log_lines (OtrustCLI.logLevel a) "info"
                             "Nyckelpar finns redan") (world a)) a).
Proof.
  intros Hc Hk.
  unfold OtrustCLI.init, bind at 1, OtrustCLI.get_config.
  rewrite Hc, truthy_keyPair, Hk. cbn [negb orb].
  unfold bind at 1. rewrite log_spec.
  unfold bind at 1, OtrustCLI.get_config.
  cbn [OtrustCLI.config with_world OtrustCLI.State_world].
  rewrite Hc. destruct c as [srv okp tok]. cbn in Hk. subst okp.
  reflexivity.
Qed.

Lemma api_init_generates (E : Env) (a : OtrustCLI.State) (c : Config)
  (kp' : KeyPair) (force : bool) :
  OtrustCLI.config a = config_value c ->
  (force = true \/ keyPair c = None) ->
  generateKeyPairSync E 2048 = Return (publicKey kp', privateKey kp') ->
  write_fails (fs (world a)) = false ->
  OtrustCLI.configFile a = FilePath (OtrustCLI.configDir a) "config.json" ->
  exists w' : World,
    OtrustCLI.init E force a =
    (Return (Obj [("publicKey", Str (pem_body_of (publicKey kp')))]),
     {| OtrustCLI.server := OtrustCLI.server a;
        OtrustCLI.configDir := OtrustCLI.configDir a;
        OtrustCLI.configFile := OtrustCLI.configFile a;
        OtrustCLI.logLevel := OtrustCLI.logLevel a;
        OtrustCLI.config := config_value (with_keyPair c kp');
        OtrustCLI.baseURL := OtrustCLI.baseURL a;
        OtrustCLI.authorization := OtrustCLI.authorization a;
        OtrustCLI.api_world := w' |}) /\
    fs w' = apply_ops (save_ops a (config_text (with_keyPair c kp')))
                      (fs (world a)) /\
    sent w' = sent (world a).
Proof.
  intros Hc Hforce Hg Hw Hf.
  unfold OtrustCLI.init, bind at 1, OtrustCLI.get_config.
  rewrite Hc, truthy_keyPair.
  assert (Hcond : (negb (match keyPair c with Some _ => true | None => false end)
                   || force)%bool = true).
  { destruct Hforce as [-> | ->]; [apply orb_true_r | reflexivity]. }
  rewrite Hcond.
  unfold bind at 1, bind at 1, OtrustCLI._generateKeyPair, try_catch,
    bind at 1.
  rewrite log_spec, Hg. unfold ret at 1, bind at 1.
  unfold OtrustCLI.set_config_field, bind at 1, OtrustCLI.get_config at 1,
    OtrustCLI.set_config.
  cbn [OtrustCLI.config with_world OtrustCLI.State_world].
  rewrite Hc.
  change (Obj [("publicKey", Str (publicKey kp'));
               ("privateKey", Str (privateKey kp'))])
    with (keyPair_value kp').
  rewrite set_keyPair.
  unfold bind at 1.
  rewrite (api_saveConfig_writes _ (with_keyPair c kp'));
    [ | reflexivity | destruct a as [? ? ? ? ? ? ? []]; exact Hw
      | destruct a; exact Hf ].
  rewrite log_spec. unfold bind at 1, OtrustCLI.get_config.
  destruct a as [? ? ? ? ? ? ? [d o k q]]. destruct c as [srv okp tok].
  eexists. split; [reflexivity|]. split; reflexivity.
Qed.

End Credentials.

(** ** Claim C9 *)

Section ClaimC9.
Import JS Node.



End ClaimC9.

(** ** Claim C6 *)

Section ClaimC6.
Import JS Node.

Lemma keyPair_value_inj (kp kp' : KeyPair) :
  keyPair_value kp = keyPair_value kp' -> kp = kp'.
Proof.
  destruct kp, kp'. unfold keyPair_value. cbn. now intros [= -> ->].
Qed.



End ClaimC6.

(** ** The canonical payloads *)

Section Payloads.
Import JS Node.

Lemma map_serialize_strings (gap indent : string) (l : list string) :
  map (fun x => match serialize gap indent x with
                | Some t => t
                | None => "null"
                end) (map Str l)
  = map quote l.
Proof. induction l as [|x l IH]; cbn; [reflexivity | now rewrite IH]. Qed.

Lemma wrap_compact (open close indent : string) (parts : list string) :
  wrap open close "" indent parts = open ++ join "," parts ++ close.
Proof. destruct parts; reflexivity. Qed.

Lemma serialize_strings (indent : string) (l : list string) :
  serialize "" indent (Arr (map Str l)) = Some (strings_text l).
Proof.
  cbn [serialize]. rewrite map_serialize_strings. unfold strings_text, wrap.
  destruct l as [|x l]; reflexivity.
Qed.

Ltac normalize :=
  repeat first [ rewrite !append_assoc | progress cbn [append] ].

Lemma auth_payload_text (action P : string) (T : Z) :
  0 <= T < 10 ^ 21 ->
  Cli.auth_payload action (Str P) T = Some (auth_text action P T).
Proof.
  intros HT. unfold Cli.auth_payload, stringify, auth_text, field.
  cbn - [number_to_string quote].
  change (Dec T 0) with (of_Z T).
  rewrite number_to_string_integer by exact HT.
  f_equal. normalize. reflexivity.
Qed.

Lemma api_auth_payload_text (action P : string) (T : Z) :
  0 <= T < 10 ^ 21 ->
  OtrustCLI.auth_payload action (Str P) T = Some (auth_text action P T).
Proof. apply auth_payload_text. Qed.

Lemma api_claim_payload_text (k : ClaimData) (P : string) (T : Z) :
  0 <= T < 10 ^ 21 ->
  OtrustCLI.claim_payload (Str (cd_claim k)) (Arr (map Str (cd_evidence k)))
    (Str P) (Str (cd_type k)) (opt (cd_parent k)) T
    (semantic_value k)
  = Some (claim_text k P T).
Proof.
  intros HT. unfold OtrustCLI.claim_payload, stringify.
  cbn [serialize flat_map snd fst].
  rewrite map_serialize_strings, !wrap_compact.
  fold (strings_text (cd_evidence k)).
  assert (Hp : serialize "" ("" ++ "")
                 (or_else (opt (cd_parent k)) Null)
               = Some (parent_text (cd_parent k))).
  { destruct (cd_parent k) as [p|]; [|reflexivity].
    unfold or_else, opt, parent_text. cbn [truthy].
    destruct (String.eqb p ""); reflexivity. }
  cbn [serialize] in Hp. rewrite Hp.
  cbn - [number_to_string quote strings_text parent_text].
  change (Dec T 0) with (of_Z T).
  rewrite number_to_string_integer by exact HT.
  unfold claim_text, semantic_text, field. f_equal. normalize. reflexivity.
Qed.


Lemma cli_claim_payload_text (k : ClaimData) (P : string) (T : Z) :
  0 <= T < 10 ^ 21 ->
  Cli.claim_payload
    (Cli.stamp_claim (claimData_value (without_parent k)) (Str P) T)
  = Some (claim_text (without_parent k) P T).
Proof.
  intros HT.
  exact (api_claim_payload_text (without_parent k) P T HT).
Qed.

Lemma api_proof_payload_text (p : ProofData) (P : string) (T : Z) :
  0 <= T < 10 ^ 21 ->
  OtrustCLI.proof_payload (Str (pd_claimId p)) (Str (pd_action p)) (Str P) T
    (opt (pd_reason p)) (confidence_value p)
  = Some (proof_text p P T).
Proof.
  intros HT. unfold OtrustCLI.proof_payload, stringify, confidence_value.
  destruct (pd_reason p) as [r|] eqn:Hr;
    cbn - [number_to_string quote];
    change (Dec T 0) with (of_Z T);
    rewrite number_to_string_integer by exact HT;
    unfold proof_text, reason_text, field; rewrite Hr;
    f_equal; normalize; reflexivity.
Qed.

Lemma cli_proof_payload_text (p : ProofData) (P : string) (T : Z) :
  0 <= T < 10 ^ 21 ->
  Cli.proof_payload (Cli.stamp_proof (proofData_value p) (Str P) T)
  = Some (proof_text p P T).
Proof.
  intros HT. exact (api_proof_payload_text p P T HT).
Qed.

Lemma member_claimData (k : ClaimData) :
  member (claimData_value k) "claim" = Return (Str (cd_claim k)) /\
  member (claimData_value k) "evidence"
    = Return (Arr (map Str (cd_evidence k))) /\
  member (claimData_value k) "type" = Return (Str (cd_type k)) /\
  member (claimData_value k) "parent_id" = Return (opt (cd_parent k)) /\
  member (claimData_value k) "semantic" = Return (semantic_value k).
Proof. destruct k as [c e t [p|] s pr o]; repeat split. Qed.

Lemma path_publicKey (S : Type) `{HasWorld S} (c : Config) (kp : KeyPair)
  (s : S) :
  keyPair c = Some kp ->
  path (config_value c) ["keyPair"; "publicKey"] s
  = (Return (Str (publicKey kp)), s).
Proof. destruct c as [srv okp tok]. cbn. now intros ->. Qed.

Lemma path_privateKey (S : Type) `{HasWorld S} (c : Config) (kp : KeyPair)
  (s : S) :
  keyPair c = Some kp ->
  path (config_value c) ["keyPair"; "privateKey"] s
  = (Return (Str (privateKey kp)), s).
Proof. destruct c as [srv okp tok]. cbn. now intros ->. Qed.

Lemma api_buildClaimPayload_text (E : Env) (a : OtrustCLI.State)
  (c : Config) (kp : KeyPair) (k : ClaimData) :
  OtrustCLI.config a = config_value c ->
  keyPair c = Some kp ->
  0 <= now E < 10 ^ 21 ->
  OtrustCLI.buildClaimPayload E (claimData_value k) a
  = (Return (claim_text k (publicKey kp) (now E)), a).
Proof.
  intros Hc Hk HT.
  destruct (member_claimData k) as (H1 & H2 & H3 & H4 & H5).
  unfold OtrustCLI.buildClaimPayload, bind at 1, OtrustCLI.get_config.
  rewrite Hc, truthy_keyPair, Hk. cbn [negb].
  unfold bind at 1. rewrite (path_publicKey _ c kp) by exact Hk.
  unfold bind, lift. rewrite H1, H2, H3, H4, H5.
  rewrite api_claim_payload_text by exact HT. reflexivity.
Qed.

End Payloads.

(** ** Requests sent by the command line client *)

Section Requests.
Import JS Node.

Lemma keeps_ret {A : Type} (a : A) : keeps_sent (ret a).
Proof. intros s. reflexivity. Qed.

Lemma keeps_throw {A : Type} (e : exn) : keeps_sent (@throw Cli.State A e).
Proof. intros s. reflexivity. Qed.

Lemma keeps_lift {A : Type} (r : result A) : keeps_sent (lift r).
Proof. intros s. reflexivity. Qed.

Lemma keeps_bind {A B : Type} (m : M Cli.State A) (k : A -> M Cli.State B) :
  keeps_sent m -> (forall a, keeps_sent (k a)) -> keeps_sent (bind m k).
Proof.
  intros Hm Hk s. unfold bind. specialize (Hm s).
  destruct (m s) as [[a|e] s1]; cbn [snd] in *.
  - now rewrite Hk.
  - exact Hm.
Qed.

Lemma keeps_try_catch {A : Type} (m : M Cli.State A)
  (h : exn -> M Cli.State A) :
  keeps_sent m -> (forall e, keeps_sent (h e)) -> keeps_sent (try_catch m h).
Proof.
  intros Hm Hh s. unfold try_catch. specialize (Hm s).
  destruct (m s) as [[a|e] s1]; cbn [snd] in *.
  - exact Hm.
  - now rewrite Hh.
Qed.

Lemma keeps_print (l : line) : keeps_sent (print l).
Proof. intros s. reflexivity. Qed.

Lemma keeps_get_config : keeps_sent Cli.get_config.
Proof. intros s. reflexivity. Qed.

Lemma keeps_set_config (c : value) : keeps_sent (Cli.set_config c).
Proof. intros s. reflexivity. Qed.

Lemma keeps_set_config_field (k : string) (v : value) :
  keeps_sent (Cli.set_config_field k v).
Proof. intros s. reflexivity. Qed.

Lemma keeps_the_string (o : option string) : keeps_sent (the_string o).
Proof. intros s. now destruct o. Qed.

Lemma keeps_path (v : value) (keys : list string) : keeps_sent (path v keys).
Proof.
  revert v. induction keys as [|k ks IH]; intros v s; [reflexivity|].
  cbn [path]. destruct (member v k); [apply IH | reflexivity].
Qed.

Lemma keeps_excerpt (v : value) (n : nat) : keeps_sent (excerpt v n).
Proof. intros s. now destruct v. Qed.

Lemma keeps_pem_body (v : value) : keeps_sent (pem_body v).
Proof. intros s. now destruct v. Qed.

Lemma keeps_fixed (E : Env) (v : value) (d : Z) : keeps_sent (Cli.fixed E v d).
Proof. intros s. unfold Cli.fixed. now destruct (toFixed E v d). Qed.

Lemma keeps_writeFileSync (p : filepath) (data : string) :
  keeps_sent (writeFileSync p data).
Proof.
  intros s. unfold writeFileSync.
  destruct (write_fails _); [reflexivity|].
  destruct (dir_exists _ _); reflexivity.
Qed.

Lemma keeps_saveConfig (E : Env) : keeps_sent (Cli.saveConfig E).
Proof.
  unfold Cli.saveConfig. apply keeps_try_catch.
  - apply keeps_bind; [apply keeps_get_config|]. intros c.
    destruct (stringify_indent2 c);
      [apply keeps_writeFileSync | apply keeps_throw].
  - intros e. apply keeps_print.
Qed.

Lemma keeps_for_each (vs : list value) (f : value -> M Cli.State unit) :
  (forall v, keeps_sent (f v)) -> keeps_sent (Cli.for_each vs f).
Proof.
  intros Hf. induction vs as [|v vs IH]; cbn [Cli.for_each].
  - apply keeps_ret.
  - apply keeps_bind; [apply Hf | intros; exact IH].
Qed.

End Requests.

Ltac keeps :=
  repeat first
    [ apply keeps_ret | apply keeps_throw | apply keeps_lift
    | apply keeps_print | apply keeps_get_config | apply keeps_set_config
    | apply keeps_set_config_field | apply keeps_the_string
    | apply keeps_path | apply keeps_excerpt | apply keeps_pem_body
    | apply keeps_fixed | apply keeps_writeFileSync
    | apply keeps_saveConfig
    | apply keeps_for_each; intros
    | apply keeps_bind; [ | intros ]
    | apply keeps_try_catch; [ | intros ]
    | match goal with
      | H : forall v, keeps_sent (?f v) |- keeps_sent (?f _) => apply H
      | |- keeps_sent (if ?b then _ else _) => destruct b
      | |- keeps_sent (match ?x with _ => _ end) => destruct x
      end ].

Section RequestsSent.
Import JS Node.

Lemma sent_bind_send {A : Type} (E : Env) (r : request)
  (k : reply -> M Cli.State A) (s : Cli.State) :
  (forall x, keeps_sent (k x)) ->
  sent (world (snd (bind (send E r) k s))) = (sent (world s) ++ [r])%list.
Proof.
  intros Hk. unfold bind, send. rewrite (Hk _ _).
  destruct s as [c [d o q t]]. reflexivity.
Qed.

Lemma api_request_sent (E : Env) (method url : string) (body : value)
  (s : Cli.State) :
  sent (world (snd (Cli.api_request E method url body s)))
  = (sent (world s) ++ [cli_request (Cli.config s) method url body])%list.
Proof.
  unfold Cli.api_request, bind at 1, Cli.get_config. cbv beta iota.
  apply (sent_bind_send E (cli_request (Cli.config s) method url body)).
  intros r. keeps.
Qed.

Lemma sent_try_request {A : Type} (E : Env) (method url : string)
  (body : value) (k : value -> M Cli.State A) (h : exn -> M Cli.State A)
  (s : Cli.State) :
  (forall x, keeps_sent (k x)) ->
  (forall e, keeps_sent (h e)) ->
  sent (world (snd (try_catch (bind (Cli.api_request E method url body) k)
                              h s)))
  = (sent (world s) ++ [cli_request (Cli.config s) method url body])%list.
Proof.
  intros Hk Hh. unfold try_catch, bind.
  pose proof (api_request_sent E method url body s) as Hs.
  destruct (Cli.api_request E method url body s) as [[x|e] s1];
    cbn [snd] in Hs.
  - specialize (Hk x s1). destruct (k x s1) as [[y|e] s2]; cbn [snd] in *.
    + now rewrite Hk.
    + now rewrite Hh, Hk.
  - now rewrite Hh.
Qed.


Lemma bind_run {S A B : Type} (m : M S A) (k : A -> M S B) (s s' : S)
  (a : A) :
  m s = (Return a, s') -> bind m k s = k a s'.
Proof. intros H. unfold bind. now rewrite H. Qed.

Lemma try_bind_run {S A B : Type} (m : M S A) (k : A -> M S B)
  (h : exn -> M S B) (s s' : S) (a : A) :
  m s = (Return a, s') -> try_catch (bind m k) h s = try_catch (k a) h s'.
Proof. intros H. unfold try_catch, bind. now rewrite H. Qed.

Lemma cli_authenticate_sends (E : Env) (s : Cli.State) (c : Config)
  (kp : KeyPair) (action url starting succeeded failed sig : string)
  (report : value -> M Cli.State unit) :
  (forall v, keeps_sent (report v)) ->
  Cli.config s = config_value c ->
  keyPair c = Some kp ->
  0 <= now E < 10 ^ 21 ->
  sign_sha256_hex E (auth_text action (publicKey kp) (now E)) (privateKey kp)
    = Some sig ->
  sent (world (snd (Cli.authenticate E action url starting succeeded failed
                      report s)))
  = (sent (world s)
     ++ [cli_request (config_value c) "POST" url
           (Obj [("publicKey", Str (publicKey kp));
                 ("signature", Str sig);
                 ("timestamp", Num (of_Z (now E)))])])%list.
Proof.
  intros Hr Hc Hk HT Hs.
  unfold Cli.authenticate.
  rewrite (bind_run Cli.get_config _ s s (config_value c))
    by (unfold Cli.get_config; now rewrite Hc).
  rewrite truthy_keyPair, Hk. cbn [negb].
  erewrite bind_run by reflexivity.
  erewrite try_bind_run by (apply (path_publicKey _ c kp); exact Hk).
  rewrite auth_payload_text by exact HT.
  erewrite try_bind_run by reflexivity.
  erewrite try_bind_run by (apply (path_privateKey _ c kp); exact Hk).
  erewrite try_bind_run by (unfold Cli.signData; rewrite Hs; reflexivity).
  unfold Cli.api_post. rewrite sent_try_request.
  - destruct s as [cfg [d o q t]]. cbn in Hc. subst cfg. reflexivity.
  - intros x. keeps.
  - intros e. keeps.
Qed.

Lemma cli_proof_add_sends (E : Env) (s : Cli.State) (c : Config)
  (kp : KeyPair) (t : string) (o : Cli.proof_options)
  (id act text sig : string) :
  Cli.config s = config_value c ->
  keyPair c = Some kp ->
  token c = Some t -> t <> "" ->
  Cli.proof_interactive o = false ->
  Cli.proof_claimId o = Some id -> id <> "" ->
  Cli.proof_action o = Some act -> act <> "" ->
  Cli.proof_payload
    (Cli.stamp_proof (Cli.proof_data_of_options o) (Str (publicKey kp))
                     (now E)) = Some text ->
  sign_sha256_hex E text (privateKey kp) = Some sig ->
  sent (world (snd (Cli.proof_add_action E o s)))
  = (sent (world s)
     ++ [cli_request (config_value c) "POST" "/api/proof"
           (set (Cli.stamp_proof (Cli.proof_data_of_options o)
                                 (Str (publicKey kp)) (now E))
                "signature" (Str sig))])%list.
Proof.
  intros Hc Hk Ht Hne Hi Hid Hidne Hact Hactne Hp Hs.
  unfold Cli.proof_add_action.
  rewrite (bind_run Cli.get_config _ s s (config_value c))
    by (unfold Cli.get_config; now rewrite Hc).
  rewrite truthy_keyPair, truthy_token, Hk, Ht.
  apply String.eqb_neq in Hne. rewrite Hne. cbn [negb orb].
  assert (Hnp : Cli.proof_needs_prompt o (Cli.proof_data_of_options o) = false).
  { unfold Cli.proof_needs_prompt, Cli.proof_data_of_options.
    rewrite Hi, Hid, Hact. cbn.
    apply String.eqb_neq in Hidne, Hactne. now rewrite Hidne, Hactne. }
  erewrite bind_run by (unfold Cli.proof_data; rewrite Hnp; reflexivity).
  erewrite bind_run by (apply (path_publicKey _ c kp); exact Hk).
  rewrite Hp.
  erewrite bind_run by reflexivity.
  erewrite bind_run by (apply (path_privateKey _ c kp); exact Hk).
  erewrite bind_run by (unfold Cli.signData; rewrite Hs; reflexivity).
  erewrite bind_run by reflexivity.
  unfold Cli.api_post. rewrite sent_try_request.
  - destruct s as [cfg [d q l r]]. cbn in Hc. subst cfg. reflexivity.
  - intros x. keeps.
  - intros e. keeps.
Qed.

End RequestsSent.

(** ** Claim C1 *)

Section ClaimC1.
Import JS Node.



End ClaimC1.

(** ** Claim C2 *)

Section Injectivity.
Import JS Node.

Lemma append_inv_head (a x y : string) : a ++ x = a ++ y -> x = y.
Proof. induction a as [|c a IH]; cbn; [auto | intros [= H]; auto]. Qed.

Lemma all_digits_uint (d : Decimal.uint) :
  all_digits (NilEmpty.string_of_uint d) = true.
Proof. induction d; cbn; auto. Qed.

Lemma all_digits_string_of_Z (z : Z) :
  0 <= z -> all_digits (string_of_Z z) = true.
Proof.
  intros Hz. destruct z as [|p|p]; [reflexivity| |lia].
  unfold string_of_Z. cbn [Z.to_int NilZero.string_of_int].
  unfold NilZero.string_of_uint.
  destruct (Pos.to_uint p) eqn:H; try (rewrite <- H; apply all_digits_uint).
  reflexivity.
Qed.

Lemma string_of_Z_inj (a b : Z) : string_of_Z a = string_of_Z b -> a = b.
Proof.
  intros H. apply DecimalZ.to_int_inj.
  assert (Hn : forall z, Z.to_int z <> Decimal.Pos Decimal.Nil
                         /\ Z.to_int z <> Decimal.Neg Decimal.Nil).
  { intros [|p|p]; cbn; split; try discriminate;
      intros [= Hp]; now apply (DecimalPos.Unsigned.to_uint_nonnil p). }
  destruct (Hn a) as [Ha1 Ha2]. destruct (Hn b) as [Hb1 Hb2].
  pose proof (NilZero.isi _ Ha1 Ha2) as Ia.
  pose proof (NilZero.isi _ Hb1 Hb2) as Ib.
  unfold string_of_Z in H. rewrite H in Ia. congruence.
Qed.

(** Two digit strings followed by a comma and anything: equal wholes have
    equal digits and equal rests. *)
Lemma digits_comma_inj (a b r1 r2 : string) :
  all_digits a = true -> all_digits b = true ->
  a ++ String "," r1 = b ++ String "," r2 -> a = b /\ r1 = r2.
Proof.
  revert b. induction a as [|x a IH]; intros [|y b] Ha Hb H; cbn in *.
  - injection H as ->. auto.
  - injection H as <- _. discriminate.
  - injection H as -> _. discriminate.
  - apply andb_true_iff in Ha as [_ Ha]. apply andb_true_iff in Hb as [_ Hb].
    injection H as -> H. destruct (IH b Ha Hb H) as [-> ->]. auto.
Qed.

Lemma join_more_strings (x : string) (l : list string) (rest : string) :
  join "," (map quote (x :: l)) ++ "]" ++ rest
  = quote x ++ more_strings l rest.
Proof.
  revert x. induction l as [|y l IH]; intros x.
  - reflexivity.
  - change (join "," (map quote (x :: y :: l)))
      with (quote x ++ "," ++ join "," (map quote (y :: l))).
    rewrite !append_assoc. rewrite IH. reflexivity.
Qed.

Lemma more_strings_inj (l1 l2 : list string) (r1 r2 : string) :
  more_strings l1 r1 = more_strings l2 r2 -> l1 = l2 /\ r1 = r2.
Proof.
  revert l2. induction l1 as [|x l1 IH]; intros [|y l2] H;
    cbn [more_strings] in H.
  - apply append_inv_head in H. subst. auto.
  - discriminate.
  - discriminate.
  - apply append_inv_head in H. apply quote_app_inj in H as [-> H].
    destruct (IH _ H) as [-> ->]. auto.
Qed.

Lemma strings_text_inj (l1 l2 : list string) (r1 r2 : string) :
  strings_text l1 ++ r1 = strings_text l2 ++ r2 -> l1 = l2 /\ r1 = r2.
Proof.
  unfold strings_text. rewrite !append_assoc. intros H.
  apply append_inv_head in H.
  destruct l1 as [|x l1], l2 as [|y l2].
  - cbn [map join] in H. apply append_inv_head in H.
    apply append_inv_head in H. subst. auto.
  - rewrite join_more_strings in H. discriminate.
  - rewrite join_more_strings in H. discriminate.
  - rewrite !join_more_strings in H.
    apply quote_app_inj in H as [-> H].
    apply more_strings_inj in H as [-> ->]. auto.
Qed.

Lemma parent_text_inj (o1 o2 : option string) (r1 r2 : string) :
  parent_text o1 ++ String "," r1 = parent_text o2 ++ String "," r2 ->
  normal_parent o1 = normal_parent o2 /\ r1 = r2.
Proof.
  unfold parent_text, normal_parent.
  destruct o1 as [p1|], o2 as [p2|];
    try destruct (String.eqb p1 ""); try destruct (String.eqb p2 "");
    intros H;
    try (apply quote_app_inj in H as [-> H]; injection H as ->; now auto);
    try (cbn in H; injection H as ->; now auto);
    try discriminate.
Qed.

End Injectivity.

Ltac peel H :=
  repeat first
    [ apply append_inv_head in H
    | let E := fresh "E" in apply quote_app_inj in H as [E H] ].

Section ClaimC2.
Import JS Node.

Lemma claim_text_inj (k1 k2 : ClaimData) (P1 P2 : string) (T1 T2 : Z) :
  0 <= T1 -> 0 <= T2 ->
  claim_text k1 P1 T1 = claim_text k2 P2 T2 ->
  cd_claim k1 = cd_claim k2 /\
  cd_evidence k1 = cd_evidence k2 /\
  P1 = P2 /\
  cd_type k1 = cd_type k2 /\
  normal_parent (cd_parent k1) = normal_parent (cd_parent k2) /\
  T1 = T2 /\
  cd_subject k1 = cd_subject k2 /\
  cd_predicate k1 = cd_predicate k2 /\
  cd_object k1 = cd_object k2.
Proof.
  intros H1 H2 H.
  unfold claim_text, semantic_text, field in H.
  rewrite !append_assoc in H.
  peel H.
  apply strings_text_inj in H as [Eev H].
  peel H.
  change ("," ++ ?x) with (String "," x) in H.
  apply parent_text_inj in H as [Epar H].
  peel H.
  apply digits_comma_inj in H as [ET H];
    [ | now apply all_digits_string_of_Z | now apply all_digits_string_of_Z ].
  apply string_of_Z_inj in ET.
  peel H.
  repeat split; assumption.
Qed.

Lemma Return_inj {A : Type} (x y : A) : Return x = Return y -> x = y.
Proof. now intros [= ->]. Qed.

Lemma parent_text_normal (o : option string) :
  parent_text o = match normal_parent o with
                  | Some p => quote p
                  | None => "null"
                  end.
Proof.
  destruct o as [p|]; [|reflexivity]. unfold parent_text, normal_parent.
  now destruct (String.eqb p "").
Qed.

(** C2, as the code has it.  The payload [buildClaimPayload] returns is a
    function of the claim fields, the configured public key and the clock
    reading, and of nothing else in the instance or its environment; and it
    determines them, except that a missing and an empty [parent_id] are
    both written [null].  So two calls (on claim data of the documented
    types, with a key pair loaded) return the same string exactly when they
    agree on the claim text, the evidence list, the public key, the type,
    the timestamp, the semantic triple, and the parent id up to that
    identification. *)
Theorem C2_payload_determines_fields (E1 E2 : Env)
  (a1 a2 : OtrustCLI.State) (c1 c2 : Config) (kp1 kp2 : KeyPair)
  (k1 k2 : ClaimData) :
  OtrustCLI.config a1 = config_value c1 -> keyPair c1 = Some kp1 ->
  OtrustCLI.config a2 = config_value c2 -> keyPair c2 = Some kp2 ->
  0 <= now E1 < 10 ^ 21 -> 0 <= now E2 < 10 ^ 21 ->
  fst (OtrustCLI.buildClaimPayload E1 (claimData_value k1) a1)
  = fst (OtrustCLI.buildClaimPayload E2 (claimData_value k2) a2)
  <->
  (cd_claim k1 = cd_claim k2 /\
   cd_evidence k1 = cd_evidence k2 /\
   publicKey kp1 = publicKey kp2 /\
   cd_type k1 = cd_type k2 /\
   normal_parent (cd_parent k1) = normal_parent (cd_parent k2) /\
   now E1 = now E2 /\
   cd_subject k1 = cd_subject k2 /\
   cd_predicate k1 = cd_predicate k2 /\
   cd_object k1 = cd_object k2).
Proof.
  intros Hc1 Hk1 Hc2 Hk2 HT1 HT2.
  rewrite (api_buildClaimPayload_text E1 a1 c1 kp1 k1) by assumption.
  rewrite (api_buildClaimPayload_text E2 a2 c2 kp2 k2) by assumption.
  cbn [fst]. split.
  - intros H. apply Return_inj in H.
    apply claim_text_inj in H; [exact H | lia | lia].
  - intros (H1 & H2 & H3 & H4 & H5 & H6 & H7 & H8 & H9).
    unfold claim_text, semantic_text.
    rewrite !parent_text_normal, H1, H2, H3, H4, H5, H6, H7, H8, H9.
    reflexivity.
Qed.

Lemma C2_payload_determines_fields_witness :
  let a := instance_of sample_config sample_disk in
  fst (OtrustCLI.buildClaimPayload sample_env (claimData_value sample_claim) a)
  = fst (OtrustCLI.buildClaimPayload sample_env
           (claimData_value sample_claim_empty_parent) a)
  <->
  (cd_claim sample_claim = cd_claim sample_claim_empty_parent /\
   cd_evidence sample_claim = cd_evidence sample_claim_empty_parent /\
   publicKey sample_keyPair = publicKey sample_keyPair /\
   cd_type sample_claim = cd_type sample_claim_empty_parent /\
   normal_parent (cd_parent sample_claim)
     = normal_parent (cd_parent sample_claim_empty_parent) /\
   now sample_env = now sample_env /\
   cd_subject sample_claim = cd_subject sample_claim_empty_parent /\
   cd_predicate sample_claim = cd_predicate sample_claim_empty_parent /\
   cd_object sample_claim = cd_object sample_claim_empty_parent).
Proof.
  apply (C2_payload_determines_fields sample_env sample_env
           (instance_of sample_config sample_disk)
           (instance_of sample_config sample_disk)
           sample_config sample_config sample_keyPair sample_keyPair
           sample_claim sample_claim_empty_parent);
    first [ reflexivity | split; [discriminate | reflexivity] ].
Defined.

(** C2 as stated fails: claim data with no [parent_id] and claim data whose
    [parent_id] is the empty string differ in that one field, and
    [buildClaimPayload] returns the same string for both. *)
Lemma C2_empty_parent_is_not_told_apart :
  let a := instance_of sample_config sample_disk in
  claimData_value sample_claim <> claimData_value sample_claim_empty_parent /\
  get (claimData_value sample_claim) "parent_id" = Undefined /\
  get (claimData_value sample_claim_empty_parent) "parent_id"
    = Str EmptyString /\
  OtrustCLI.buildClaimPayload sample_env (claimData_value sample_claim) a
  = OtrustCLI.buildClaimPayload sample_env
      (claimData_value sample_claim_empty_parent) a.
Proof.
  split; [discriminate|].
  split; [reflexivity|].
  split; [reflexivity|].
  vm_compute. reflexivity.
Qed.

End ClaimC2.

(** ** Claim C10 *)

Section ClaimC10.
Import JS Node.

Lemma ask_input_valid (d : value) (f : value -> value) (v : value -> bool)
  (lines : list string) (answer : value) (rest : list string) :
  ask_input d f v lines = Some (answer, rest) -> v answer = true.
Proof.
  induction lines as [|l lines IH]; cbn [ask_input]; [discriminate|].
  match goal with |- context [if v ?x then _ else _] =>
    destruct (v x) eqn:Hv end.
  - now intros [= <- _].
  - exact IH.
Qed.

Lemma prompt_confidence_valid (proofData : value) (lines : list string)
  (answers : list (string * value)) :
  prompt (Cli.proof_questions proofData) lines = Some answers ->
  Cli.valid_confidence (get (Obj answers) "confidence") = true.
Proof.
  unfold Cli.proof_questions. cbn [prompt].
  destruct (ask_input _ _ _ lines) as [[a1 r1]|]; [|discriminate].
  cbn [option_map fst snd].
  destruct (ask_choice _ _ r1) as [[a2 r2]|]; [|discriminate].
  cbn [option_map fst snd].
  destruct (ask_input _ _ _ r2) as [[a3 r3]|]; [|discriminate].
  cbn [option_map fst snd].
  destruct (ask_input _ _ _ r3) as [[a4 r4]|] eqn:H4; [|discriminate].
  cbn [option_map fst snd].
  intros [= <-]. apply ask_input_valid in H4. exact H4.
Qed.

Lemma proof_data_non_interactive (o : Cli.proof_options) (id act : string) :
  Cli.proof_claimId o = Some id ->
  Cli.proof_action o = Some act ->
  Cli.proof_data_of_options o
  = Obj [("claimId", Str id);
         ("action", Str act);
         ("reason", opt (Cli.proof_reason o));
         ("confidence", Num (confidence_of_flag (Cli.proof_confidence o)))].
Proof.
  intros Hid Hact. unfold Cli.proof_data_of_options, confidence_of_flag.
  rewrite Hid, Hact.
  destruct (Cli.proof_confidence o) as [f|]; [|reflexivity].
  cbn [opt truthy]. now destruct (String.eqb f "").
Qed.



End ClaimC10.

(** ** Claim C3 *)

Section ClaimC3.
Import JS Node.

(** The guards that do what C3 says.  With no key pair in the config, the
    command line client's [claim:create] and [proof:add] print an error
    and send nothing; the library's [buildClaimPayload], [createClaim],
    [register] and [login] throw the error "no key pair configured"
    before anything is signed or sent. *)
Lemma cli_actions_need_key_pair (E : Env) (s : Cli.State) (c : Config)
  (co : Cli.claim_options) (po : Cli.proof_options) :
  Cli.config s = config_value c ->
  keyPair c = None ->
  Cli.claim_create_action E co s
  = (Return tt,
     with_world
       (add_console [Console "error"
                       [Str "Error:";
                        Str "You must be logged in to create a claim"]]
                    (world s)) s)
  /\
  Cli.proof_add_action E po s
  = (Return tt,
     with_world
       (add_console [Console "error"
                       [Str "Error:";
                        Str "You must be logged in to add a proof"]]
                    (world s)) s).
Proof.
  intros Hc Hk. split.
  - unfold Cli.claim_create_action.
    rewrite (bind_run Cli.get_config _ s s (config_value c))
      by (unfold Cli.get_config; now rewrite Hc).
    rewrite truthy_keyPair, Hk. cbn [negb]. rewrite orb_true_r.
    reflexivity.
  - unfold Cli.proof_add_action.
    rewrite (bind_run Cli.get_config _ s s (config_value c))
      by (unfold Cli.get_config; now rewrite Hc).
    rewrite truthy_keyPair, Hk. cbn [negb]. rewrite orb_true_r.
    reflexivity.
Qed.

Lemma api_methods_need_key_pair (E : Env) (a : OtrustCLI.State) (c : Config)
  (claimData : value) (t : string) :
  OtrustCLI.config a = config_value c ->
  keyPair c = None ->
  token c = Some t -> t <> EmptyString ->
  OtrustCLI.buildClaimPayload E claimData a
    = (Throw (Error OtrustCLI.no_key_pair), a) /\
  OtrustCLI.createClaim E claimData a
    = (Throw (Error OtrustCLI.no_key_pair), a) /\
  OtrustCLI.register E a = (Throw (Error OtrustCLI.no_key_pair), a) /\
  OtrustCLI.login E a = (Throw (Error OtrustCLI.no_key_pair), a).
Proof.
  intros Hc Hk Ht Hne.
  assert (Hb : OtrustCLI.buildClaimPayload E claimData a
               = (Throw (Error OtrustCLI.no_key_pair), a)).
  { unfold OtrustCLI.buildClaimPayload, bind, OtrustCLI.get_config.
    now rewrite Hc, truthy_keyPair, Hk. }
  repeat split.
  - exact Hb.
  - unfold OtrustCLI.createClaim, bind at 1, OtrustCLI.get_config.
    rewrite Hc, truthy_token, Ht.
    apply String.eqb_neq in Hne. rewrite Hne. cbn [negb].
    unfold bind. now rewrite Hb.
  - unfold OtrustCLI.register, OtrustCLI.authenticate, bind,
      OtrustCLI.get_config.
    now rewrite Hc, truthy_keyPair, Hk.
  - unfold OtrustCLI.login, OtrustCLI.authenticate, bind,
      OtrustCLI.get_config.
    now rewrite Hc, truthy_keyPair, Hk.
Qed.

(** What [addProof] does instead: with a token and no key pair it reads
    [publicKey] of [null]. *)
Lemma api_addProof_reads_null (E : Env) (a : OtrustCLI.State) (c : Config)
  (p : ProofData) (t : string) :
  OtrustCLI.config a = config_value c ->
  keyPair c = None ->
  token c = Some t -> t <> EmptyString ->
  OtrustCLI.addProof E (proofData_value p) a
  = (Throw (TypeError "Cannot read properties of null (reading 'publicKey')"),
     a).
Proof.
  intros Hc Hk Ht Hne.
  unfold OtrustCLI.addProof, bind at 1, OtrustCLI.get_config.
  rewrite Hc, truthy_token, Ht.
  apply String.eqb_neq in Hne. rewrite Hne. cbn [negb].
  destruct c as [srv okp tok]. cbn in Hk. subst okp. reflexivity.
Qed.

(** C3 at the failing input: an instance whose config holds a session token
    and no key pair.  [addProof] stops on the runtime's TypeError for
    reading a property of [null], where [createClaim] and
    [buildClaimPayload] on the same instance, and [proof:add] of the command
    line client on the same config, report the missing key pair; nothing is
    sent in any of the four. *)
Theorem C3_addProof_without_key_pair :
  let a := instance_of keyless_config sample_disk in
  let s := process_of keyless_config sample_disk in
  OtrustCLI.addProof sample_env (proofData_value sample_proof) a
    = (Throw (TypeError
                "Cannot read properties of null (reading 'publicKey')"), a)
  /\ OtrustCLI.createClaim sample_env (claimData_value sample_claim) a
    = (Throw (Error OtrustCLI.no_key_pair), a)
  /\ OtrustCLI.buildClaimPayload sample_env (claimData_value sample_claim) a
    = (Throw (Error OtrustCLI.no_key_pair), a)
  /\ fst (Cli.proof_add_action sample_env out_of_range_options s) = Return tt
  /\ console (world (snd (Cli.proof_add_action sample_env
                            out_of_range_options s)))
    = [Console "error" [Str "Error:";
                        Str "You must be logged in to add a proof"]]
  /\ sent (world (snd (Cli.proof_add_action sample_env
                         out_of_range_options s))) = []
  /\ sent (world a) = [].
Proof.
  assert (Hne : "eyJhbGciOiJIUzI1NiJ9" <> EmptyString) by discriminate.
  destruct (api_methods_need_key_pair sample_env
              (instance_of keyless_config sample_disk) keyless_config
              (claimData_value sample_claim) "eyJhbGciOiJIUzI1NiJ9"
              eq_refl eq_refl eq_refl Hne) as (Hb & Hc & _ & _).
  destruct (cli_actions_need_key_pair sample_env
              (process_of keyless_config sample_disk) keyless_config
              {| Cli.claim_interactive := false; Cli.claim_text := None;
                 Cli.claim_evidence := None; Cli.claim_type := None;
                 Cli.claim_subject := None; Cli.claim_predicate := None;
                 Cli.claim_object := None |}
              out_of_range_options eq_refl eq_refl) as [_ Hp].
  cbv zeta. rewrite Hp.
  split.
  { exact (api_addProof_reads_null sample_env
             (instance_of keyless_config sample_disk) keyless_config
             sample_proof "eyJhbGciOiJIUzI1NiJ9" eq_refl eq_refl eq_refl
             Hne). }
  split; [exact Hc|]. split; [exact Hb|].
  repeat split.
Qed.

End ClaimC3.

(** ** What the request commands leave alone *)

Section Frames.
Import JS Node.

Lemma store_ret {A : Type} (a : A) : keeps_store (ret a).
Proof. intros s. now repeat split. Qed.

Lemma store_throw {A : Type} (e : exn) : keeps_store (@throw Cli.State A e).
Proof. intros s. now repeat split. Qed.

Lemma store_lift {A : Type} (r : result A) : keeps_store (lift r).
Proof. intros s. now repeat split. Qed.

Lemma store_bind {A B : Type} (m : M Cli.State A) (k : A -> M Cli.State B) :
  keeps_store m -> (forall a, keeps_store (k a)) -> keeps_store (bind m k).
Proof.
  intros Hm Hk s. unfold bind. specialize (Hm s).
  destruct (m s) as [[a|e] s1]; cbn [snd] in *; [|exact Hm].
  destruct (Hk a s1) as (H1 & H2 & H3). destruct Hm as (G1 & G2 & G3).
  repeat split; congruence.
Qed.

Lemma store_try_catch {A : Type} (m : M Cli.State A)
  (h : exn -> M Cli.State A) :
  keeps_store m -> (forall e, keeps_store (h e)) -> keeps_store (try_catch m h).
Proof.
  intros Hm Hh s. unfold try_catch. specialize (Hm s).
  destruct (m s) as [[a|e] s1]; cbn [snd] in *; [exact Hm|].
  destruct (Hh e s1) as (H1 & H2 & H3). destruct Hm as (G1 & G2 & G3).
  repeat split; congruence.
Qed.

Lemma store_print (l : line) : keeps_store (print l).
Proof. intros [c [d o k q]]. now repeat split. Qed.

Lemma store_get_config : keeps_store Cli.get_config.
Proof. intros s. now repeat split. Qed.

Lemma store_the_string (o : option string) : keeps_store (the_string o).
Proof. destruct o; intros st; now repeat split. Qed.

Lemma store_path (v : value) (keys : list string) : keeps_store (path v keys).
Proof.
  revert v. induction keys as [|k ks IH]; intros v; cbn [path].
  - apply store_ret.
  - destruct (member v k); [apply IH | apply store_throw].
Qed.

Lemma store_excerpt (v : value) (n : nat) : keeps_store (excerpt v n).
Proof. destruct v; intros st; now repeat split. Qed.

Lemma store_pem_body (v : value) : keeps_store (pem_body v).
Proof. destruct v; intros st; now repeat split. Qed.

Lemma store_fixed (E : Env) (v : value) (d : Z) : keeps_store (Cli.fixed E v d).
Proof. unfold Cli.fixed. destruct (toFixed E v d); intros st; now repeat split. Qed.

Lemma store_signData (E : Env) (data : string) (key : value) :
  keeps_store (Cli.signData E data key).
Proof.
  unfold Cli.signData. destruct key; try (intros st; now repeat split).
  destruct (sign_sha256_hex E data _); intros st; now repeat split.
Qed.

Lemma store_send (E : Env) (r : request) : keeps_store (send E r).
Proof. intros [c [d o k q]]. now repeat split. Qed.

Lemma store_for_each (vs : list value) (f : value -> M Cli.State unit) :
  (forall v, keeps_store (f v)) -> keeps_store (Cli.for_each vs f).
Proof.
  intros Hf. induction vs as [|v vs IH]; cbn [Cli.for_each].
  - apply store_ret.
  - apply store_bind; [apply Hf | intros _; exact IH].
Qed.

Lemma store_claim_data (E : Env) (o : Cli.claim_options) :
  keeps_store (Cli.claim_data E o).
Proof.
  unfold Cli.claim_data.
  destruct (Cli.claim_needs_prompt o _); [|apply store_ret].
  destruct (prompt _ _); [apply store_ret | apply store_throw].
Qed.

Lemma store_proof_data (E : Env) (o : Cli.proof_options) :
  keeps_store (Cli.proof_data E o).
Proof.
  unfold Cli.proof_data.
  destruct (Cli.proof_needs_prompt o _); [|apply store_ret].
  destruct (prompt _ _); [apply store_ret | apply store_throw].
Qed.

End Frames.

Ltac stores :=
  repeat first
    [ apply store_ret | apply store_throw | apply store_lift
    | apply store_print | apply store_get_config | apply store_the_string
    | apply store_path | apply store_excerpt | apply store_pem_body
    | apply store_fixed | apply store_signData | apply store_send
    | apply store_claim_data | apply store_proof_data
    | apply store_for_each; intros
    | apply store_bind; [ | intros ]
    | apply store_try_catch; [ | intros ]
    | match goal with
      | H : forall v, keeps_store (?f v) |- keeps_store (?f _) => apply H
      | |- keeps_store (if ?b then _ else _) => destruct b
      | |- keeps_store (match ?x with _ => _ end) => destruct x
      end ].

Section RequestFrames.
Import JS Node.

Lemma store_api_request (E : Env) (method url : string) (body : value) :
  keeps_store (Cli.api_request E method url body).
Proof. unfold Cli.api_request, console_error. stores. Qed.

(** X1. The commands that talk to the server about claims, proofs and the
    profile never touch the credential store: whatever the options, the
    lines typed at the prompts and the answer of the server, [claim:create],
    [proof:add] and [profile] leave the [config] object and the disk as they
    were and issue no file operation. *)
Theorem X1_requests_keep_the_store (E : Env) (co : Cli.claim_options)
  (po : Cli.proof_options) (fo : Cli.profile_options) :
  keeps_store (Cli.claim_create_action E co) /\
  keeps_store (Cli.proof_add_action E po) /\
  keeps_store (Cli.profile_action E fo).
Proof.
  split; [|split].
  - unfold Cli.claim_create_action, console_error, console_log, Cli.api_post.
    stores; apply store_api_request.
  - unfold Cli.proof_add_action, console_error, console_log, Cli.api_post.
    stores; apply store_api_request.
  - unfold Cli.profile_action, console_error, console_log, Cli.api_put.
    stores; apply store_api_request.
Qed.
End RequestFrames.

(** ** Splitting: PEM blocks and evidence lists *)

Section PemBody.
Import JS Node.

Lemma split_lacks (sep : ascii) (x : string) :
  lacks sep x = true -> split sep x = [x].
Proof.
  induction x as [|c x IH]; cbn; [reflexivity|].
  intros H. apply andb_true_iff in H as [Hc Hx].
  apply negb_true_iff in Hc. rewrite Hc. now rewrite (IH Hx).
Qed.

Lemma split_app (sep : ascii) (x r : string) :
  lacks sep x = true -> split sep (x ++ String sep r) = x :: split sep r.
Proof.
  induction x as [|c x IH]; cbn.
  - intros _. now rewrite Ascii.eqb_refl.
  - intros H. apply andb_true_iff in H as [Hc Hx].
    apply negb_true_iff in Hc. rewrite Hc. now rewrite (IH Hx).
Qed.

Lemma split_not_nil (sep : ascii) (s : string) : split sep s <> [].
Proof.
  induction s as [|c s IH]; cbn; [discriminate|].
  destruct (Ascii.eqb c sep); [discriminate|].
  destruct (split sep s); [contradiction | discriminate].
Qed.

Lemma split_parts_lack (sep : ascii) (s : string) :
  forallb (lacks sep) (split sep s) = true.
Proof.
  induction s as [|c s IH]; cbn; [reflexivity|].
  destruct (Ascii.eqb c sep) eqn:Hc; cbn; [exact IH|].
  destruct (split sep s) as [|p ps]; cbn in *; [now rewrite Hc|].
  rewrite Hc. exact IH.
Qed.

Lemma split_lines (body : list string) (tail : string) :
  forallb (lacks "010") body = true ->
  split "010" (lines_text body ++ tail) = (body ++ split "010" tail)%list.
Proof.
  induction body as [|x body IH]; cbn [lines_text forallb app]; intros H.
  - reflexivity.
  - apply andb_true_iff in H as [Hx Hb].
    rewrite !append_assoc. change (nl ++ ?r) with (String "010" r).
    unfold nl. cbn [append].
    rewrite split_app by exact Hx. now rewrite (IH Hb).
Qed.

Lemma join_concat (sep : string) (l : list string) :
  join sep l = String.concat sep l.
Proof.
  induction l as [|x l IH]; [reflexivity|].
  destruct l as [|y l]; [reflexivity|].
  change (x ++ sep ++ join sep (y :: l) = x ++ sep ++ String.concat sep (y :: l)).
  now rewrite IH.
Qed.

Lemma split_pem_block (header footer : string) (body : list string) :
  lacks "010" header = true ->
  forallb (lacks "010") body = true ->
  lacks "010" footer = true ->
  split "010" (pem_block header body footer)
  = (header :: body ++ [footer; ""])%list /\
  split "010" (header ++ nl ++ lines_text body ++ footer)
  = (header :: body ++ [footer])%list.
Proof.
  intros Hh Hb Hf. unfold pem_block, nl. cbn [append].
  rewrite !(split_app "010" header) by exact Hh.
  rewrite !split_lines by exact Hb.
  rewrite (split_app "010" footer) by exact Hf.
  rewrite (split_lacks "010" footer) by exact Hf.
  split; reflexivity.
Qed.

Lemma slice_body {A : Type} (h f e : A) (body : list A) :
  slice_1_m2 (h :: body ++ [f; e]) = body /\
  slice_1_m2 (h :: body ++ [f]) = removelast body.
Proof.
  unfold slice_1_m2. cbn [skipn List.length]. rewrite !length_app.
  cbn [List.length]. split.
  - replace (S (List.length body + 2) - 3)%nat
      with (List.length body + 0)%nat by lia.
    rewrite firstn_app_2. cbn. apply app_nil_r.
  - replace (S (List.length body + 1) - 3)%nat
      with (pred (List.length body)) by lia.
    rewrite firstn_app.
    replace (pred (List.length body) - List.length body)%nat with O by lia.
    cbn [firstn]. rewrite app_nil_r. symmetry. apply removelast_firstn_len.
Qed.

(** X2. What [init] shows of a public key.  For a PEM block whose lines all
    end with a line feed, [pem.split('\n').slice(1, -2).join('')] is the
    base64 body: the lines between the BEGIN and the END line, joined.  For
    the same block without the final line feed it also loses the last line
    of the body. *)
Theorem X2_pem_body_is_the_base64_body (S : Type) `{HasWorld S} (s : S)
  (header footer : string) (body : list string) :
  lacks "010" header = true ->
  forallb (lacks "010") body = true ->
  lacks "010" footer = true ->
  pem_body (Str (pem_block header body footer)) s
  = (Return (Str (String.concat "" body)), s) /\
  pem_body (Str (header ++ nl ++ lines_text body ++ footer)) s
  = (Return (Str (String.concat "" (removelast body))), s).
Proof.
  intros Hh Hb Hf. unfold pem_body, ret.
  destruct (split_pem_block header footer body Hh Hb Hf) as [-> ->].
  destruct (slice_body header footer "" body) as [-> ->].
  now rewrite !join_concat.
Qed.

Lemma X2_pem_body_is_the_base64_body_witness :
  let s := process_of sample_config sample_disk in
  let header := "-----BEGIN PUBLIC KEY-----" in
  let footer := "-----END PUBLIC KEY-----" in
  let body := ["MIIBIjANBgkqhkiG9w0BAQEFAAOCAQ8A"; "MIIBCgKCAQEAu1SU1LfVLPHCozMxH2Mo"] in
  pem_body (Str (pem_block header body footer)) s
  = (Return (Str "MIIBIjANBgkqhkiG9w0BAQEFAAOCAQ8AMIIBCgKCAQEAu1SU1LfVLPHCozMxH2Mo"),
     s) /\
  pem_body (Str (header ++ nl ++ lines_text body ++ footer)) s
  = (Return (Str "MIIBIjANBgkqhkiG9w0BAQEFAAOCAQ8A"), s).
Proof.
  apply (X2_pem_body_is_the_base64_body Cli.State
           (process_of sample_config sample_disk)
           "-----BEGIN PUBLIC KEY-----" "-----END PUBLIC KEY-----"
           ["MIIBIjANBgkqhkiG9w0BAQEFAAOCAQ8A";
            "MIIBCgKCAQEAu1SU1LfVLPHCozMxH2Mo"]);
    reflexivity.
Defined.

End PemBody.

Section Evidence.
Import JS Node.

Lemma starts_clean_trim_start (s : string) :
  starts_clean (trim_start s) = true.
Proof.
  induction s as [|c s IH]; cbn; [reflexivity|].
  destruct (is_space c) eqn:Hc; [exact IH|]. cbn. now rewrite Hc.
Qed.

Lemma trim_start_clean (s : string) :
  starts_clean s = true -> trim_start s = s.
Proof.
  destruct s as [|c s]; cbn; [reflexivity|].
  intros H. apply negb_true_iff in H. now rewrite H.
Qed.

Lemma starts_clean_trim_end (s : string) :
  starts_clean s = true -> starts_clean (trim_end s) = true.
Proof.
  destruct s as [|c s]; cbn [trim_end starts_clean]; [reflexivity|].
  intros H. destruct (trim_end s); [|exact H].
  apply negb_true_iff in H. rewrite H. cbn. now rewrite H.
Qed.

Lemma trim_end_cons (c : ascii) (s : string) :
  trim_end (String c s)
  = match trim_end s with
    | EmptyString => if is_space c then EmptyString else String c EmptyString
    | r => String c r
    end.
Proof. reflexivity. Qed.

Lemma trim_end_idem (s : string) : trim_end (trim_end s) = trim_end s.
Proof.
  induction s as [|c s IH]; [reflexivity|].
  rewrite trim_end_cons.
  destruct (trim_end s) as [|d t] eqn:Ht.
  - destruct (is_space c) eqn:Hc; [reflexivity|].
    rewrite trim_end_cons. cbn [trim_end]. now rewrite Hc.
  - rewrite trim_end_cons. now rewrite IH.
Qed.

Lemma trim_idem (s : string) : trim (trim s) = trim s.
Proof.
  unfold trim.
  rewrite (trim_start_clean (trim_end (trim_start s))).
  - apply trim_end_idem.
  - apply starts_clean_trim_end, starts_clean_trim_start.
Qed.

Lemma trim_space (s : string) : trim (String " " s) = trim s.
Proof. reflexivity. Qed.

Lemma lacks_trim_start (c : ascii) (s : string) :
  lacks c s = true -> lacks c (trim_start s) = true.
Proof.
  induction s as [|d s IH]; cbn [trim_start lacks]; [auto|].
  intros H. destruct (is_space d); [|exact H].
  apply andb_true_iff in H as [_ H]. auto.
Qed.

Lemma lacks_trim_end (c : ascii) (s : string) :
  lacks c s = true -> lacks c (trim_end s) = true.
Proof.
  induction s as [|d s IH]; cbn [trim_end lacks]; [auto|].
  intros H. apply andb_true_iff in H as [Hd Hs]. specialize (IH Hs).
  destruct (trim_end s) as [|a s0].
  - destruct (is_space d); [reflexivity|]. cbn. now rewrite Hd.
  - change (negb (Ascii.eqb d c) && lacks c (String a s0) = true)%bool.
    now rewrite Hd, IH.
Qed.

Lemma lacks_trim (c : ascii) (s : string) :
  lacks c s = true -> lacks c (trim s) = true.
Proof. intros H. now apply lacks_trim_end, lacks_trim_start. Qed.

Lemma split_join_comma (x : string) (l : list string) :
  forallb (lacks ",") (x :: l) = true ->
  split "," (join ", " (x :: l)) = x :: map (String " ") l.
Proof.
  revert x. induction l as [|y l IH]; intros x H.
  - cbn in H. rewrite andb_true_r in H. cbn [join map].
    now apply split_lacks.
  - cbn [forallb] in H. apply andb_true_iff in H as [Hx Hl].
    change (join ", " (x :: y :: l))
      with (x ++ String "," (String " " (join ", " (y :: l)))).
    rewrite split_app by exact Hx.
    change (split "," (String " " (join ", " (y :: l))))
      with (match split "," (join ", " (y :: l)) with
            | [] => [String " " ""]
            | p :: ps => String " " p :: ps
            end).
    now rewrite (IH y Hl).
Qed.

Lemma map_trim_space (l : list string) :
  map (fun e => Str (trim e)) (map (String " ") l)
  = map (fun e => Str (trim e)) l.
Proof. now rewrite map_map. Qed.

(** The evidence list read from a comma-separated string: its elements are
    trimmed and hold no comma. *)
Lemma split_trim_join (s : string) :
  Cli.split_trim (Cli.join_comma (Cli.split_trim s)) = Cli.split_trim s.
Proof.
  unfold Cli.split_trim at 2 3. unfold Cli.join_comma.
  rewrite map_map. cbn [to_string].
  pose proof (split_parts_lack "," s) as Hl.
  pose proof (split_not_nil "," s) as Hn.
  destruct (split "," s) as [|x l]; [contradiction|]. clear Hn.
  cbn [map]. unfold Cli.split_trim.
  rewrite split_join_comma.
  - cbn [map]. rewrite map_trim_space, trim_idem.
    f_equal. f_equal. rewrite map_map.
    apply map_ext. intros e. now rewrite trim_idem.
  - change (forallb (lacks ",") (map trim (x :: l)) = true).
    rewrite forallb_forall in *. intros e He.
    apply in_map_iff in He as (e0 & <- & He0).
    apply lacks_trim, Hl, He0.
Qed.

End Evidence.

Section EvidenceThms.
Import JS Node.

Lemma non_empty_split_trim (input : string) :
  Cli.non_empty (Cli.split_trim_value (Str input)) = true.
Proof.
  unfold Cli.non_empty, Cli.split_trim_value, Cli.split_trim, Cli.length_of.
  rewrite length_map. pose proof (split_not_nil "," input) as Hn.
  destruct (split "," input); [contradiction|]. cbn [List.length].
  apply Z.ltb_lt. lia.
Qed.

Lemma ask_evidence (d line : string) (rest : list string) :
  ask_input (Str d) Cli.split_trim_value Cli.non_empty (line :: rest)
  = Some (Cli.split_trim (if String.eqb line "" then d else line), rest).
Proof.
  cbn [ask_input].
  destruct (String.eqb line ""); now rewrite non_empty_split_trim.
Qed.

(** X3. The evidence question of the interactive [claim:create] accepts
    every answer.  Its filter splits the line (or, for an empty line, the
    default shown) on commas and trims the parts, and the validation
    [input.length > 0] then sees that list, which always has an element:
    the message "At least one evidence URL is required" never shows, and
    an empty answer with nothing to default to gives the evidence list
    holding one empty string. *)
Theorem X3_evidence_answer_is_never_rejected (claimData : value)
  (line : string) (rest : list string) :
  let d := if truthy (get claimData "evidence")
           then Cli.join_comma (get claimData "evidence") else "" in
  nth_error (Cli.claim_questions claimData) 1
  = Some (Input "evidence" (Str d) Cli.split_trim_value Cli.non_empty) /\
  ask_input (Str d) Cli.split_trim_value Cli.non_empty (line :: rest)
  = Some (Cli.split_trim (if String.eqb line "" then d else line), rest) /\
  Cli.split_trim "" = Arr [Str ""].
Proof.
  intros d. split; [|split].
  - subst d. cbn [Cli.claim_questions nth_error].
    now destruct (truthy (get claimData "evidence")).
  - apply ask_evidence.
  - reflexivity.
Qed.

(** X4. Accepting the default at the evidence prompt gives back the
    evidence of the command line.  With [--evidence s] the evidence is [s]
    split on commas and trimmed; the prompt shows it joined with [", "], and
    an empty line sends that text through the same filter, which returns the
    same list. *)
Theorem X4_evidence_default_round_trip (o : Cli.claim_options) (s : string)
  (rest : list string) :
  Cli.claim_evidence o = Some s ->
  s <> "" ->
  get (Cli.claim_data_of_options o) "evidence" = Cli.split_trim s /\
  nth_error (Cli.claim_questions (Cli.claim_data_of_options o)) 1
  = Some (Input "evidence" (Str (Cli.join_comma (Cli.split_trim s)))
            Cli.split_trim_value Cli.non_empty) /\
  ask_input (Str (Cli.join_comma (Cli.split_trim s)))
    Cli.split_trim_value Cli.non_empty ("" :: rest)
  = Some (Cli.split_trim s, rest).
Proof.
  intros Ho Hs. apply String.eqb_neq in Hs.
  assert (He : get (Cli.claim_data_of_options o) "evidence" = Cli.split_trim s).
  { unfold Cli.claim_data_of_options. rewrite Ho. cbn. now rewrite Hs. }
  split; [exact He|]. split.
  - cbn [Cli.claim_questions nth_error]. now rewrite He.
  - rewrite ask_evidence. cbn [String.eqb]. now rewrite split_trim_join.
Qed.

Lemma X4_evidence_default_round_trip_witness :
  let o := {| Cli.claim_interactive := true;
              Cli.claim_text := None;
              Cli.claim_evidence := Some "https://a.example/1 , https://b.example/2";
              Cli.claim_type := None;
              Cli.claim_subject := None;
              Cli.claim_predicate := None;
              Cli.claim_object := None |} in
  let ev := Arr [Str "https://a.example/1"; Str "https://b.example/2"] in
  get (Cli.claim_data_of_options o) "evidence" = ev /\
  nth_error (Cli.claim_questions (Cli.claim_data_of_options o)) 1
  = Some (Input "evidence" (Str "https://a.example/1, https://b.example/2")
            Cli.split_trim_value Cli.non_empty) /\
  ask_input (Str "https://a.example/1, https://b.example/2")
    Cli.split_trim_value Cli.non_empty ("" :: ["factual"])
  = Some (ev, ["factual"]).
Proof.
  apply (X4_evidence_default_round_trip
           {| Cli.claim_interactive := true;
              Cli.claim_text := None;
              Cli.claim_evidence := Some "https://a.example/1 , https://b.example/2";
              Cli.claim_type := None;
              Cli.claim_subject := None;
              Cli.claim_predicate := None;
              Cli.claim_object := None |}
           "https://a.example/1 , https://b.example/2" ["factual"]);
    [reflexivity | discriminate].
Defined.

End EvidenceThms.

(** ** The commands of the client that change the credential store *)

Section CliRequests.
Import JS Node.

Lemma cli_api_request_accepted (E : Env) (method url : string) (body : value)
  (s : Cli.State) (status : Z) (text : string) (data : value) :
  server E (cli_request (Cli.config s) method url body)
    = Response status text data ->
  accepted (Response status text data) = true ->
  Cli.api_request E method url body s
  = (Return (Obj [("data", data)]),
     with_world (add_sent (cli_request (Cli.config s) method url body)
                          (world s)) s).
Proof.
  intros Hr Ha. unfold Cli.api_request, bind, Cli.get_config, send.
  fold (cli_request (Cli.config s) method url body).
  rewrite Hr. cbn [accepted] in Ha. rewrite Ha. reflexivity.
Qed.

Lemma cli_api_request_rejected (E : Env) (method url : string) (body : value)
  (s : Cli.State) (r : reply) :
  server E (cli_request (Cli.config s) method url body) = r ->
  accepted r = false ->
  Cli.api_request E method url body s
  = (Throw (rejection r),
     with_world
       (add_console (rejection_lines r)
          (add_sent (cli_request (Cli.config s) method url body) (world s)))
       s).
Proof.
  intros Hr Ha. unfold Cli.api_request, bind at 1, Cli.get_config.
  unfold bind at 1, send.
  fold (cli_request (Cli.config s) method url body).
  rewrite Hr. destruct s as [c [d o k q]].
  destruct r as [status text data|]; cbn [accepted] in Ha.
  - rewrite Ha. cbn [rejection_lines rejection].
    destruct (status =? 401); [reflexivity|].
    destruct (truthy data && truthy (get data "error"))%bool; [|reflexivity].
    destruct (truthy (get data "message")); [|reflexivity].
    unfold bind, console_error, print, update_world, throw, add_console,
      add_sent.
    cbn [world with_world Cli.State_world Cli.cli_world Cli.config
         fs ops console sent].
    now rewrite <- app_assoc.
  - reflexivity.
Qed.

End CliRequests.

Section ConfigCommand.
Import JS Node.

Lemma set_server_value (c : Config) (u : string) :
  set (config_value c) "server" (Str u) = config_value (with_server c u).
Proof. reflexivity. Qed.

Lemma cli_saveConfig_console (E : Env) (s : Cli.State) (c : Config) :
  Cli.config s = config_value c ->
  fst (Cli.saveConfig E s) = Return tt /\
  Cli.config (snd (Cli.saveConfig E s)) = config_value c /\
  console (world (snd (Cli.saveConfig E s)))
  = (console (world s) ++ save_lines E (fs (world s)))%list.
Proof.
  intros Hc. unfold save_lines.
  destruct (write_fails (fs (world s))) eqn:Hw.
  - rewrite (cli_saveConfig_fails E s c Hc Hw).
    destruct s as [cfg [d o k q]]. cbn in *. auto.
  - destruct (dir_exists (Cli.CONFIG_DIR E) (fs (world s))) eqn:Hd.
    + rewrite (cli_saveConfig_writes E s c Hc Hw Hd).
      destruct s as [cfg [d o k q]]. cbn. rewrite app_nil_r. auto.
    + unfold Cli.saveConfig, try_catch, bind, Cli.get_config.
      rewrite Hc, stringify_config. unfold writeFileSync.
      rewrite Hw. cbn [dirname Cli.CONFIG_FILE]. rewrite Hd.
      destruct s as [cfg [d o k q]]. cbn in *. auto.
Qed.

Lemma config_action_console (E : Env) (o : Cli.config_options)
  (s : Cli.State) (c : Config) :
  Cli.config s = config_value c ->
  console (world (snd (Cli.config_action E o s)))
  = (console (world s) ++
     match new_server_of o with
     | Some u =>
         save_lines E (fs (world s)) ++
         [Console "log" [Str "Server URL updated:"; Str u]] ++
         (if Cli.config_print o
          then config_lines u (has_keyPair c) (logged_in c) else [])
     | None => config_lines (serverUrl c) (has_keyPair c) (logged_in c)
     end)%list.
Proof.
  intros Hc. unfold Cli.config_action, new_server_of.
  destruct o as [[u|] p]; cbn [Cli.config_server Cli.config_print opt get
                                  lookup String.eqb Ascii.eqb Bool.eqb truthy].
  - destruct (String.eqb u "") eqn:Hu; cbn [negb].
    + rewrite orb_true_r.
      unfold bind, ret, Cli.get_config, console_log, print, update_world.
      cbn [snd world with_world Cli.State_world Cli.cli_world console
           Cli.config].
      rewrite Hc, truthy_keyPair, truthy_token.
      unfold config_lines, has_keyPair, logged_in.
      now rewrite <- !app_assoc.
    + rewrite orb_false_r.
      unfold bind at 1. unfold bind at 1.
      unfold Cli.set_config_field, bind at 1, Cli.get_config at 1,
        Cli.set_config.
      rewrite Hc, set_server_value.
      set (s1 := {| Cli.config := config_value (with_server c u);
                    Cli.cli_world := Cli.cli_world s |}).
      destruct (cli_saveConfig_console E s1 (with_server c u) eq_refl)
        as (Hr & Hc2 & Hk).
      unfold bind at 1.
      destruct (Cli.saveConfig E s1) as [r s2]. cbn [fst snd] in *.
      subst r.
      unfold bind, ret, Cli.get_config, console_log, print, update_world.
      rewrite Hc2.
      destruct p; cbn [snd world with_world Cli.State_world Cli.cli_world
                       console Cli.config Cli.flag truthy];
        rewrite ?Hc2, ?truthy_keyPair, ?truthy_token;
        cbn [world Cli.State_world] in Hk; rewrite Hk;
        unfold config_lines, has_keyPair, logged_in; cbn [with_server keyPair token serverUrl get config_value lookup String.eqb Ascii.eqb Bool.eqb];
        now rewrite <- !app_assoc.
  - rewrite orb_true_r.
    unfold bind, ret, Cli.get_config, console_log, print, update_world.
    cbn [snd world with_world Cli.State_world Cli.cli_world console
         Cli.config].
    rewrite Hc, truthy_keyPair, truthy_token.
    unfold config_lines, has_keyPair, logged_in.
    now rewrite <- !app_assoc.
Qed.

End ConfigCommand.

Section ConfigThms.
Import JS Node.

(** X5. [config --server u] stores the new server URL and nothing
    else.  Starting from a config [c], on a disk that takes the write, the
    in-memory config and the config file both hold [c] with its server URL
    replaced by [u]: key pair and token are what they were, no request is
    sent, and a later process that loads the file starts from exactly that
    config. *)
Theorem X5_config_server_is_persisted (E : Env) (s : Cli.State) (c : Config)
  (u : string) (p : bool) :
  Cli.config s = config_value c ->
  u <> "" ->
  write_fails (fs (world s)) = false ->
  read_fails (fs (world s)) = false ->
  dir_exists (Cli.CONFIG_DIR E) (fs (world s)) = true ->
  let s' := snd (Cli.config_action E {| Cli.config_server := Some u;
                                        Cli.config_print := p |} s) in
  Cli.config s' = config_value (with_server c u) /\
  file_content (Cli.CONFIG_FILE E) (fs (world s'))
    = Some (config_text (with_server c u)) /\
  sent (world s') = sent (world s) /\
  Cli.config (snd (Cli.initConfig E {| Cli.config := Cli.default_config;
                                       Cli.cli_world := world s' |}))
    = config_value (with_server c u).
Proof.
  intros Hc Hu Hw Hr Hd s'.
  assert (Hs : Cli.config s' = config_value (with_server c u) /\
               fs (world s')
               = apply_ops (write_ops (Cli.CONFIG_FILE E)
                                      (config_text (with_server c u)))
                           (fs (world s)) /\
               sent (world s') = sent (world s)).
  { assert (Hrun : exists l,
              Cli.config_action E {| Cli.config_server := Some u;
                                     Cli.config_print := p |} s
              = (Return tt,
                 {| Cli.config := config_value (with_server c u);
                    Cli.cli_world :=
                      add_console l
                        (run_ops (write_ops (Cli.CONFIG_FILE E)
                                    (config_text (with_server c u)))
                                 (world s)) |})).
    { unfold Cli.config_action.
      apply String.eqb_neq in Hu.
      cbn [Cli.config_server Cli.config_print opt get lookup String.eqb
           Ascii.eqb Bool.eqb truthy].
      rewrite Hu. cbn [negb]. rewrite orb_false_r.
      erewrite bind_run; cycle 1.
      { erewrite bind_run
          by (unfold Cli.set_config_field, bind, Cli.get_config,
                Cli.set_config; rewrite Hc, set_server_value; reflexivity).
        erewrite bind_run
          by (apply (cli_saveConfig_writes E _ (with_server c u));
              cbn; auto).
        erewrite bind_run by reflexivity.
        reflexivity. }
      destruct p; cbn [Cli.flag truthy].
      - eexists.
        unfold bind, ret, Cli.get_config, console_log, print, update_world,
          add_console.
        cbn [snd world with_world Cli.State_world Cli.cli_world console
             Cli.config fs ops sent run_ops].
        rewrite <- !app_assoc. reflexivity.
      - eexists. unfold ret, add_console. reflexivity. }
    destruct Hrun as [l Hrun]. subst s'. rewrite Hrun.
    destruct s as [cfg [d o k q]]. cbn. auto. }
  destruct Hs as (H1 & H2 & H3).
  assert (Hf : file_content (Cli.CONFIG_FILE E) (fs (world s'))
               = Some (config_text (with_server c u))).
  { rewrite H2, apply_write_ops by exact Hd.
    apply file_content_store. exact Hd. }
  repeat split; try assumption.
  rewrite (cli_initConfig_reads E _ default_Config (with_server c u)).
  - reflexivity.
  - reflexivity.
  - cbn [Cli.cli_world]. rewrite H2. now rewrite read_fails_apply_ops.
  - exact Hf.
Qed.

Lemma X5_config_server_is_persisted_witness :
  let s := process_of sample_config sample_disk in
  let s' := snd (Cli.config_action sample_env new_server s) in
  let c' := with_server sample_config "https://new.example" in
  Cli.config s' = config_value c' /\
  file_content (Cli.CONFIG_FILE sample_env) (fs (world s'))
    = Some (config_text c') /\
  sent (world s') = sent (world s) /\
  Cli.config (snd (Cli.initConfig sample_env
                     {| Cli.config := Cli.default_config;
                        Cli.cli_world := world s' |}))
    = config_value c'.
Proof.
  apply (X5_config_server_is_persisted sample_env
           (process_of sample_config sample_disk) sample_config
           "https://new.example" false);
    first [reflexivity | discriminate].
Defined.

(** X6. What [config] prints does not depend on the secrets.  Two
    configs with the same server URL that agree on whether there is a key
    pair and whether there is a token give the same console output, whatever
    the options and the state of the disk: the command shows the flags
    "Configured" and "Logged in" and never the key material or the
    token. *)
Theorem X6_config_output_hides_the_secrets (E : Env)
  (o : Cli.config_options) (w : World) (c1 c2 : Config) :
  serverUrl c1 = serverUrl c2 ->
  has_keyPair c1 = has_keyPair c2 ->
  logged_in c1 = logged_in c2 ->
  console (world (snd (Cli.config_action E o
                         {| Cli.config := config_value c1;
                            Cli.cli_world := w |})))
  = console (world (snd (Cli.config_action E o
                           {| Cli.config := config_value c2;
                              Cli.cli_world := w |}))).
Proof.
  intros Hs Hk Ht.
  rewrite (config_action_console E o
             {| Cli.config := config_value c1; Cli.cli_world := w |}
             c1 eq_refl).
  rewrite (config_action_console E o
             {| Cli.config := config_value c2; Cli.cli_world := w |}
             c2 eq_refl).
  now rewrite Hs, Hk, Ht.
Qed.

Lemma X6_config_output_hides_the_secrets_witness :
  let other := {| serverUrl := serverUrl sample_config;
                  keyPair := Some fresh_keyPair;
                  token := Some "another.session.token" |} in
  let o := {| Cli.config_server := None; Cli.config_print := true |} in
  console (world (snd (Cli.config_action sample_env o
                         {| Cli.config := config_value sample_config;
                            Cli.cli_world := fresh_world sample_disk |})))
  = console (world (snd (Cli.config_action sample_env o
                           {| Cli.config := config_value other;
                              Cli.cli_world := fresh_world sample_disk |}))).
Proof.
  apply (X6_config_output_hides_the_secrets sample_env
           {| Cli.config_server := None; Cli.config_print := true |}
           (fresh_world sample_disk) sample_config
           {| serverUrl := serverUrl sample_config;
              keyPair := Some fresh_keyPair;
              token := Some "another.session.token" |});
    reflexivity.
Defined.

End ConfigThms.

Section CliLogin.
Import JS Node.

Lemma set_token_value (c : Config) (t : string) :
  set (config_value c) "token" (Str t) = config_value (with_token c t).
Proof. reflexivity. Qed.

Lemma try_bind_throw {S A B : Type} (m : M S A) (k : A -> M S B)
  (h : exn -> M S B) (s s' : S) (e : exn) :
  m s = (Throw e, s') -> try_catch (bind m k) h s = h e s'.
Proof. intros H. unfold try_catch, bind. now rewrite H. Qed.

Lemma path_data_field (S : Type) `{HasWorld S} (data : value) (k : string)
  (s : S) :
  path (Obj [("data", data)]) ["data"; k] s = (lift (member data k)) s.
Proof.
  cbn [path member get lookup]. rewrite String.eqb_refl.
  unfold lift. now destruct (member data k).
Qed.

Lemma cli_authenticate_accepted (E : Env) (s : Cli.State) (c : Config)
  (kp : KeyPair) (action url starting succeeded failed sig : string)
  (report : value -> M Cli.State unit)
  (status : Z) (text : string) (ps : list (string * value)) (t : string) :
  (forall v, keeps_store (report v)) ->
  Cli.config s = config_value c ->
  keyPair c = Some kp ->
  0 <= now E < 10 ^ 21 ->
  sign_sha256_hex E (auth_text action (publicKey kp) (now E)) (privateKey kp)
    = Some sig ->
  server E (cli_request (config_value c) "POST" url
              (auth_body kp sig (now E)))
    = Response status text (Obj ps) ->
  accepted (Response status text (Obj ps)) = true ->
  lookup "token" ps = Some (Str t) ->
  write_fails (fs (world s)) = false ->
  dir_exists (Cli.CONFIG_DIR E) (fs (world s)) = true ->
  let s' := snd (Cli.authenticate E action url starting succeeded failed
                   report s) in
  Cli.config s' = config_value (with_token c t) /\
  fs (world s')
  = apply_ops (write_ops (Cli.CONFIG_FILE E) (config_text (with_token c t)))
              (fs (world s)).
Proof.
  intros Hrep Hc Hk HT Hs Hsrv Hacc Htok Hw Hd.
  unfold Cli.authenticate.
  rewrite (bind_run Cli.get_config _ s s (config_value c))
    by (unfold Cli.get_config; now rewrite Hc).
  rewrite truthy_keyPair, Hk. cbn [negb].
  erewrite bind_run by reflexivity.
  erewrite try_bind_run by (apply (path_publicKey _ c kp); exact Hk).
  rewrite auth_payload_text by exact HT.
  erewrite try_bind_run by reflexivity.
  erewrite try_bind_run by (apply (path_privateKey _ c kp); exact Hk).
  erewrite try_bind_run by (unfold Cli.signData; rewrite Hs; reflexivity).
  unfold Cli.api_post.
  erewrite try_bind_run; cycle 1.
  { apply cli_api_request_accepted with (status := status) (text := text);
      [ | exact Hacc ].
    cbn [Cli.config with_world Cli.State_world]. rewrite Hc. exact Hsrv. }
  erewrite try_bind_run
    by (rewrite (path_data_field Cli.State); unfold lift; cbn [member get];
        rewrite Htok; reflexivity).
  erewrite try_bind_run
    by (unfold Cli.set_config_field, bind, Cli.get_config, Cli.set_config;
        cbn [Cli.config with_world Cli.State_world];
        rewrite Hc, set_token_value; reflexivity).
  erewrite try_bind_run; cycle 1.
  { apply (cli_saveConfig_writes E _ (with_token c t)).
    - reflexivity.
    - destruct s as [cfg [d o k q]]. exact Hw.
    - destruct s as [cfg [d o k q]]. exact Hd. }
  cbv zeta.
  match goal with
  | |- context [try_catch ?m ?h ?st] =>
      assert (Hf : keeps_store (try_catch m h)) by stores;
      destruct (Hf st) as (H1 & H2 & _)
  end.
  rewrite H1, H2. destruct s as [cfg [d o k q]]. split; reflexivity.
Qed.

Lemma cli_authenticate_rejected (E : Env) (s : Cli.State) (c : Config)
  (kp : KeyPair) (action url starting succeeded failed sig : string)
  (report : value -> M Cli.State unit) (r : reply) :
  Cli.config s = config_value c ->
  keyPair c = Some kp ->
  0 <= now E < 10 ^ 21 ->
  sign_sha256_hex E (auth_text action (publicKey kp) (now E)) (privateKey kp)
    = Some sig ->
  server E (cli_request (config_value c) "POST" url
              (auth_body kp sig (now E))) = r ->
  accepted r = false ->
  Cli.authenticate E action url starting succeeded failed report s
  = (Return tt,
     with_world
       (add_console
          ([Spinner "start" starting] ++ rejection_lines r
           ++ [Spinner "fail" failed])
          (add_sent (cli_request (config_value c) "POST" url
                       (auth_body kp sig (now E))) (world s))) s).
Proof.
  intros Hc Hk HT Hs Hsrv Hacc.
  unfold Cli.authenticate.
  rewrite (bind_run Cli.get_config _ s s (config_value c))
    by (unfold Cli.get_config; now rewrite Hc).
  rewrite truthy_keyPair, Hk. cbn [negb].
  erewrite bind_run by reflexivity.
  erewrite try_bind_run by (apply (path_publicKey _ c kp); exact Hk).
  rewrite auth_payload_text by exact HT.
  erewrite try_bind_run by reflexivity.
  erewrite try_bind_run by (apply (path_privateKey _ c kp); exact Hk).
  erewrite try_bind_run by (unfold Cli.signData; rewrite Hs; reflexivity).
  unfold Cli.api_post.
  erewrite try_bind_throw; cycle 1.
  { apply cli_api_request_rejected with (r := r); [ | exact Hacc ].
    cbn [Cli.config with_world Cli.State_world]. rewrite Hc. exact Hsrv. }
  destruct s as [cfg [d o k q]]. cbn in Hc. subst cfg.
  unfold print, update_world, add_console, add_sent.
  cbn [world with_world Cli.State_world Cli.cli_world Cli.config
       fs ops console sent].
  now rewrite <- !app_assoc.
Qed.

End CliLogin.

Section CliLoginThms.
Import JS Node.

(** X7. A successful [register] or [login] stores the session token.
    When the server answers the signed request with a 2xx status and a
    string [token], the command sets [config.token], writes the config
    file, and has sent exactly that one request; a later process loads the
    config with the token, and every request made under the new config
    carries [Authorization: Bearer token].  This holds whatever else the
    response holds: the token is saved before the user record is read. *)
Theorem X7_login_stores_the_token (E : Env) (registering : bool)
  (s : Cli.State) (c : Config) (kp : KeyPair) (sig : string)
  (status : Z) (text : string) (ps : list (string * value)) (t : string) :
  Cli.config s = config_value c ->
  keyPair c = Some kp ->
  0 <= now E < 10 ^ 21 ->
  sign_sha256_hex E
    (auth_text (auth_name registering) (publicKey kp) (now E))
    (privateKey kp) = Some sig ->
  server E (cli_request (config_value c) "POST" (auth_url registering)
              (auth_body kp sig (now E)))
    = Response status text (Obj ps) ->
  200 <= status < 300 ->
  lookup "token" ps = Some (Str t) ->
  write_fails (fs (world s)) = false ->
  read_fails (fs (world s)) = false ->
  dir_exists (Cli.CONFIG_DIR E) (fs (world s)) = true ->
  let s' := snd (cli_auth_action E registering s) in
  Cli.config s' = config_value (with_token c t) /\
  file_content (Cli.CONFIG_FILE E) (fs (world s'))
    = Some (config_text (with_token c t)) /\
  sent (world s')
    = (sent (world s)
       ++ [cli_request (config_value c) "POST" (auth_url registering)
             (auth_body kp sig (now E))])%list /\
  Cli.config (snd (Cli.initConfig E {| Cli.config := Cli.default_config;
                                       Cli.cli_world := world s' |}))
    = config_value (with_token c t) /\
  (t <> "" ->
   forall method url body,
     req_authorization (cli_request (Cli.config s') method url body)
     = Some ("Bearer " ++ t)).
Proof.
  intros Hc Hk HT Hs Hsrv Hst Htok Hw Hr Hd s'.
  assert (Hacc : accepted (Response status text (Obj ps)) = true).
  { cbn [accepted]. apply andb_true_iff. split; [apply Z.leb_le | apply Z.ltb_lt]; lia. }
  assert (H : Cli.config s' = config_value (with_token c t) /\
              fs (world s')
              = apply_ops (write_ops (Cli.CONFIG_FILE E)
                                     (config_text (with_token c t)))
                          (fs (world s)) /\
              sent (world s')
              = (sent (world s)
                 ++ [cli_request (config_value c) "POST" (auth_url registering)
                       (auth_body kp sig (now E))])%list).
  { subst s'. unfold cli_auth_action, Cli.register_action, Cli.login_action.
    destruct registering; cbn [auth_name auth_url] in *.
    - split; [|split].
      + eapply cli_authenticate_accepted; eauto. intros v. stores.
      + eapply cli_authenticate_accepted; eauto. intros v. stores.
      + eapply cli_authenticate_sends; eauto. intros v. keeps.
    - split; [|split].
      + eapply cli_authenticate_accepted; eauto. intros v. stores.
      + eapply cli_authenticate_accepted; eauto. intros v. stores.
      + eapply cli_authenticate_sends; eauto. intros v. keeps. }
  destruct H as (H1 & H2 & H3).
  assert (Hf : file_content (Cli.CONFIG_FILE E) (fs (world s'))
               = Some (config_text (with_token c t))).
  { rewrite H2, apply_write_ops by exact Hd.
    apply file_content_store. exact Hd. }
  split; [exact H1|]. split; [exact Hf|]. split; [exact H3|]. split.
  - rewrite (cli_initConfig_reads E _ default_Config (with_token c t)).
    + reflexivity.
    + reflexivity.
    + cbn [Cli.cli_world]. rewrite H2. now rewrite read_fails_apply_ops.
    + exact Hf.
  - intros Hne method url body. rewrite H1.
    unfold cli_request. cbn [req_authorization].
    rewrite truthy_token. cbn [with_token token].
    apply String.eqb_neq in Hne. now rewrite Hne.
Qed.

Lemma X7_login_stores_the_token_witness :
  let s := process_of (logged_out sample_config) sample_disk in
  let s' := snd (Cli.login_action sample_env s) in
  let c' := sample_config in
  Cli.config s' = config_value c' /\
  file_content (Cli.CONFIG_FILE sample_env) (fs (world s'))
    = Some (config_text c') /\
  sent (world s')
    = (sent (world s)
       ++ [cli_request (config_value (logged_out sample_config)) "POST"
             "/api/auth/login"
             (auth_body sample_keyPair "3045022100c0ffee" 1700000000000)])%list /\
  Cli.config (snd (Cli.initConfig sample_env
                     {| Cli.config := Cli.default_config;
                        Cli.cli_world := world s' |}))
    = config_value c' /\
  ("eyJhbGciOiJIUzI1NiJ9" <> "" ->
   forall method url body,
     req_authorization (cli_request (Cli.config s') method url body)
     = Some ("Bearer " ++ "eyJhbGciOiJIUzI1NiJ9")).
Proof.
  apply (X7_login_stores_the_token sample_env false
           (process_of (logged_out sample_config) sample_disk)
           (logged_out sample_config) sample_keyPair "3045022100c0ffee"
           200 "OK"
           [("token", Str "eyJhbGciOiJIUzI1NiJ9");
            ("user", Obj [("publicKey", Str (publicKey sample_keyPair));
                          ("score", Num (Dec 1 0))])]
           "eyJhbGciOiJIUzI1NiJ9");
    first [reflexivity | split; [discriminate | reflexivity]].
Defined.


End CliLoginThms.

Section CliRequestThms.
Import JS Node.


(** X9. [profile] sends a request exactly when there is a session token
    and at least one of [--name] and [--email] is given and not empty; the
    request is then one PUT to /api/user/profile carrying the bearer token,
    whose body holds both fields, the missing one undefined. *)
Theorem X9_profile_sends_only_updates (E : Env) (o : Cli.profile_options)
  (s : Cli.State) (c : Config) :
  Cli.config s = config_value c ->
  sent (world (snd (Cli.profile_action E o s)))
  = (sent (world s) ++
     if (logged_in c
         && (truthy (opt (Cli.profile_name o))
             || truthy (opt (Cli.profile_email o))))%bool
     then [cli_request (config_value c) "PUT" "/api/user/profile"
             (Obj [("displayName", opt (Cli.profile_name o));
                   ("email", opt (Cli.profile_email o))])]
     else [])%list.
Proof.
  intros Hc. unfold Cli.profile_action.
  rewrite (bind_run Cli.get_config _ s s (config_value c))
    by (unfold Cli.get_config; now rewrite Hc).
  rewrite truthy_token. fold (logged_in c).
  destruct (logged_in c); cbn [negb andb].
  - cbn [get lookup String.eqb Ascii.eqb Bool.eqb].
    destruct (truthy (opt (Cli.profile_name o)));
      destruct (truthy (opt (Cli.profile_email o))); cbn [negb andb orb].
    all: try (erewrite bind_run by reflexivity;
              unfold Cli.api_put; rewrite sent_try_request;
              [ destruct s as [cfg [d q l r]]; cbn in Hc; subst cfg;
                reflexivity
              | intros x; keeps | intros e; keeps ]).
    destruct s as [cfg [d q l r]]. cbn. now rewrite app_nil_r.
  - destruct s as [cfg [d q l r]]. cbn. now rewrite app_nil_r.
Qed.

Lemma X9_profile_sends_only_updates_witness :
  let s := process_of sample_config sample_disk in
  let o := {| Cli.profile_name := Some "Alice";
              Cli.profile_email := None |} in
  sent (world (snd (Cli.profile_action sample_env o s)))
  = [ {| req_method := "PUT";
         req_baseURL := Str "https://api.otrust.eu";
         req_url := "/api/user/profile";
         req_authorization := Some "Bearer eyJhbGciOiJIUzI1NiJ9";
         req_body := Obj [("displayName", Str "Alice");
                          ("email", Undefined)] |} ].
Proof.
  apply (X9_profile_sends_only_updates sample_env
           {| Cli.profile_name := Some "Alice"; Cli.profile_email := None |}
           (process_of sample_config sample_disk) sample_config).
  reflexivity.
Defined.

End CliRequestThms.

Section ProofAdd.
Import JS Node.

Lemma path_data (S : Type) `{HasWorld S} (data : value) (ks : list string)
  (s : S) :
  path (Obj [("data", data)]) ("data" :: ks) s = path data ks s.
Proof. cbn [path member get lookup]. now rewrite String.eqb_refl. Qed.

Lemma claim_data_of_options_value (o : Cli.claim_options)
  (cl ev ty su pr ob : string) :
  Cli.claim_text o = Some cl ->
  Cli.claim_evidence o = Some ev -> ev <> "" ->
  Cli.claim_type o = Some ty ->
  Cli.claim_subject o = Some su ->
  Cli.claim_predicate o = Some pr ->
  Cli.claim_object o = Some ob ->
  Cli.claim_data_of_options o
  = claimData_value (claim_of_options cl ev ty su pr ob).
Proof.
  intros H1 H2 Hev H3 H4 H5 H6.
  unfold Cli.claim_data_of_options, claimData_value, claim_of_options,
    semantic_value, Cli.split_trim.
  rewrite H1, H2, H3, H4, H5, H6.
  apply String.eqb_neq in Hev.
  cbn [opt truthy cd_claim cd_evidence cd_type cd_parent cd_subject
       cd_predicate cd_object app].
  rewrite Hev. cbn [negb]. now rewrite map_map.
Qed.

(** X10. Without a prompt, [claim:create] posts the options as they
    are.  With the six options given and not empty and no [--interactive],
    nothing is validated (neither the length of the claim nor the type
    against the list of types): the command signs the canonical text of the
    claim with the evidence split on commas and trimmed and no parent, and
    posts one request to /api/claim whose body holds claim, evidence, type,
    semantic, timestamp, publicKey, [parent_id: null] and the signature, in
    that order. *)
Theorem X10_claim_create_posts_the_options (E : Env) (s : Cli.State)
  (c : Config) (kp : KeyPair) (t : string) (o : Cli.claim_options)
  (cl ev ty su pr ob sig : string) :
  Cli.config s = config_value c ->
  keyPair c = Some kp ->
  token c = Some t -> t <> "" ->
  Cli.claim_interactive o = false ->
  Cli.claim_text o = Some cl -> cl <> "" ->
  Cli.claim_evidence o = Some ev -> ev <> "" ->
  Cli.claim_type o = Some ty -> ty <> "" ->
  Cli.claim_subject o = Some su -> su <> "" ->
  Cli.claim_predicate o = Some pr -> pr <> "" ->
  Cli.claim_object o = Some ob -> ob <> "" ->
  0 <= now E < 10 ^ 21 ->
  sign_sha256_hex E
    (claim_text (claim_of_options cl ev ty su pr ob) (publicKey kp) (now E))
    (privateKey kp) = Some sig ->
  sent (world (snd (Cli.claim_create_action E o s)))
  = (sent (world s)
     ++ [cli_request (config_value c) "POST" "/api/claim"
           (Obj [("claim", Str cl);
                 ("evidence", Arr (map Str (map trim (split "," ev))));
                 ("type", Str ty);
                 ("semantic", Obj [("subject", Str su);
                                   ("predicate", Str pr);
                                   ("object", Str ob)]);
                 ("timestamp", Num (of_Z (now E)));
                 ("publicKey", Str (publicKey kp));
                 ("parent_id", Null);
                 ("signature", Str sig)])])%list.
Proof.
  intros Hc Hk Ht Hne Hi H1 N1 H2 N2 H3 N3 H4 N4 H5 N5 H6 N6 HT Hs.
  pose proof (claim_data_of_options_value o cl ev ty su pr ob
                H1 H2 N2 H3 H4 H5 H6) as Hdata.
  unfold Cli.claim_create_action.
  rewrite (bind_run Cli.get_config _ s s (config_value c))
    by (unfold Cli.get_config; now rewrite Hc).
  rewrite truthy_keyPair, truthy_token, Hk, Ht.
  apply String.eqb_neq in Hne. rewrite Hne. cbn [negb orb].
  assert (Hnp : Cli.claim_needs_prompt o (Cli.claim_data_of_options o) = false).
  { rewrite Hdata. unfold Cli.claim_needs_prompt. rewrite Hi.
    apply String.eqb_neq in N1, N2, N3, N4, N5, N6.
    cbn. now rewrite N1, N3, N4, N5, N6. }
  erewrite bind_run by (unfold Cli.claim_data; rewrite Hnp; reflexivity).
  erewrite bind_run by (apply (path_publicKey _ c kp); exact Hk).
  rewrite Hdata.
  change (claim_of_options cl ev ty su pr ob)
    with (without_parent (claim_of_options cl ev ty su pr ob)) at 1.
  rewrite cli_claim_payload_text by exact HT.
  change (without_parent (claim_of_options cl ev ty su pr ob))
    with (claim_of_options cl ev ty su pr ob).
  erewrite bind_run by reflexivity.
  erewrite bind_run by (apply (path_privateKey _ c kp); exact Hk).
  erewrite bind_run by (unfold Cli.signData; rewrite Hs; reflexivity).
  erewrite bind_run by reflexivity.
  unfold Cli.api_post. rewrite sent_try_request.
  - destruct s as [cfg [d q l r]]. cbn in Hc. subst cfg. reflexivity.
  - intros x. keeps.
  - intros e. keeps.
Qed.

Lemma X10_claim_create_posts_the_options_witness :
  let s := process_of sample_config sample_disk in
  let o := {| Cli.claim_interactive := false;
              Cli.claim_text := Some "ok";
              Cli.claim_evidence := Some " https://a.example , https://b.example";
              Cli.claim_type := Some "rumour";
              Cli.claim_subject := Some "Stockholm";
              Cli.claim_predicate := Some "is capital of";
              Cli.claim_object := Some "Sweden" |} in
  sent (world (snd (Cli.claim_create_action sample_env o s)))
  = [cli_request (config_value sample_config) "POST" "/api/claim"
       (Obj [("claim", Str "ok");
             ("evidence", Arr [Str "https://a.example";
                               Str "https://b.example"]);
             ("type", Str "rumour");
             ("semantic", Obj [("subject", Str "Stockholm");
                               ("predicate", Str "is capital of");
                               ("object", Str "Sweden")]);
             ("timestamp", Num (of_Z 1700000000000));
             ("publicKey", Str (publicKey sample_keyPair));
             ("parent_id", Null);
             ("signature", Str "3045022100c0ffee")])].
Proof.
  apply (X10_claim_create_posts_the_options sample_env
           (process_of sample_config sample_disk) sample_config
           sample_keyPair "eyJhbGciOiJIUzI1NiJ9"
           {| Cli.claim_interactive := false;
              Cli.claim_text := Some "ok";
              Cli.claim_evidence := Some " https://a.example , https://b.example";
              Cli.claim_type := Some "rumour";
              Cli.claim_subject := Some "Stockholm";
              Cli.claim_predicate := Some "is capital of";
              Cli.claim_object := Some "Sweden" |}
           "ok" " https://a.example , https://b.example" "rumour"
           "Stockholm" "is capital of" "Sweden" "3045022100c0ffee");
    first [reflexivity | discriminate | split; [discriminate | reflexivity]].
Defined.

(** X11. [proof:add] reports a failure after the proof went through
    when the answer lacks the credibility record.  The request and the
    printing of the answer share one [try] block: for a 2xx answer without
    [credibility] the command prints "Proof added successfully", then the
    claim id and the blockchain status of the answer, then stops on reading
    [credibility.score] and prints "Failed to add proof"; the proof has
    been posted once and is not sent again. *)
Theorem X11_proof_add_reports_failure_after_success (E : Env)
  (s : Cli.State) (c : Config) (kp : KeyPair) (t : string)
  (o : Cli.proof_options) (id act payload sig : string)
  (status : Z) (text : string) (ps : list (string * value)) :
  Cli.config s = config_value c ->
  keyPair c = Some kp ->
  token c = Some t -> t <> "" ->
  Cli.proof_interactive o = false ->
  Cli.proof_claimId o = Some id -> id <> "" ->
  Cli.proof_action o = Some act -> act <> "" ->
  Cli.proof_payload
    (Cli.stamp_proof (Cli.proof_data_of_options o) (Str (publicKey kp))
                     (now E)) = Some payload ->
  sign_sha256_hex E payload (privateKey kp) = Some sig ->
  server E
    (cli_request (config_value c) "POST" "/api/proof"
       (set (Cli.stamp_proof (Cli.proof_data_of_options o)
                             (Str (publicKey kp)) (now E))
            "signature" (Str sig)))
    = Response status text (Obj ps) ->
  200 <= status < 300 ->
  lookup "credibility" ps = None ->
  Cli.proof_add_action E o s
  = (Return tt,
     with_world
       (add_console
          [Spinner "start" "Adding proof...";
           Spinner "succeed" "Proof added successfully";
           Console "log" [Str "Claim ID:"; get (Obj ps) "claimId"];
           Console "log" [Str "Blockchain Status:";
                          get (Obj ps) "blockchainStatus"];
           Console "log" [Str "Credibility:"];
           Spinner "fail" "Failed to add proof"]
          (add_sent
             (cli_request (config_value c) "POST" "/api/proof"
                (set (Cli.stamp_proof (Cli.proof_data_of_options o)
                                      (Str (publicKey kp)) (now E))
                     "signature" (Str sig)))
             (world s))) s).
Proof.
  intros Hc Hk Ht Hne Hi Hid Hidne Hact Hactne Hp Hs Hsrv Hst Hcred.
  assert (Hacc : accepted (Response status text (Obj ps)) = true).
  { cbn [accepted]. apply andb_true_iff.
    split; [apply Z.leb_le | apply Z.ltb_lt]; lia. }
  unfold Cli.proof_add_action.
  rewrite (bind_run Cli.get_config _ s s (config_value c))
    by (unfold Cli.get_config; now rewrite Hc).
  rewrite truthy_keyPair, truthy_token, Hk, Ht.
  apply String.eqb_neq in Hne. rewrite Hne. cbn [negb orb].
  assert (Hnp : Cli.proof_needs_prompt o (Cli.proof_data_of_options o) = false).
  { unfold Cli.proof_needs_prompt, Cli.proof_data_of_options.
    rewrite Hi, Hid, Hact. cbn.
    apply String.eqb_neq in Hidne, Hactne. now rewrite Hidne, Hactne. }
  erewrite bind_run by (unfold Cli.proof_data; rewrite Hnp; reflexivity).
  erewrite bind_run by (apply (path_publicKey _ c kp); exact Hk).
  rewrite Hp.
  erewrite bind_run by reflexivity.
  erewrite bind_run by (apply (path_privateKey _ c kp); exact Hk).
  erewrite bind_run by (unfold Cli.signData; rewrite Hs; reflexivity).
  erewrite bind_run by reflexivity.
  unfold Cli.api_post.
  erewrite try_bind_run; cycle 1.
  { apply cli_api_request_accepted with (status := status) (text := text);
      [ | exact Hacc ].
    cbn [Cli.config with_world Cli.State_world]. rewrite Hc. exact Hsrv. }
  erewrite try_bind_run by reflexivity.
  erewrite try_bind_run by (rewrite (path_data_field Cli.State); reflexivity).
  erewrite try_bind_run by reflexivity.
  erewrite try_bind_run by (rewrite (path_data_field Cli.State); reflexivity).
  erewrite try_bind_run by reflexivity.
  erewrite try_bind_run by reflexivity.
  erewrite try_bind_throw; cycle 1.
  { rewrite (path_data Cli.State). cbn [path member get]. rewrite Hcred.
    reflexivity. }
  destruct s as [cfg [d q l r]]. cbn in Hc. subst cfg.
  unfold print, update_world, add_console, add_sent.
  cbn [world with_world Cli.State_world Cli.cli_world Cli.config
       fs ops console sent member get].
  now rewrite <- !app_assoc.
Qed.

Lemma X11_proof_add_reports_failure_after_success_witness :
  let s := process_of sample_config sample_disk in
  let o := {| Cli.proof_interactive := false;
              Cli.proof_claimId := Some "abcdef1234567890";
              Cli.proof_action := Some "confirmed";
              Cli.proof_reason := None;
              Cli.proof_confidence := None |} in
  let body := Obj [("claimId", Str "abcdef1234567890");
                   ("action", Str "confirmed");
                   ("reason", Undefined);
                   ("confidence", Num (Dec 1 0));
                   ("timestamp", Num (of_Z 1700000000000));
                   ("publicKey", Str (publicKey sample_keyPair));
                   ("signature", Str "3045022100c0ffee")] in
  Cli.proof_add_action sample_env o s
  = (Return tt,
     {| Cli.config := config_value sample_config;
        Cli.cli_world :=
          {| fs := sample_disk;
             ops := [];
             console :=
               [Spinner "start" "Adding proof...";
                Spinner "succeed" "Proof added successfully";
                Console "log" [Str "Claim ID:"; Undefined];
                Console "log" [Str "Blockchain Status:"; Undefined];
                Console "log" [Str "Credibility:"];
                Spinner "fail" "Failed to add proof"];
             sent := [cli_request (config_value sample_config) "POST"
                        "/api/proof" body] |} |}).
Proof.
  apply (X11_proof_add_reports_failure_after_success sample_env
           (process_of sample_config sample_disk) sample_config
           sample_keyPair "eyJhbGciOiJIUzI1NiJ9"
           {| Cli.proof_interactive := false;
              Cli.proof_claimId := Some "abcdef1234567890";
              Cli.proof_action := Some "confirmed";
              Cli.proof_reason := None;
              Cli.proof_confidence := None |}
           "abcdef1234567890" "confirmed"
           (proof_text {| pd_claimId := "abcdef1234567890";
                          pd_action := "confirmed";
                          pd_reason := None;
                          pd_confidence := (1, 0) |}
                       (publicKey sample_keyPair) 1700000000000)
           "3045022100c0ffee" 200 "OK"
           [("token", Str "eyJhbGciOiJIUzI1NiJ9");
            ("user", Obj [("publicKey", Str (publicKey sample_keyPair));
                          ("score", Num (Dec 1 0))])]);
    first [reflexivity | discriminate | split; [discriminate | reflexivity]].
Defined.

End ProofAdd.

(** ** What the prompts let through *)

Section Prompts.
Import JS Node.

Lemma ask_input_string (d : option string) (v : value -> bool)
  (lines : list string) (answer : value) (rest : list string) :
  ask_input (opt d) (fun x => x) v lines = Some (answer, rest) ->
  exists t, answer = Str t /\ v (Str t) = true.
Proof.
  induction lines as [|l lines IH]; cbn [ask_input]; [discriminate|].
  set (input := if String.eqb l "" then _ else _).
  assert (Hi : exists t, input = Str t).
  { subst input. destruct (String.eqb l ""); [|eauto].
    destruct d; cbn; eauto. }
  destruct Hi as [t Ht]. rewrite Ht.
  destruct (v (Str t)) eqn:Hv; [|exact IH].
  intros [= <- <-]. eauto.
Qed.

Lemma ask_choice_in (d : value) (choices lines : list string)
  (answer : value) (rest : list string) :
  ask_choice d choices lines = Some (answer, rest) ->
  exists t, answer = Str t /\ In t choices.
Proof.
  induction lines as [|l lines IH]; cbn [ask_choice]; [discriminate|].
  set (picked := if String.eqb l "" then _ else _).
  destruct (existsb (String.eqb picked) choices) eqn:Hp; [|exact IH].
  intros [= <- <-]. exists picked. split; [reflexivity|].
  apply existsb_exists in Hp as (x & Hx & He).
  apply String.eqb_eq in He. now subst x.
Qed.

Lemma prompt_input (name : string) (d : value) (f : value -> value)
  (v : value -> bool) (qs : list question) (lines : list string)
  (answers : list (string * value)) :
  prompt (Input name d f v :: qs) lines = Some answers ->
  exists a rest tl,
    ask_input d f v lines = Some (a, rest) /\
    prompt qs rest = Some tl /\ answers = (name, a) :: tl.
Proof.
  cbn [prompt]. destruct (ask_input d f v lines) as [[a rest]|] eqn:Ha;
    cbn [option_map fst snd]; [|discriminate].
  destruct (prompt qs rest) as [tl|] eqn:Hq; [|discriminate].
  intros [= <-]. exists a, rest, tl. repeat split. exact Hq.
Qed.

Lemma prompt_choice (name : string) (d : value) (cs : list string)
  (qs : list question) (lines : list string)
  (answers : list (string * value)) :
  prompt (Choice name d cs :: qs) lines = Some answers ->
  exists a rest tl,
    ask_choice d cs lines = Some (a, rest) /\
    prompt qs rest = Some tl /\ answers = (name, a) :: tl.
Proof.
  cbn [prompt]. destruct (ask_choice d cs lines) as [[a rest]|] eqn:Ha;
    cbn [option_map fst snd]; [|discriminate].
  destruct (prompt qs rest) as [tl|] eqn:Hq; [|discriminate].
  intros [= <-]. exists a, rest, tl. repeat split. exact Hq.
Qed.

Lemma non_empty_string (t : string) : Cli.non_empty (Str t) = true -> t <> "".
Proof. intros H ->. discriminate. Qed.

(** X12. Claims typed at the prompts are validated.  Whenever
    [claim:create] prompts (with [--interactive], or when one of the six
    options is missing or empty) and the prompt comes to an end, the claim
    data it returns has a claim text of 3 to 5000 characters, a type taken
    from the list of claim types, a non-empty subject, predicate and object,
    an evidence list with at least one entry, and no parent. *)
Theorem X12_prompted_claims_are_validated (E : Env) (o : Cli.claim_options)
  (s s' : Cli.State) (v : value) :
  Cli.claim_needs_prompt o (Cli.claim_data_of_options o) = true ->
  Cli.claim_data E o s = (Return v, s') ->
  exists k : ClaimData, v = claimData_value k /\ valid_claim k.
Proof.
  intros Hn. unfold Cli.claim_data. rewrite Hn.
  destruct (prompt _ _) as [answers|] eqn:Hp; [|discriminate].
  intros [= <- _].
  unfold Cli.claim_questions in Hp.
  apply prompt_input in Hp as (a1 & r1 & t1 & A1 & Hp & ->).
  apply prompt_input in Hp as (a2 & r2 & t2 & A2 & Hp & ->).
  apply prompt_choice in Hp as (a3 & r3 & t3 & A3 & Hp & ->).
  apply prompt_input in Hp as (a4 & r4 & t4 & A4 & Hp & ->).
  apply prompt_input in Hp as (a5 & r5 & t5 & A5 & Hp & ->).
  apply prompt_input in Hp as (a6 & r6 & t6 & A6 & Hp & ->).
  cbn [prompt] in Hp. injection Hp as <-.
  unfold Cli.claim_data_of_options in A1, A4, A5, A6.
  cbn [get lookup String.eqb Ascii.eqb Bool.eqb] in A1, A4, A5, A6.
  apply ask_input_string in A1 as (cl & -> & V1).
  apply ask_input_string in A4 as (su & -> & V4).
  apply ask_input_string in A5 as (pr & -> & V5).
  apply ask_input_string in A6 as (ob & -> & V6).
  apply ask_choice_in in A3 as (ty & -> & V3).
  assert (H2 : exists x, a2 = Cli.split_trim x).
  { destruct (truthy _) in A2.
    - destruct r1 as [|l r1]; [discriminate|].
      rewrite ask_evidence in A2. injection A2 as <- _. eauto.
    - destruct r1 as [|l r1]; [discriminate|].
      rewrite ask_evidence in A2. injection A2 as <- _. eauto. }
  destruct H2 as [x ->].
  exists {| cd_claim := cl; cd_evidence := map trim (split "," x);
            cd_type := ty; cd_parent := None;
            cd_subject := su; cd_predicate := pr; cd_object := ob |}.
  split.
  - unfold claimData_value, semantic_value, Cli.split_trim.
    cbn [get lookup String.eqb Ascii.eqb Bool.eqb cd_claim cd_evidence cd_type
         cd_parent cd_subject cd_predicate cd_object app].
    now rewrite map_map.
  - unfold valid_claim.
    cbn [cd_claim cd_evidence cd_type cd_parent cd_subject cd_predicate
         cd_object].
    repeat split.
    + cbn [Cli.length_of] in V1. apply andb_true_iff in V1 as [V1 _].
      apply Z.leb_le in V1. lia.
    + cbn [Cli.length_of] in V1. apply andb_true_iff in V1 as [_ V1].
      apply Z.leb_le in V1. lia.
    + intros Hnil. apply map_eq_nil in Hnil.
      exact (split_not_nil "," x Hnil).
    + exact V3.
    + now apply non_empty_string.
    + now apply non_empty_string.
    + now apply non_empty_string.
Qed.

Lemma X12_prompted_claims_are_validated_witness :
  let E := typing sample_env
             ["no"; "Stockholm is the capital of Sweden";
              "https://a.example, https://b.example";
              "rumour"; "factual"; ""; "Stockholm"; "is capital of";
              "Sweden"] in
  let o := {| Cli.claim_interactive := true; Cli.claim_text := None;
              Cli.claim_evidence := None; Cli.claim_type := None;
              Cli.claim_subject := None; Cli.claim_predicate := None;
              Cli.claim_object := None |} in
  exists k : ClaimData,
    Obj [("claim", Str "Stockholm is the capital of Sweden");
         ("evidence", Arr [Str "https://a.example"; Str "https://b.example"]);
         ("type", Str "factual");
         ("semantic", Obj [("subject", Str "Stockholm");
                           ("predicate", Str "is capital of");
                           ("object", Str "Sweden")])]
    = claimData_value k /\ valid_claim k.
Proof.
  apply (X12_prompted_claims_are_validated
           (typing sample_env
              ["no"; "Stockholm is the capital of Sweden";
               "https://a.example, https://b.example";
               "rumour"; "factual"; ""; "Stockholm"; "is capital of";
               "Sweden"])
           {| Cli.claim_interactive := true; Cli.claim_text := None;
              Cli.claim_evidence := None; Cli.claim_type := None;
              Cli.claim_subject := None; Cli.claim_predicate := None;
              Cli.claim_object := None |}
           (process_of sample_config sample_disk)
           (process_of sample_config sample_disk));
    reflexivity.
Defined.

End Prompts.

(** ** Loading a config file that holds other keys than the three *)

Section Merge.
Import JS Node.

Lemma lookup_assign (k k' : string) (v : value) (l : list (string * value)) :
  lookup k (assign k' v l)
  = if String.eqb k k' then Some v else lookup k l.
Proof.
  induction l as [|[k1 v1] l IH]; cbn [assign lookup].
  - reflexivity.
  - destruct (String.eqb k' k1) eqn:H1; cbn [lookup].
    + apply String.eqb_eq in H1. subst k1.
      now destruct (String.eqb k k').
    + rewrite IH. destruct (String.eqb k k') eqn:H2; [|reflexivity].
      apply String.eqb_eq in H2. subst k'. now rewrite H1.
Qed.

Lemma assign_keys (k k' : string) (v : value) (l : list (string * value)) :
  In k (map fst (assign k' v l)) <-> k = k' \/ In k (map fst l).
Proof.
  induction l as [|[k1 v1] l IH]; cbn [assign map fst In].
  - intuition.
  - destruct (String.eqb k' k1) eqn:H1; cbn [map fst In].
    + apply String.eqb_eq in H1. subst k1. intuition.
    + rewrite IH. intuition.
Qed.

Lemma assign_NoDup (k : string) (v : value) (l : list (string * value)) :
  NoDup (map fst l) -> NoDup (map fst (assign k v l)).
Proof.
  induction l as [|[k1 v1] l IH]; cbn [assign map fst]; intros H.
  - constructor; [intros [] | constructor].
  - inversion H as [|x xs Hx Hl]; subst.
    destruct (String.eqb k k1) eqn:H1; cbn [map fst].
    + apply String.eqb_eq in H1. subst k1. now constructor.
    + constructor; [|auto].
      rewrite assign_keys. intros [->|Hin]; [|contradiction].
      now rewrite String.eqb_refl in H1.
Qed.

Lemma create_properties_NoDup (qs : list (string * value)) :
  NoDup (map fst (create_properties qs)).
Proof.
  unfold create_properties.
  assert (H : forall acc, NoDup (map fst acc) ->
                NoDup (map fst (fold_left
                   (fun acc kv => assign (fst kv) (snd kv) acc) qs acc))).
  { induction qs as [|[k v] qs IH]; intros acc Hacc; cbn [fold_left].
    - exact Hacc.
    - apply IH. now apply assign_NoDup. }
  apply H. constructor.
Qed.

Lemma lookup_not_in (k : string) (l : list (string * value)) :
  ~ In k (map fst l) -> lookup k l = None.
Proof.
  induction l as [|[k1 v1] l IH]; cbn [lookup map fst In]; [reflexivity|].
  intros H. destruct (String.eqb k k1) eqn:H1.
  - apply String.eqb_eq in H1. subst. tauto.
  - apply IH. tauto.
Qed.

Lemma lookup_merge (k : string) (ps acc : list (string * value)) :
  NoDup (map fst ps) ->
  lookup k (fold_left (fun acc kv => assign (fst kv) (snd kv) acc) ps acc)
  = match lookup k ps with
    | Some v => Some v
    | None => lookup k acc
    end.
Proof.
  revert acc. induction ps as [|[k1 v1] ps IH]; intros acc H;
    cbn [fold_left lookup fst snd]; [reflexivity|].
  inversion H as [|x xs Hx Hl]; subst.
  rewrite IH by exact Hl. rewrite lookup_assign.
  destruct (String.eqb k k1) eqn:H1.
  - apply String.eqb_eq in H1. subst k1.
    now rewrite (lookup_not_in k ps Hx).
  - reflexivity.
Qed.

Lemma parse_value_object (f : nat) (s r : string)
  (ps : list (string * value)) :
  parse_value f s = Some (Obj ps, r) -> NoDup (map fst ps).
Proof.
  destruct f as [|f]; [discriminate|]. cbn [parse_value].
  destruct (skip_ws s) as [|c r0]; [discriminate|].
  destruct (Ascii.eqb c "{").
  - destruct (parse_members f r0) as [[qs r1]|].
    + assert (Hq : NoDup (map fst (create_properties qs)))
        by apply create_properties_NoDup.
      repeat (match goal with
              | |- context [match ?x with _ => _ end] => destruct x
              end; try discriminate);
        intros [= <- _]; first [exact Hq | constructor].
    + repeat (match goal with
              | |- context [match ?x with _ => _ end] => destruct x
              end; try discriminate);
        intros [= <- _]; constructor.
  - repeat (match goal with
            | |- context [if ?b then _ else _] => destruct b
            | |- context [match ?x with _ => _ end] => destruct x
            end; try discriminate);
      unfold option_map;
      repeat (match goal with
            | |- context [match ?x with _ => _ end] => destruct x
            end; try discriminate).
Qed.

Lemma parse_object (text : string) (ps : list (string * value)) :
  parse text = Some (Obj ps) -> NoDup (map fst ps).
Proof.
  unfold parse.
  destruct (parse_value _ text) as [[v rest]|] eqn:Hp; [|discriminate].
  destruct (String.eqb (skip_ws rest) ""); [|discriminate].
  intros [= ->]. eapply parse_value_object, Hp.
Qed.

Lemma get_spread2_config (c0 : Config) (ps : list (string * value))
  (k : string) :
  NoDup (map fst ps) ->
  get (spread2 (config_value c0) (Obj ps)) k
  = match lookup k ps with
    | Some v => v
    | None => get (config_value c0) k
    end.
Proof.
  intros H. unfold spread2. cbn [own_properties get].
  rewrite lookup_merge by exact H.
  destruct (lookup k ps); reflexivity.
Qed.

End Merge.

Section MergeThms.
Import JS Node.

Lemma cli_initConfig_merges (E : Env) (s : Cli.State) (text : string)
  (v : value) :
  read_fails (fs (world s)) = false ->
  file_content (Cli.CONFIG_FILE E) (fs (world s)) = Some text ->
  parse text = Some v ->
  Cli.initConfig E s
  = (Return tt,
     {| Cli.config := spread2 (Cli.config s) v;
        Cli.cli_world := Cli.cli_world s |}).
Proof.
  intros Hr Hf Hp.
  pose proof (file_content_dir_exists _ _ _ Hf) as Hd.
  unfold Cli.initConfig, bind, existsSync_dir, existsSync.
  cbn [dirname Cli.CONFIG_FILE] in Hd. rewrite Hd. cbn [negb ret].
  unfold file_exists. rewrite Hf.
  unfold try_catch, bind, readFileSync. rewrite Hr, Hf.
  unfold JSON_parse. rewrite Hp. reflexivity.
Qed.

Lemma member_spread2 (x y : value) (k : string) :
  member (spread2 x y) k = Return (get (spread2 x y) k).
Proof. reflexivity. Qed.

Lemma api_loadConfig_merges (a : OtrustCLI.State) (text : string)
  (v : value) :
  read_fails (fs (world a)) = false ->
  file_content (OtrustCLI.configFile a) (fs (world a)) = Some text ->
  parse text = Some v ->
  let c' := spread2 (OtrustCLI.config a) v in
  OtrustCLI._loadConfig a
  = (Return tt,
     {| OtrustCLI.server := get c' "server";
        OtrustCLI.configDir := OtrustCLI.configDir a;
        OtrustCLI.configFile := OtrustCLI.configFile a;
        OtrustCLI.logLevel := OtrustCLI.logLevel a;
        OtrustCLI.config := c';
        OtrustCLI.baseURL := get c' "server";
        OtrustCLI.authorization :=
          if truthy (get c' "token")
          then Some ("Bearer " ++ to_string (get c' "token"))
          else OtrustCLI.authorization a;
        OtrustCLI.api_world :=
          add_console (log_lines (OtrustCLI.logLevel a) "debug"
                                 "Konfiguration laddad") (world a) |}).
Proof.
  intros Hr Hf Hp c'.
  unfold OtrustCLI._loadConfig, try_catch, bind, OtrustCLI.this, existsSync,
    file_exists, readFileSync, JSON_parse.
  rewrite Hf. cbv beta iota. rewrite Hr, Hf. cbv beta iota.
  rewrite Hp. unfold ret at 1. cbv beta iota.
  unfold OtrustCLI.set_config, OtrustCLI.get_config, lift.
  cbv beta iota. cbn [OtrustCLI.config].
  fold c'. unfold c' at 1. rewrite member_spread2. fold c'.
  unfold OtrustCLI.set_server. cbv beta iota.
  destruct (truthy (get c' "token"));
    unfold OtrustCLI.set_authorization, ret; cbv beta iota;
    rewrite log_spec; destruct a as [? ? ? ? ? ? ? []]; reflexivity.
Qed.

(** X13. Loading merges the file over the config in memory, key by
    key.  When the config file parses to an object, then after [initConfig]
    (command line client) and after [_loadConfig] (library) every key the
    file holds has the value of the file, keys the config knows nothing
    about included, and every key the file lacks keeps the value it had in
    memory: a file without [server] leaves the default server in place. *)
Theorem X13_loading_merges_the_file_over_the_config (E : Env)
  (s : Cli.State) (a : OtrustCLI.State) (c0 : Config) (text : string)
  (ps : list (string * value)) :
  Cli.config s = config_value c0 ->
  OtrustCLI.config a = config_value c0 ->
  read_fails (fs (world s)) = false ->
  read_fails (fs (world a)) = false ->
  file_content (Cli.CONFIG_FILE E) (fs (world s)) = Some text ->
  file_content (OtrustCLI.configFile a) (fs (world a)) = Some text ->
  parse text = Some (Obj ps) ->
  forall k : string,
    let merged := match lookup k ps with
                  | Some v => v
                  | None => get (config_value c0) k
                  end in
    get (Cli.config (snd (Cli.initConfig E s))) k = merged /\
    get (OtrustCLI.config (snd (OtrustCLI._loadConfig a))) k = merged.
Proof.
  intros Hc Ha Hr Hr' Hf Hf' Hp k merged. subst merged.
  pose proof (parse_object text ps Hp) as Hn.
  split.
  - rewrite (cli_initConfig_merges E s text (Obj ps) Hr Hf Hp).
    cbn [snd Cli.config]. rewrite Hc. now apply get_spread2_config.
  - rewrite (api_loadConfig_merges a text (Obj ps) Hr' Hf' Hp).
    cbn [snd OtrustCLI.config]. rewrite Ha. now apply get_spread2_config.
Qed.

Lemma X13_loading_merges_the_file_over_the_config_witness :
  let s := {| Cli.config := Cli.default_config;
              Cli.cli_world := fresh_world token_only_disk |} in
  let a := instance_of default_Config token_only_disk in
  (get (Cli.config (snd (Cli.initConfig sample_env s))) "token" = Str "abc" /\
   get (OtrustCLI.config (snd (OtrustCLI._loadConfig a))) "token"
   = Str "abc") /\
  (get (Cli.config (snd (Cli.initConfig sample_env s))) "server"
   = Str "http://localhost:3000" /\
   get (OtrustCLI.config (snd (OtrustCLI._loadConfig a))) "server"
   = Str "http://localhost:3000").
Proof.
  split.
  - apply (X13_loading_merges_the_file_over_the_config sample_env
             {| Cli.config := Cli.default_config;
                Cli.cli_world := fresh_world token_only_disk |}
             (instance_of default_Config token_only_disk)
             default_Config
             ("{" ++ quote "token" ++ ":" ++ quote "abc" ++ "}")
             [("token", Str "abc")]
             eq_refl eq_refl eq_refl eq_refl eq_refl eq_refl eq_refl
             "token").
  - apply (X13_loading_merges_the_file_over_the_config sample_env
             {| Cli.config := Cli.default_config;
                Cli.cli_world := fresh_world token_only_disk |}
             (instance_of default_Config token_only_disk)
             default_Config
             ("{" ++ quote "token" ++ ":" ++ quote "abc" ++ "}")
             [("token", Str "abc")]
             eq_refl eq_refl eq_refl eq_refl eq_refl eq_refl eq_refl
             "server").
Defined.

End MergeThms.

(** ** The library: log levels, the shared config file, setConfig *)

Section ApiRequests.
Import JS Node.

Lemma api_api_request_accepted (E : Env) (method url : string) (body : value)
  (a : OtrustCLI.State) (status : Z) (text : string) (data : value) :
  server E (api_request_of a method url body) = Response status text data ->
  accepted (Response status text data) = true ->
  OtrustCLI.api_request E method url body a
  = (Return (Obj [("data", data)]),
     with_world (add_sent (api_request_of a method url body) (world a)) a).
Proof.
  intros Hr Ha. unfold OtrustCLI.api_request, bind, OtrustCLI.this, send.
  fold (api_request_of a method url body).
  rewrite Hr. cbn [accepted] in Ha. rewrite Ha. reflexivity.
Qed.

Lemma api_api_request_rejected (E : Env) (method url : string) (body : value)
  (a : OtrustCLI.State) (r : reply) :
  server E (api_request_of a method url body) = r ->
  accepted r = false ->
  OtrustCLI.api_request E method url body a
  = (Throw (rejection r),
     with_world
       (add_console
          (log_lines (OtrustCLI.logLevel a) "error"
                     ("API Error: " ++ message (rejection r)))
          (add_sent (api_request_of a method url body) (world a))) a).
Proof.
  intros Hr Ha. unfold OtrustCLI.api_request, bind at 1, OtrustCLI.this.
  unfold bind at 1, send.
  fold (api_request_of a method url body).
  rewrite Hr.
  destruct r as [status text data|]; cbn [accepted] in Ha.
  - rewrite Ha. cbv zeta. unfold bind. rewrite log_spec.
    destruct a as [? ? ? ? ? ? ? []]. reflexivity.
  - unfold bind. rewrite log_spec.
    destruct a as [? ? ? ? ? ? ? []]. reflexivity.
Qed.

Lemma api_loadConfig_logLevel (a : OtrustCLI.State) :
  OtrustCLI.logLevel (snd (OtrustCLI._loadConfig a)) = OtrustCLI.logLevel a /\
  OtrustCLI.configDir (snd (OtrustCLI._loadConfig a)) = OtrustCLI.configDir a /\
  OtrustCLI.configFile (snd (OtrustCLI._loadConfig a))
  = OtrustCLI.configFile a.
Proof.
  destruct (file_content (OtrustCLI.configFile a) (fs (world a)))
    as [text|] eqn:Hf.
  - assert (Hx : file_exists (OtrustCLI.configFile a) (fs (world a)) = true)
      by (unfold file_exists; now rewrite Hf).
    destruct (read_fails (fs (world a))) eqn:Hr.
    + rewrite (api_loadConfig_load_fails a (SystemError "EACCES") Hx)
        by (unfold load_error; now rewrite Hr).
      destruct a; cbn; auto.
    + destruct (parse text) as [v|] eqn:Hp.
      * rewrite (api_loadConfig_merges a text v Hr Hf Hp).
        destruct a; cbn; auto.
      * rewrite (api_loadConfig_load_fails a
                   (SyntaxError "Unexpected token in JSON") Hx)
          by (unfold load_error; now rewrite Hr, Hf, Hp).
        destruct a; cbn; auto.
  - rewrite (api_loadConfig_no_file a Hf). auto.
Qed.

Lemma levels_known (l : string) :
  In l OtrustCLI.log_levels <-> OtrustCLI.levels l <> None.
Proof.
  unfold OtrustCLI.log_levels, OtrustCLI.levels. cbn [In].
  destruct (String.eqb l "debug") eqn:H0;
    [apply String.eqb_eq in H0; subst; split; [discriminate | auto] |].
  destruct (String.eqb l "info") eqn:H1;
    [apply String.eqb_eq in H1; subst; split; [discriminate | auto] |].
  destruct (String.eqb l "warn") eqn:H2;
    [apply String.eqb_eq in H2; subst; split; [discriminate | auto] |].
  destruct (String.eqb l "error") eqn:H3;
    [apply String.eqb_eq in H3; subst; split; [discriminate | auto 6] |].
  apply String.eqb_neq in H0, H1, H2, H3.
  split; [|congruence].
  intros [H|[H|[H|[H|[]]]]]; congruence.
Qed.

Lemma existsb_log_levels (l : string) :
  existsb (String.eqb l) OtrustCLI.log_levels = true
  <-> In l OtrustCLI.log_levels.
Proof.
  rewrite existsb_exists. split.
  - intros (x & Hx & He). apply String.eqb_eq in He. now subst.
  - intros H. exists l. split; [exact H | apply String.eqb_refl].
Qed.

End ApiRequests.

Section ApiThms.
Import JS Node.

(** X14. Only [setLogLevel] checks the log level.  It takes one of
    debug, info, warn and error and sets it, and throws for any other name,
    leaving the instance as it was.  The constructor checks nothing: it
    takes any non-empty [logLevel] as given, and an instance at a level that
    is none of the four logs nothing at all, whatever the level of the
    message, errors included. *)
Theorem X14_log_levels_are_checked_only_by_setLogLevel (E : Env)
  (a : OtrustCLI.State) (l level text : string) (o : OtrustCLI.options)
  (w : World) :
  (In l OtrustCLI.log_levels ->
   OtrustCLI.setLogLevel (Str l) a = (Return tt, with_logLevel a l)) /\
  (~ In l OtrustCLI.log_levels ->
   OtrustCLI.setLogLevel (Str l) a
   = (Throw (Error ("Ogiltig loggnivå: " ++ l)), a) /\
   (l <> "" -> OtrustCLI.opt_logLevel o = Some l ->
    OtrustCLI.logLevel (snd (OtrustCLI.constructor E o w)) = l) /\
   (OtrustCLI.logLevel a = l ->
    OtrustCLI._log level text a = (Return tt, a))).
Proof.
  split.
  - intros Hin. apply existsb_log_levels in Hin.
    unfold OtrustCLI.setLogLevel. now rewrite Hin.
  - intros Hout. split; [|split].
    + unfold OtrustCLI.setLogLevel.
      destruct (existsb (String.eqb l) OtrustCLI.log_levels) eqn:He;
        [|reflexivity].
      apply existsb_log_levels in He. contradiction.
    + intros Hne Ho. unfold OtrustCLI.constructor.
      destruct (api_loadConfig_logLevel
                  {| OtrustCLI.server :=
                       Str (OtrustCLI.or_default (OtrustCLI.opt_server o)
                                                 "http://localhost:3000");
                     OtrustCLI.configDir := OtrustCLI.config_dir_of E o;
                     OtrustCLI.configFile :=
                       FilePath (OtrustCLI.config_dir_of E o) "config.json";
                     OtrustCLI.logLevel :=
                       OtrustCLI.or_default (OtrustCLI.opt_logLevel o) "info";
                     OtrustCLI.config :=
                       Obj [("server",
                             Str (OtrustCLI.or_default
                                    (OtrustCLI.opt_server o)
                                    "http://localhost:3000"));
                            ("keyPair", Null); ("token", Null)];
                     OtrustCLI.baseURL :=
                       Str (OtrustCLI.or_default (OtrustCLI.opt_server o)
                                                 "http://localhost:3000");
                     OtrustCLI.authorization := None;
                     OtrustCLI.api_world := w |}) as (Hl & _).
      rewrite Hl. cbn [OtrustCLI.logLevel]. rewrite Ho.
      unfold OtrustCLI.or_default. apply String.eqb_neq in Hne.
      now rewrite Hne.
    + intros Hl. rewrite log_spec. unfold log_lines. rewrite Hl.
      assert (Hn : OtrustCLI.levels l = None).
      { destruct (OtrustCLI.levels l) eqn:Hv; [|reflexivity].
        exfalso. apply Hout. apply levels_known. congruence. }
      rewrite Hn.
      destruct (OtrustCLI.levels level);
        destruct a as [? ? ? ? ? ? ? []]; unfold add_console; cbn;
        now rewrite app_nil_r.
Qed.

(** X15. The two programs share one config file.  A config saved by
    the command line client is what a library instance made with the default
    directory starts from: its config, its server and the base URL of its
    client are those of the file (whatever [options.server] said) and its
    client carries the token of the file.  A config saved by a library
    instance over the default directory is what the next run of the command
    line client loads. *)
Theorem X15_both_programs_share_the_config_file (E : Env) (c : Config)
  (w : World) (o : OtrustCLI.options) (a : OtrustCLI.State) :
  write_fails (fs w) = false ->
  read_fails (fs w) = false ->
  dir_exists (Cli.CONFIG_DIR E) (fs w) = true ->
  OtrustCLI.opt_configDir o = None ->
  OtrustCLI.config a = config_value c ->
  OtrustCLI.configDir a = Cli.CONFIG_DIR E ->
  OtrustCLI.configFile a = Cli.CONFIG_FILE E ->
  world a = w ->
  let saved_by_cli :=
    world (snd (Cli.saveConfig E {| Cli.config := config_value c;
                                    Cli.cli_world := w |})) in
  let a1 := snd (OtrustCLI.constructor E o saved_by_cli) in
  let saved_by_library := world (snd (OtrustCLI._saveConfig a)) in
  let s1 := snd (Cli.initConfig E {| Cli.config := Cli.default_config;
                                     Cli.cli_world := saved_by_library |}) in
  (OtrustCLI.config a1 = config_value c /\
   OtrustCLI.server a1 = Str (serverUrl c) /\
   OtrustCLI.baseURL a1 = Str (serverUrl c) /\
   OtrustCLI.authorization a1 = bearer None (token c)) /\
  Cli.config s1 = config_value c.
Proof.
  intros Hw Hr Hd Ho Hc Hdir Hfile Hwa. cbv zeta. split.
  - rewrite (cli_saveConfig_writes E _ c) by (cbn; auto).
    cbn [snd world Cli.State_world Cli.cli_world].
    unfold OtrustCLI.constructor.
    assert (Hcd : OtrustCLI.config_dir_of E o = Cli.CONFIG_DIR E).
    { unfold OtrustCLI.config_dir_of. now rewrite Ho. }
    rewrite Hcd.
    rewrite (api_loadConfig_reads _ (initial_Config o) c).
    + cbn. auto.
    + reflexivity.
    + cbn [world OtrustCLI.State_world OtrustCLI.api_world fs run_ops].
      now rewrite read_fails_apply_ops.
    + cbn [world OtrustCLI.State_world OtrustCLI.api_world
           OtrustCLI.configFile fs run_ops].
      rewrite apply_write_ops by exact Hd.
      apply (file_content_store (Cli.CONFIG_FILE E)). exact Hd.
  - rewrite (api_saveConfig_writes a c);
      [ | exact Hc | now rewrite Hwa
        | now rewrite Hfile, Hdir ].
    rewrite (cli_initConfig_reads E _ default_Config c).
    + reflexivity.
    + reflexivity.
    + destruct a as [? ? ? ? ? ? ? [fs0 ops0 con0 sent0]].
      cbn - [apply_ops save_ops log_lines] in *. subst w.
      rewrite read_fails_apply_ops. exact Hr.
    + destruct a as [? ? ? ? ? ? ? [fs0 ops0 con0 sent0]].
      cbn - [apply_ops save_ops log_lines file_content] in *. subst w.
      unfold save_ops.
      cbn [OtrustCLI.configDir OtrustCLI.configFile world
           OtrustCLI.State_world OtrustCLI.api_world fs].
      subst configDir configFile. cbn [fs] in Hd. rewrite Hd.
      cbn [app]. rewrite apply_write_ops by exact Hd.
      apply (file_content_store (Cli.CONFIG_FILE E)). exact Hd.
Qed.

Lemma X15_both_programs_share_the_config_file_witness :
  let E := sample_env in
  let c := sample_config in
  let w := fresh_world empty_disk in
  let a := instance_of sample_config empty_disk in
  let saved_by_cli :=
    world (snd (Cli.saveConfig E {| Cli.config := config_value c;
                                    Cli.cli_world := w |})) in
  let a1 := snd (OtrustCLI.constructor E no_options saved_by_cli) in
  let saved_by_library := world (snd (OtrustCLI._saveConfig a)) in
  let s1 := snd (Cli.initConfig E {| Cli.config := Cli.default_config;
                                     Cli.cli_world := saved_by_library |}) in
  (OtrustCLI.config a1 = config_value c /\
   OtrustCLI.server a1 = Str "https://api.otrust.eu" /\
   OtrustCLI.baseURL a1 = Str "https://api.otrust.eu" /\
   OtrustCLI.authorization a1 = Some "Bearer eyJhbGciOiJIUzI1NiJ9") /\
  Cli.config s1 = config_value c.
Proof.
  apply (X15_both_programs_share_the_config_file sample_env sample_config
           (fresh_world empty_disk) no_options
           (instance_of sample_config empty_disk));
    reflexivity.
Defined.

Lemma api_saveConfig_file (a : OtrustCLI.State) (c : Config) :
  OtrustCLI.config a = config_value c ->
  write_fails (fs (world a)) = false ->
  OtrustCLI.configFile a = FilePath (OtrustCLI.configDir a) "config.json" ->
  exists w' : World,
    OtrustCLI._saveConfig a = (Return tt, with_world w' a) /\
    file_content (OtrustCLI.configFile a) (fs w') = Some (config_text c) /\
    sent w' = sent (world a).
Proof.
  intros Hc Hw Hf. rewrite (api_saveConfig_writes a c Hc Hw Hf).
  eexists. split; [reflexivity|].
  destruct a as [? ? ? ? ? ? ? [fs0 ops0 con0 sent0]].
  cbn - [apply_ops save_ops log_lines file_content] in *.
  subst configFile. unfold save_ops.
  cbn [OtrustCLI.configDir OtrustCLI.configFile world
       OtrustCLI.State_world OtrustCLI.api_world fs].
  split; [apply file_content_mkdir_write | reflexivity].
Qed.

Lemma api_getConfig_value (a : OtrustCLI.State) (c : Config) :
  OtrustCLI.config a = config_value c ->
  OtrustCLI.getConfig a
  = (Return (Obj [("server", Str (serverUrl c));
                  ("hasKeyPair", Bool (has_keyPair c));
                  ("isLoggedIn", Bool (logged_in c))]), a).
Proof.
  intros Hc. unfold OtrustCLI.getConfig, bind, OtrustCLI.get_config, ret.
  rewrite Hc, truthy_keyPair, truthy_token. reflexivity.
Qed.



End ApiThms.

(** ** The library: register and login *)

Section ApiLogin.
Import JS Node.

Lemma api_sign_configured (E : Env) (a : OtrustCLI.State) (c : Config)
  (kp : KeyPair) (data sig : string) :
  OtrustCLI.config a = config_value c ->
  keyPair c = Some kp ->
  privateKey kp <> "" ->
  sign_sha256_hex E data (privateKey kp) = Some sig ->
  OtrustCLI._sign E data Undefined a = (Return sig, a).
Proof.
  intros Hc Hk Hne Hs.
  unfold OtrustCLI._sign, try_catch, bind, OtrustCLI.get_config.
  rewrite Hc. cbn [truthy]. rewrite truthy_keyPair, Hk.
  destruct c as [srv okp tok]. cbn in Hk. subst okp.
  cbn [lift member get config_value lookup String.eqb Ascii.eqb Bool.eqb
       option_value keyPair_value truthy keyPair].
  apply String.eqb_neq in Hne. rewrite Hne. cbn [negb]. now rewrite Hs.
Qed.

Lemma api_authenticate_accepted (E : Env) (a : OtrustCLI.State) (c : Config)
  (kp : KeyPair) (action url sig : string)
  (status : Z) (text : string) (ps : list (string * value)) (t : string) :
  OtrustCLI.config a = config_value c ->
  keyPair c = Some kp ->
  privateKey kp <> "" ->
  0 <= now E < 10 ^ 21 ->
  sign_sha256_hex E (auth_text action (publicKey kp) (now E)) (privateKey kp)
    = Some sig ->
  server E (api_request_of a "POST" url (auth_body kp sig (now E)))
    = Response status text (Obj ps) ->
  accepted (Response status text (Obj ps)) = true ->
  lookup "token" ps = Some (Str t) ->
  write_fails (fs (world a)) = false ->
  OtrustCLI.configFile a = FilePath (OtrustCLI.configDir a) "config.json" ->
  exists w' : World,
    OtrustCLI.authenticate E action url a
    = (Return (Obj [("success", Bool true); ("user", get (Obj ps) "user")]),
       {| OtrustCLI.server := OtrustCLI.server a;
          OtrustCLI.configDir := OtrustCLI.configDir a;
          OtrustCLI.configFile := OtrustCLI.configFile a;
          OtrustCLI.logLevel := OtrustCLI.logLevel a;
          OtrustCLI.config := config_value (with_token c t);
          OtrustCLI.baseURL := OtrustCLI.baseURL a;
          OtrustCLI.authorization := Some ("Bearer " ++ t);
          OtrustCLI.api_world := w' |}) /\
    file_content (OtrustCLI.configFile a) (fs w')
    = Some (config_text (with_token c t)) /\
    sent w'
    = (sent (world a)
       ++ [api_request_of a "POST" url (auth_body kp sig (now E))])%list.
Proof.
  intros Hc Hk Hne HT Hs Hsrv Hacc Htok Hw Hf.
  unfold OtrustCLI.authenticate.
  rewrite (bind_run OtrustCLI.get_config _ a a (config_value c))
    by (unfold OtrustCLI.get_config; now rewrite Hc).
  rewrite truthy_keyPair, Hk. cbn [negb].
  erewrite bind_run by (apply (path_publicKey _ c kp); exact Hk).
  rewrite api_auth_payload_text by exact HT.
  erewrite bind_run by reflexivity.
  erewrite bind_run by (eapply api_sign_configured; eauto).
  unfold OtrustCLI.api_post.
  erewrite try_bind_run
    by (apply api_api_request_accepted with (status := status) (text := text);
        [exact Hsrv | exact Hacc]).
  erewrite try_bind_run
    by (rewrite (path_data_field OtrustCLI.State); unfold lift;
        cbn [member get]; rewrite Htok; reflexivity).
  erewrite try_bind_run
    by (unfold OtrustCLI.set_config_field, bind, OtrustCLI.get_config,
          OtrustCLI.set_config;
        cbn [OtrustCLI.config with_world OtrustCLI.State_world];
        rewrite Hc, set_token_value; reflexivity).
  erewrite try_bind_run by reflexivity.
  match goal with
  | |- context [try_catch (bind OtrustCLI._saveConfig _) _ ?st] =>
      destruct (api_saveConfig_file st (with_token c t) eq_refl)
        as (w' & Hsave & Hfile & Hsent);
        [ destruct a as [? ? ? ? ? ? ? []]; exact Hw
        | destruct a; exact Hf | ]
  end.
  erewrite try_bind_run by exact Hsave.
  erewrite try_bind_run
    by (rewrite (path_data_field OtrustCLI.State); reflexivity).
  exists w'. split; [|split].
  - destruct a as [? ? ? ? ? ? ? []]. reflexivity.
  - destruct a as [? ? ? ? ? ? ? []]. exact Hfile.
  - rewrite Hsent. destruct a as [? ? ? ? ? ? ? []]. reflexivity.
Qed.

Lemma api_authenticate_rejected (E : Env) (a : OtrustCLI.State) (c : Config)
  (kp : KeyPair) (action url sig : string) (r : reply) :
  OtrustCLI.config a = config_value c ->
  keyPair c = Some kp ->
  privateKey kp <> "" ->
  0 <= now E < 10 ^ 21 ->
  sign_sha256_hex E (auth_text action (publicKey kp) (now E)) (privateKey kp)
    = Some sig ->
  server E (api_request_of a "POST" url (auth_body kp sig (now E))) = r ->
  accepted r = false ->
  OtrustCLI.authenticate E action url a
  = (Return (failure_value r),
     with_world
       (add_console
          (log_lines (OtrustCLI.logLevel a) "error"
                     ("API Error: " ++ message (rejection r)))
          (add_sent (api_request_of a "POST" url (auth_body kp sig (now E)))
                    (world a))) a).
Proof.
  intros Hc Hk Hne HT Hs Hsrv Hacc.
  unfold OtrustCLI.authenticate.
  rewrite (bind_run OtrustCLI.get_config _ a a (config_value c))
    by (unfold OtrustCLI.get_config; now rewrite Hc).
  rewrite truthy_keyPair, Hk. cbn [negb].
  erewrite bind_run by (apply (path_publicKey _ c kp); exact Hk).
  rewrite api_auth_payload_text by exact HT.
  erewrite bind_run by reflexivity.
  erewrite bind_run by (eapply api_sign_configured; eauto).
  unfold OtrustCLI.api_post.
  erewrite try_bind_throw
    by (apply api_api_request_rejected with (r := r);
        [exact Hsrv | exact Hacc]).
  destruct r as [status text data|]; reflexivity.
Qed.

End ApiLogin.

Section ApiLoginThms.
Import JS Node.

(** X17. A successful [register()] or [login()] of the library stores
    the session token.  For a 2xx answer holding a string [token] the method
    returns [{ success: true, user }], sets [config.token] and the
    Authorization header of the client to the bearer token, leaves the base
    URL alone, writes the config file, and has sent the one signed
    request. *)
Theorem X17_library_login_stores_the_token (E : Env) (registering : bool)
  (a : OtrustCLI.State) (c : Config) (kp : KeyPair) (sig : string)
  (status : Z) (text : string) (ps : list (string * value)) (t : string) :
  OtrustCLI.config a = config_value c ->
  keyPair c = Some kp ->
  privateKey kp <> "" ->
  0 <= now E < 10 ^ 21 ->
  sign_sha256_hex E
    (auth_text (auth_name registering) (publicKey kp) (now E))
    (privateKey kp) = Some sig ->
  server E (api_request_of a "POST" (auth_url registering)
              (auth_body kp sig (now E)))
    = Response status text (Obj ps) ->
  200 <= status < 300 ->
  lookup "token" ps = Some (Str t) ->
  write_fails (fs (world a)) = false ->
  OtrustCLI.configFile a = FilePath (OtrustCLI.configDir a) "config.json" ->
  let r := api_auth_method E registering a in
  fst r = Return (Obj [("success", Bool true);
                       ("user", get (Obj ps) "user")]) /\
  OtrustCLI.config (snd r) = config_value (with_token c t) /\
  OtrustCLI.authorization (snd r) = Some ("Bearer " ++ t) /\
  OtrustCLI.baseURL (snd r) = OtrustCLI.baseURL a /\
  file_content (OtrustCLI.configFile a) (fs (world (snd r)))
  = Some (config_text (with_token c t)) /\
  sent (world (snd r))
  = (sent (world a)
     ++ [api_request_of a "POST" (auth_url registering)
           (auth_body kp sig (now E))])%list.
Proof.
  intros Hc Hk Hne HT Hs Hsrv Hst Htok Hw Hf r.
  assert (Hacc : accepted (Response status text (Obj ps)) = true).
  { cbn [accepted]. apply andb_true_iff.
    split; [apply Z.leb_le | apply Z.ltb_lt]; lia. }
  destruct (api_authenticate_accepted E a c kp (auth_name registering)
              (auth_url registering) sig status text ps t
              Hc Hk Hne HT Hs Hsrv Hacc Htok Hw Hf)
    as (w' & Hrun & Hfile & Hsent).
  assert (Hr : r = OtrustCLI.authenticate E (auth_name registering)
                     (auth_url registering) a)
    by (subst r; now destruct registering).
  rewrite Hr, Hrun. cbn [fst snd OtrustCLI.config OtrustCLI.authorization
                          OtrustCLI.baseURL world OtrustCLI.State_world
                          OtrustCLI.api_world].
  auto 7.
Qed.

Lemma X17_library_login_stores_the_token_witness :
  let a := instance_of (logged_out sample_config) sample_disk in
  let r := OtrustCLI.login sample_env a in
  fst r = Return (Obj [("success", Bool true);
                       ("user",
                        Obj [("publicKey", Str (publicKey sample_keyPair));
                             ("score", Num (Dec 1 0))])]) /\
  OtrustCLI.config (snd r) = config_value sample_config /\
  OtrustCLI.authorization (snd r) = Some "Bearer eyJhbGciOiJIUzI1NiJ9" /\
  OtrustCLI.baseURL (snd r) = Str "https://api.otrust.eu" /\
  file_content sample_file (fs (world (snd r)))
  = Some (config_text sample_config) /\
  sent (world (snd r))
  = [ {| req_method := "POST";
         req_baseURL := Str "https://api.otrust.eu";
         req_url := "/api/auth/login";
         req_authorization := None;
         req_body := auth_body sample_keyPair "3045022100c0ffee"
                               1700000000000 |} ].
Proof.
  apply (X17_library_login_stores_the_token sample_env false
           (instance_of (logged_out sample_config) sample_disk)
           (logged_out sample_config) sample_keyPair "3045022100c0ffee"
           200 "OK"
           [("token", Str "eyJhbGciOiJIUzI1NiJ9");
            ("user", Obj [("publicKey", Str (publicKey sample_keyPair));
                          ("score", Num (Dec 1 0))])]
           "eyJhbGciOiJIUzI1NiJ9");
    first [reflexivity | discriminate
          | split; [discriminate | reflexivity]].
Defined.



End ApiLoginThms.

(** ** The library: key pairs and sessions *)

Section KeysAndSessions.
Import JS Node.

(** X19. [loadKeyPair] takes both keys or nothing.  Given an object
    with a non-empty string under [publicKey] and under [privateKey], it
    stores exactly those two in the config (other properties of the object
    are dropped, the token stays), writes the config file, and from then on
    [_sign] signs with the loaded private key.  If either key is the empty
    string it throws before anything is changed or written. *)
Theorem X19_loadKeyPair_takes_both_keys_or_nothing (E : Env)
  (a : OtrustCLI.State) (c : Config) (ps : list (string * value))
  (pub priv : string) :
  OtrustCLI.config a = config_value c ->
  OtrustCLI.configFile a = FilePath (OtrustCLI.configDir a) "config.json" ->
  write_fails (fs (world a)) = false ->
  lookup "publicKey" ps = Some (Str pub) ->
  lookup "privateKey" ps = Some (Str priv) ->
  let kp := {| publicKey := pub; privateKey := priv |} in
  let r := OtrustCLI.loadKeyPair (Obj ps) a in
  (pub <> "" -> priv <> "" ->
   fst r = Return tt /\
   OtrustCLI.config (snd r) = config_value (with_keyPair c kp) /\
   file_content (OtrustCLI.configFile a) (fs (world (snd r)))
   = Some (config_text (with_keyPair c kp)) /\
   forall data sig,
     sign_sha256_hex E data priv = Some sig ->
     fst (OtrustCLI._sign E data Undefined (snd r)) = Return sig) /\
  (pub = "" \/ priv = "" ->
   r = (Throw (Error "Både publik och privat nyckel krävs"), a)).
Proof.
  intros Hc Hf Hw Hpub Hpriv kp r.
  assert (Hstart : r = (if (negb (truthy (Str pub))
                            || negb (truthy (Str priv)))%bool
                        then throw (Error "Både publik och privat nyckel krävs")
                        else
                          bind (OtrustCLI.set_config_field "keyPair"
                                  (keyPair_value kp))
                            (fun _ => bind OtrustCLI._saveConfig
                               (fun _ => OtrustCLI._log "info"
                                           "Nyckelpar laddat"))) a).
  { subst r. unfold OtrustCLI.loadKeyPair.
    unfold bind at 1, lift. cbn [member get]. rewrite Hpub.
    unfold bind at 1. cbn [member get]. rewrite Hpriv. reflexivity. }
  rewrite Hstart. clear Hstart r. cbn [truthy]. split.
  - intros Hp Hq. apply String.eqb_neq in Hp, Hq. rewrite Hp, Hq.
    cbn [negb orb].
    erewrite bind_run
      by (unfold OtrustCLI.set_config_field, bind, OtrustCLI.get_config,
            OtrustCLI.set_config; rewrite Hc, set_keyPair; reflexivity).
    match goal with
    | |- context [bind OtrustCLI._saveConfig _ ?st] =>
        destruct (api_saveConfig_file st (with_keyPair c kp) eq_refl)
          as (w' & Hsave & Hfile & Hsent);
          [ destruct a as [? ? ? ? ? ? ? []]; exact Hw
          | destruct a; exact Hf | ]
    end.
    erewrite bind_run by exact Hsave.
    rewrite log_spec. cbn [fst snd].
    split; [reflexivity|]. split; [reflexivity|]. split.
    + destruct a as [? ? ? ? ? ? ? []]. exact Hfile.
    + intros data sig Hs.
      erewrite (api_sign_configured E _ (with_keyPair c kp) kp data sig);
        [reflexivity | reflexivity | reflexivity | | exact Hs].
      now apply String.eqb_neq.
  - intros [-> | ->]; cbn [String.eqb negb orb];
      [|rewrite orb_true_r]; reflexivity.
Qed.

Lemma X19_loadKeyPair_takes_both_keys_or_nothing_witness :
  let a := instance_of (logged_out default_Config) empty_disk in
  let kp := fresh_keyPair in
  let r := OtrustCLI.loadKeyPair
             (Obj [("publicKey", Str (publicKey kp));
                   ("privateKey", Str (privateKey kp));
                   ("comment", Str "imported")]) a in
  (publicKey kp <> "" -> privateKey kp <> "" ->
   fst r = Return tt /\
   OtrustCLI.config (snd r)
   = config_value (with_keyPair (logged_out default_Config) kp) /\
   file_content (OtrustCLI.configFile a) (fs (world (snd r)))
   = Some (config_text (with_keyPair (logged_out default_Config) kp)) /\
   forall data sig,
     sign_sha256_hex sample_env data (privateKey kp) = Some sig ->
     fst (OtrustCLI._sign sample_env data Undefined (snd r)) = Return sig) /\
  (publicKey kp = "" \/ privateKey kp = "" ->
   r = (Throw (Error "Både publik och privat nyckel krävs"), a)).
Proof.
  apply (X19_loadKeyPair_takes_both_keys_or_nothing sample_env
           (instance_of (logged_out default_Config) empty_disk)
           (logged_out default_Config)
           [("publicKey", Str (publicKey fresh_keyPair));
            ("privateKey", Str (privateKey fresh_keyPair));
            ("comment", Str "imported")]
           (publicKey fresh_keyPair) (privateKey fresh_keyPair));
    reflexivity.
Defined.

(** X20. Without a session token nothing is sent.  When the config
    holds no token (or an empty one), [updateProfile], [createClaim],
    [createClaimWithSignature] and [addProof] of the library throw their
    "must be logged in" error and leave the instance exactly as it was, and
    [profile], [claim:create] and [proof:add] of the command line client
    print theirs and do nothing else: no request, no prompt, no write. *)
Theorem X20_no_session_no_request (E : Env) (s : Cli.State)
  (a : OtrustCLI.State) (c : Config) (v w : value) (payload : string)
  (co : Cli.claim_options) (po : Cli.proof_options)
  (fo : Cli.profile_options) :
  Cli.config s = config_value c ->
  OtrustCLI.config a = config_value c ->
  logged_in c = false ->
  (OtrustCLI.updateProfile E v a = (Throw (Error no_session_profile), a) /\
   OtrustCLI.createClaim E v a = (Throw (Error no_session_claim), a) /\
   OtrustCLI.createClaimWithSignature E payload w a
   = (Throw (Error no_session_claim), a) /\
   OtrustCLI.addProof E v a = (Throw (Error no_session_proof), a)) /\
  (let refused text :=
     (Return tt,
      with_world (add_console [Console "error" [Str "Error:"; Str text]]
                              (world s)) s) in
   Cli.profile_action E fo s
   = refused "You must be logged in to update your profile" /\
   Cli.claim_create_action E co s
   = refused "You must be logged in to create a claim" /\
   Cli.proof_add_action E po s
   = refused "You must be logged in to add a proof").
Proof.
  intros Hs Ha Hl.
  assert (Ht : truthy (get (config_value c) "token") = false)
    by (rewrite truthy_token; exact Hl).
  split; [split; [|split; [|split]] | split; [|split]].
  - unfold OtrustCLI.updateProfile, bind, OtrustCLI.get_config.
    now rewrite Ha, Ht.
  - unfold OtrustCLI.createClaim, bind, OtrustCLI.get_config.
    now rewrite Ha, Ht.
  - unfold OtrustCLI.createClaimWithSignature, bind, OtrustCLI.get_config.
    now rewrite Ha, Ht.
  - unfold OtrustCLI.addProof, bind, OtrustCLI.get_config.
    now rewrite Ha, Ht.
  - unfold Cli.profile_action, bind, Cli.get_config.
    now rewrite Hs, Ht.
  - unfold Cli.claim_create_action, bind, Cli.get_config.
    now rewrite Hs, Ht.
  - unfold Cli.proof_add_action, bind, Cli.get_config.
    now rewrite Hs, Ht.
Qed.

Lemma X20_no_session_no_request_witness :
  let E := sample_env in
  let c := logged_out sample_config in
  let s := process_of c sample_disk in
  let a := instance_of c sample_disk in
  let co := {| Cli.claim_interactive := false; Cli.claim_text := None;
               Cli.claim_evidence := None; Cli.claim_type := None;
               Cli.claim_subject := None; Cli.claim_predicate := None;
               Cli.claim_object := None |} in
  let fo := {| Cli.profile_name := Some "Alice";
               Cli.profile_email := None |} in
  (OtrustCLI.updateProfile E (Obj [("displayName", Str "Alice")]) a
   = (Throw (Error no_session_profile), a) /\
   OtrustCLI.createClaim E (Obj [("displayName", Str "Alice")]) a
   = (Throw (Error no_session_claim), a) /\
   OtrustCLI.createClaimWithSignature E "{}" (Str "3045022100c0ffee") a
   = (Throw (Error no_session_claim), a) /\
   OtrustCLI.addProof E (Obj [("displayName", Str "Alice")]) a
   = (Throw (Error no_session_proof), a)) /\
  (let refused text :=
     (Return tt,
      with_world (add_console [Console "error" [Str "Error:"; Str text]]
                              (world s)) s) in
   Cli.profile_action E fo s
   = refused "You must be logged in to update your profile" /\
   Cli.claim_create_action E co s
   = refused "You must be logged in to create a claim" /\
   Cli.proof_add_action E out_of_range_options s
   = refused "You must be logged in to add a proof").
Proof.
  apply (X20_no_session_no_request sample_env
           (process_of (logged_out sample_config) sample_disk)
           (instance_of (logged_out sample_config) sample_disk)
           (logged_out sample_config)
           (Obj [("displayName", Str "Alice")]) (Str "3045022100c0ffee")
           "{}"
           {| Cli.claim_interactive := false; Cli.claim_text := None;
              Cli.claim_evidence := None; Cli.claim_type := None;
              Cli.claim_subject := None; Cli.claim_predicate := None;
              Cli.claim_object := None |}
           out_of_range_options
           {| Cli.profile_name := Some "Alice"; Cli.profile_email := None |});
    reflexivity.
Defined.

End KeysAndSessions.

(** ** The library: creating a claim in three steps *)

Section Pure.
Import JS Node.

Lemma pure_ret {A : Type} (x : A) : pure (ret x).
Proof. now intros a. Qed.

Lemma pure_throw {A : Type} (e : exn) : pure (@throw OtrustCLI.State A e).
Proof. now intros a. Qed.

Lemma pure_lift {A : Type} (r : result A) : pure (lift r).
Proof. now intros a. Qed.

Lemma pure_bind {A B : Type} (m : M OtrustCLI.State A)
  (k : A -> M OtrustCLI.State B) :
  pure m -> (forall x, pure (k x)) -> pure (bind m k).
Proof.
  intros Hm Hk a. unfold bind. specialize (Hm a).
  destruct (m a) as [[x|e] a1]; cbn [snd] in *; subst a1;
    [apply Hk | reflexivity].
Qed.

Lemma pure_get_config : pure OtrustCLI.get_config.
Proof. now intros a. Qed.

Lemma pure_the_string (o : option string) : pure (the_string o).
Proof. destruct o; now intros a. Qed.

Lemma pure_path (v : value) (keys : list string) : pure (path v keys).
Proof.
  revert v. induction keys as [|k ks IH]; intros v; cbn [path].
  - apply pure_ret.
  - destruct (member v k); [apply IH | apply pure_throw].
Qed.

Lemma pure_buildClaimPayload (E : Env) (d : value) :
  pure (OtrustCLI.buildClaimPayload E d).
Proof.
  unfold OtrustCLI.buildClaimPayload.
  apply pure_bind; [apply pure_get_config | intros c].
  destruct (negb _); [apply pure_throw|].
  repeat (apply pure_bind; [first [apply pure_path | apply pure_lift] | intros ?]).
  apply pure_the_string.
Qed.

Lemma only_world_sign (E : Env) (data : string) (key : value) :
  only_world (OtrustCLI._sign E data key).
Proof.
  intros a. unfold OtrustCLI._sign, try_catch.
  match goal with
  | |- context [bind OtrustCLI.get_config ?k a] =>
      assert (Hp : pure (bind OtrustCLI.get_config k))
  end.
  { apply pure_bind; [apply pure_get_config | intros c].
    apply pure_bind.
    - destruct (truthy key); [apply pure_ret|].
      destruct (truthy _); [apply pure_lift | apply pure_ret].
    - intros k. destruct (negb _); [apply pure_throw|].
      destruct k; try apply pure_throw.
      destruct (sign_sha256_hex E data _); [apply pure_ret | apply pure_throw]. }
  specialize (Hp a).
  match goal with
  | |- context [bind OtrustCLI.get_config ?k a] =>
      destruct (bind OtrustCLI.get_config k a) as [[x|e] a1]
  end; cbn [snd] in *; subst a1.
  - exists (world a). now destruct a as [? ? ? ? ? ? ? []].
  - unfold bind. rewrite log_spec. eexists. reflexivity.
Qed.

Lemma serialize_object_brace (gap indent : string)
  (ps : list (string * value)) (t : string) :
  serialize gap indent (Obj ps) = Some t -> exists r, t = String "{" r.
Proof.
  cbn [serialize]. intros [= <-]. unfold wrap.
  destruct (flat_map _ ps); [|destruct (String.eqb gap "")];
    cbn [append]; eexists; reflexivity.
Qed.

Lemma parse_brace (r : string) (v : value) :
  parse (String "{" r) = Some v -> exists qs, v = Obj qs.
Proof.
  unfold parse.
  destruct (parse_value _ (String "{" r)) as [[v0 rest]|] eqn:Hp;
    [|discriminate].
  destruct (String.eqb (skip_ws rest) ""); [|discriminate].
  intros [= ->]. revert Hp.
  cbn [String.length parse_value skip_ws].
  change (is_json_ws "{") with false. cbv iota.
  change (Ascii.eqb "{" "{") with true. cbv iota.
  destruct (parse_members _ r) as [[ps r']|];
    repeat (match goal with
            | |- context [match ?x with _ => _ end] => destruct x
            end; try discriminate);
    intros [= <- _]; eauto.
Qed.

Lemma buildClaimPayload_brace (E : Env) (d : value) (a a1 : OtrustCLI.State)
  (p : string) :
  OtrustCLI.buildClaimPayload E d a = (Return p, a1) ->
  exists r, p = String "{" r.
Proof.
  unfold OtrustCLI.buildClaimPayload, bind, OtrustCLI.get_config.
  destruct (negb _); [discriminate|].
  repeat (match goal with
          | |- context [path ?v ?ks ?s] => destruct (path v ks s) as [[?|?] ?]
          | |- context [lift ?r ?s] => unfold lift at 1; destruct r
          end; try discriminate).
  unfold OtrustCLI.claim_payload, stringify.
  destruct (serialize _ _ _) as [t|] eqn:Hs; [|discriminate].
  cbn [the_string ret]. intros [= <- _].
  eapply serialize_object_brace, Hs.
Qed.

End Pure.

Section Compose.
Import JS Node.

Lemma bind_ext {S A B : Type} (m : M S A) (k1 k2 : A -> M S B) (s : S) :
  (forall x s', m s = (Return x, s') -> k1 x s' = k2 x s') ->
  bind m k1 s = bind m k2 s.
Proof.
  intros H. unfold bind. destruct (m s) as [[x|e] s']; [|reflexivity].
  now apply H.
Qed.

(** X21. [createClaim] is [buildClaimPayload], [_sign] and
    [createClaimWithSignature] in a row.  On an instance with a session
    token, creating a claim in one call does exactly what the three calls
    do: the same requests, the same log lines, the same result or error. *)
Theorem X21_createClaim_is_build_sign_send (E : Env) (d : value)
  (a : OtrustCLI.State) :
  truthy (get (OtrustCLI.config a) "token") = true ->
  OtrustCLI.createClaim E d a
  = bind (OtrustCLI.buildClaimPayload E d)
      (fun payload =>
         bind (OtrustCLI._sign E payload Undefined)
           (fun signature =>
              OtrustCLI.createClaimWithSignature E payload (Str signature)))
      a.
Proof.
  intros Ht. unfold OtrustCLI.createClaim.
  rewrite (bind_run OtrustCLI.get_config _ a a (OtrustCLI.config a))
    by reflexivity.
  rewrite Ht. cbn [negb].
  apply bind_ext. intros p a1 Hb.
  pose proof (pure_buildClaimPayload E d a) as Hpure.
  rewrite Hb in Hpure. cbn [snd] in Hpure. subst a1.
  destruct (buildClaimPayload_brace E d a a p Hb) as [r ->].
  apply bind_ext. intros sig a2 Hs.
  destruct (only_world_sign E (String "{" r) Undefined a) as [w' Hw].
  rewrite Hs in Hw. cbn [snd] in Hw. subst a2.
  unfold OtrustCLI.createClaimWithSignature.
  rewrite (bind_run OtrustCLI.get_config _ (with_world w' a) (with_world w' a)
             (OtrustCLI.config a))
    by (now destruct a).
  rewrite Ht. cbn [negb].
  apply bind_ext. intros v a3 Hp.
  assert (Hv : exists qs, v = Obj qs).
  { unfold JSON_parse in Hp.
    destruct (parse (String "{" r)) as [v0|] eqn:Hp0; [|discriminate].
    injection Hp as <- _. eapply parse_brace, Hp0. }
  destruct Hv as [qs ->]. reflexivity.
Qed.

Lemma X21_createClaim_is_build_sign_send_witness :
  let a := instance_of sample_config sample_disk in
  let d := claimData_value sample_claim in
  OtrustCLI.createClaim sample_env d a
  = bind (OtrustCLI.buildClaimPayload sample_env d)
      (fun payload =>
         bind (OtrustCLI._sign sample_env payload Undefined)
           (fun signature =>
              OtrustCLI.createClaimWithSignature sample_env payload
                (Str signature)))
      a.
Proof.
  apply (X21_createClaim_is_build_sign_send sample_env
           (claimData_value sample_claim)
           (instance_of sample_config sample_disk)).
  reflexivity.
Defined.

End Compose.

(** ** The library: the read methods *)

Section Reads.
Import JS Node.

Lemma fetch_accepted (E : Env) (prefix url : string) (cfg : value)
  (a : OtrustCLI.State) (status : Z) (text : string) (data : value) :
  server E (api_request_of a "GET" url cfg) = Response status text data ->
  accepted (Response status text data) = true ->
  OtrustCLI.fetch E prefix url cfg a
  = (Return data,
     with_world (add_sent (api_request_of a "GET" url cfg) (world a)) a).
Proof.
  intros Hr Ha. unfold OtrustCLI.fetch, OtrustCLI.api_get.
  erewrite try_bind_run
    by (apply api_api_request_accepted with (status := status) (text := text);
        [exact Hr | exact Ha]).
  reflexivity.
Qed.

Lemma fetch_rejected (E : Env) (prefix url : string) (cfg : value)
  (a : OtrustCLI.State) (r : reply) :
  server E (api_request_of a "GET" url cfg) = r ->
  accepted r = false ->
  OtrustCLI.fetch E prefix url cfg a
  = (Throw (wrapped prefix r),
     with_world
       (add_console
          (log_lines (OtrustCLI.logLevel a) "error"
                     ("API Error: " ++ message (rejection r)))
          (add_sent (api_request_of a "GET" url cfg) (world a))) a).
Proof.
  intros Hr Ha. unfold OtrustCLI.fetch, OtrustCLI.api_get.
  erewrite try_bind_throw
    by (apply api_api_request_rejected with (r := r); [exact Hr | exact Ha]).
  destruct r as [status text data|]; cbn [rejection OtrustCLI.rethrow wrapped];
    [|reflexivity].
  unfold bind, lift. now destruct (member data "error").
Qed.



(** X23. [getUserInfo] asks for the key it is given, for the public key
    of the config when it is given none, and sends nothing when there is
    neither: the error raised inside its [try] block is caught by its own
    handler and thrown again under the prefix of the method. *)
Theorem X23_getUserInfo_needs_a_key (E : Env) (a : OtrustCLI.State)
  (c : Config) (pk : value) :
  OtrustCLI.config a = config_value c ->
  let prefix := "Fel vid hämtning av användarinfo: " in
  (truthy pk = true ->
   OtrustCLI.getUserInfo E pk a
   = OtrustCLI.fetch E prefix ("/api/user/" ++ to_string pk) Undefined a) /\
  (truthy pk = false ->
   forall kp, keyPair c = Some kp -> publicKey kp <> "" ->
   OtrustCLI.getUserInfo E pk a
   = OtrustCLI.fetch E prefix ("/api/user/" ++ publicKey kp) Undefined a) /\
  (truthy pk = false -> keyPair c = None ->
   OtrustCLI.getUserInfo E pk a
   = (Throw (Error (prefix ++
                    "Ingen publik nyckel angiven och du är inte inloggad")),
      a)).
Proof.
  intros Hc prefix. unfold OtrustCLI.getUserInfo, OtrustCLI.fetch.
  split; [|split].
  - intros Hp.
    rewrite (try_bind_run OtrustCLI.get_config _ _ a a (config_value c))
      by (unfold OtrustCLI.get_config; now rewrite Hc).
    rewrite Hp. erewrite try_bind_run by reflexivity.
    rewrite Hp. reflexivity.
  - intros Hp kp Hk Hne.
    rewrite (try_bind_run OtrustCLI.get_config _ _ a a (config_value c))
      by (unfold OtrustCLI.get_config; now rewrite Hc).
    rewrite Hp, truthy_keyPair, Hk.
    erewrite (try_bind_run _ _ _ _ a (Str (publicKey kp)))
      by (destruct c as [srv okp tok]; cbn in Hk; subst okp; reflexivity).
    cbn [truthy to_string]. apply String.eqb_neq in Hne. rewrite Hne.
    reflexivity.
  - intros Hp Hk.
    rewrite (try_bind_run OtrustCLI.get_config _ _ a a (config_value c))
      by (unfold OtrustCLI.get_config; now rewrite Hc).
    rewrite Hp, truthy_keyPair, Hk.
    erewrite try_bind_run by reflexivity.
    reflexivity.
Qed.

Lemma X23_getUserInfo_needs_a_key_witness :
  let a := instance_of keyless_config sample_disk in
  let prefix := "Fel vid hämtning av användarinfo: " in
  (truthy Undefined = true ->
   OtrustCLI.getUserInfo sample_env Undefined a
   = OtrustCLI.fetch sample_env prefix ("/api/user/" ++ to_string Undefined)
       Undefined a) /\
  (truthy Undefined = false ->
   forall kp, keyPair keyless_config = Some kp -> publicKey kp <> "" ->
   OtrustCLI.getUserInfo sample_env Undefined a
   = OtrustCLI.fetch sample_env prefix ("/api/user/" ++ publicKey kp)
       Undefined a) /\
  (truthy Undefined = false -> keyPair keyless_config = None ->
   OtrustCLI.getUserInfo sample_env Undefined a
   = (Throw (Error (prefix ++
                    "Ingen publik nyckel angiven och du är inte inloggad")),
      a)).
Proof.
  apply (X23_getUserInfo_needs_a_key sample_env
           (instance_of keyless_config sample_disk) keyless_config
           Undefined).
  reflexivity.
Defined.

End Reads.

(** ** Failures of [init] *)

Section InitFailures.
Import JS Node.

(** X24. When the key generator fails, [init] changes nothing in either
    program: the command prints the spinner's start and failure lines and
    the error message and returns, the library method logs the error and
    rethrows it, and in both the configuration in memory and the disk are
    as before. *)
Theorem X24_failed_key_generation_changes_nothing (E : Env) (s : Cli.State)
  (a : OtrustCLI.State) (c : Config) (force : bool) (e : exn) :
  Cli.config s = config_value c ->
  OtrustCLI.config a = config_value c ->
  (force = true \/ keyPair c = None) ->
  generateKeyPairSync E 2048 = Throw e ->
  Cli.init_action E force s
  = (Return tt,
     with_world
       (add_console
          [Spinner "start" "Generating key pair...";
           Spinner "fail" "Failed to generate key pair";
           Console "error" [Str "Error:"; Str (message e)]]
          (world s)) s) /\
  OtrustCLI.init E force a
  = (Throw e,
     with_world
       (add_console
          (log_lines (OtrustCLI.logLevel a) "debug" "Genererar nytt nyckelpar"
           ++ log_lines (OtrustCLI.logLevel a) "error"
                ("Fel vid generering av nyckelpar: " ++ message e))
          (world a)) a).
Proof.
  intros Hs Ha Hforce Hg. split.
  - unfold Cli.init_action.
    rewrite (bind_run Cli.get_config _ s s (config_value c))
      by (unfold Cli.get_config; now rewrite Hs).
    rewrite truthy_keyPair.
    assert (Hcond : ((match keyPair c with Some _ => true | None => false end)
                     && negb (truthy (Cli.flag force)))%bool = false).
    { destruct Hforce as [-> | ->]; [apply andb_false_r | reflexivity]. }
    rewrite Hcond.
    erewrite bind_run by reflexivity.
    erewrite try_bind_throw
      by (unfold Cli.generateKeyPair; rewrite Hg; reflexivity).
    destruct s as [cfg [d o k q]]. unfold bind, print, console_error, print,
      update_world, add_console.
    cbn [world with_world Cli.State_world Cli.cli_world Cli.config
         fs ops console sent].
    now rewrite <- !app_assoc.
  - unfold OtrustCLI.init.
    rewrite (bind_run OtrustCLI.get_config _ a a (config_value c))
      by (unfold OtrustCLI.get_config; now rewrite Ha).
    rewrite truthy_keyPair.
    assert (Hcond : (negb (match keyPair c with Some _ => true | None => false end)
                     || force)%bool = true).
    { destruct Hforce as [-> | ->]; [apply orb_true_r | reflexivity]. }
    rewrite Hcond.
    unfold bind at 1, bind at 1, OtrustCLI._generateKeyPair, try_catch,
      bind at 1.
    rewrite log_spec, Hg. unfold throw at 1. unfold bind at 1.
    rewrite log_spec. unfold throw.
    destruct a as [? ? ? ? ? ? ? [d o k q]]. unfold add_console.
    cbn [world with_world OtrustCLI.State_world OtrustCLI.api_world
         fs ops console sent].
    now rewrite <- !app_assoc.
Qed.

Lemma X24_failed_key_generation_changes_nothing_witness :
  let e := CryptoError "error:03000086:digital envelope routines" in
  let E := failing_generator sample_env e in
  let s := process_of default_Config empty_disk in
  let a := instance_of default_Config empty_disk in
  Cli.init_action E false s
  = (Return tt,
     with_world
       (add_console
          [Spinner "start" "Generating key pair...";
           Spinner "fail" "Failed to generate key pair";
           Console "error" [Str "Error:"; Str (message e)]]
          (world s)) s) /\
  OtrustCLI.init E false a
  = (Throw e,
     with_world
       (add_console
          [Console "error"
             [Str ("[OTRUST] Fel vid generering av nyckelpar: " ++ message e)]]
          (world a)) a).
Proof.
  apply (X24_failed_key_generation_changes_nothing
           (failing_generator sample_env
              (CryptoError "error:03000086:digital envelope routines"))
           (process_of default_Config empty_disk)
           (instance_of default_Config empty_disk)
           default_Config false
           (CryptoError "error:03000086:digital envelope routines"));
    first [reflexivity | right; reflexivity].
Defined.



End InitFailures.

(** ** The body [createClaim] posts *)

Section ParseNumbers.
Import JS Node.

Lemma digit_not_special (c : ascii) :
  is_digit c = true ->
  is_json_ws c = false /\ Ascii.eqb c "{" = false /\
  Ascii.eqb c "[" = false /\ Ascii.eqb c dquote = false /\
  Ascii.eqb c "t" = false /\ Ascii.eqb c "f" = false /\
  Ascii.eqb c "n" = false /\ Ascii.eqb c "-" = false.
Proof.
  destruct c as [[] [] [] [] [] [] [] []]; cbv; intros H;
    first [discriminate H | repeat split].
Qed.

Lemma parse_value_number (f : nat) (c : ascii) (r : string) :
  is_digit c = true ->
  parse_value (S f) (String c r)
  = match parse_number (String c r) with
    | Some (n, r') => Some (Num n, r')
    | None => None
    end.
Proof.
  intros H. destruct (digit_not_special c H)
    as (H0 & H1 & H2 & H3 & H4 & H5 & H6 & _).
  cbn [parse_value skip_ws]. now rewrite H0, H1, H2, H3, H4, H5, H6.
Qed.

Lemma span_digits_app (d rest : string) :
  all_digits d = true ->
  match rest with
  | String c _ => is_digit c
  | EmptyString => false
  end = false ->
  span_digits (d ++ rest) = (d, rest).
Proof.
  intros Hd Hr. induction d as [|c d IH]; cbn [append span_digits].
  - destruct rest as [|c r]; [reflexivity|].
    cbn [span_digits]. cbv beta iota in Hr. now rewrite Hr.
  - cbn [all_digits] in Hd. apply andb_true_iff in Hd as [Hc Hd].
    now rewrite Hc, (IH Hd).
Qed.

Lemma ends_number_not_digit (rest : string) :
  ends_number rest = true ->
  match rest with
  | String c _ => is_digit c
  | EmptyString => false
  end = false.
Proof.
  destruct rest as [|c r]; [reflexivity|]. cbn [ends_number].
  intros H. apply orb_true_iff in H as [H|H];
    apply Ascii.eqb_eq in H; now subst c.
Qed.

Lemma parse_number_digits (c : ascii) (d rest : string) :
  all_digits (String c d) = true ->
  (Nat.ltb 1 (String.length (String c d)) && prefix "0" (String c d))%bool
    = false ->
  ends_number rest = true ->
  parse_number (String c d ++ rest)
  = Some (Dec (digits_value (String c d)) 0, rest).
Proof.
  intros Hd Hz Hr.
  pose proof (span_digits_app (String c d) rest Hd
                (ends_number_not_digit rest Hr)) as Hspan.
  cbn [all_digits] in Hd. apply andb_true_iff in Hd as [Hc _].
  destruct (digit_not_special c Hc) as (_ & _ & _ & _ & _ & _ & _ & Hm).
  unfold parse_number.
  assert (Hsign : match String c d ++ rest with
                  | String "-" r => (true, r)
                  | _ => (false, String c d ++ rest)
                  end = (false, String c d ++ rest)).
  { cbn [append]. revert Hm. clear.
    destruct c as [[] [] [] [] [] [] [] []]; cbv; intros H;
      first [discriminate H | reflexivity]. }
  rewrite Hsign, Hspan. cbn [String.eqb]. rewrite Hz.
  destruct rest as [|x r]; [discriminate|]. cbn [ends_number] in Hr.
  apply orb_true_iff in Hr as [Hx|Hx]; apply Ascii.eqb_eq in Hx; subst x;
    reflexivity.
Qed.

Lemma string_of_Z_digits (z : Z) :
  0 <= z ->
  exists c d, string_of_Z z = String c d /\
    (Nat.ltb 1 (String.length (String c d)) && prefix "0" (String c d))%bool
      = false /\
    digits_value (String c d) = z.
Proof.
  intros Hz. destruct z as [|p|p]; [| |lia].
  - exists "0"%char, "". repeat split.
  - unfold string_of_Z. cbn [Z.to_int NilZero.string_of_int].
    unfold NilZero.string_of_uint.
    pose proof (DecimalPos.Unsigned.to_uint_nonnil p) as Hn.
    pose proof (to_uint_no_leading_zero p) as H0.
    assert (Hv : digits_value (NilEmpty.string_of_uint (Pos.to_uint p))
                 = Zpos p).
    { unfold digits_value. rewrite NilEmpty.usu.
      unfold Z.of_uint. now rewrite DecimalPos.Unsigned.of_to. }
    destruct (Pos.to_uint p) as [|u|u|u|u|u|u|u|u|u|u] eqn:Hu;
      [contradiction | exfalso; now apply (H0 u) | ..];
      cbn [NilEmpty.string_of_uint] in *;
      eexists; eexists; (split; [reflexivity|]);
      (split; [|exact Hv]); cbn [prefix]; apply andb_false_r.
Qed.

Lemma value_timestamp (f : nat) (z : Z) (rest : string) :
  0 <= z ->
  ends_number rest = true ->
  parse_value (S f) (string_of_Z z ++ rest) = Some (Num (of_Z z), rest).
Proof.
  intros Hz Hr.
  pose proof (all_digits_string_of_Z z Hz) as Hd.
  destruct (string_of_Z_digits z Hz) as (c & d & He & Hl & Hv).
  rewrite He in *. cbn [append].
  assert (Hc : is_digit c = true).
  { cbn [all_digits] in Hd. now apply andb_true_iff in Hd as [Hc _]. }
  rewrite parse_value_number by exact Hc.
  change (String c (d ++ rest)) with (String c d ++ rest).
  rewrite parse_number_digits by assumption.
  now rewrite Hv.
Qed.

End ParseNumbers.

Section ParseClaims.
Import JS Node.

Lemma parse_elements_step (f : nat) (s : string) :
  parse_elements (S f) s
  = match parse_value f s with
    | Some (v, r) =>
        match skip_ws r with
        | String "," r' =>
            match parse_elements f r' with
            | Some (vs, r'') => Some (v :: vs, r'')
            | None => None
            end
        | String "]" r' => Some ([v], r')
        | _ => None
        end
    | None => None
    end.
Proof. reflexivity. Qed.

Lemma elements_strings (l : list string) (x : string) (f : nat)
  (rest : string) :
  parse_elements (2 + (List.length l + f)) (quote x ++ more_strings l rest)
  = Some (map Str (x :: l), rest).
Proof.
  revert x. induction l as [|y l IH]; intros x.
  - change (2 + (List.length (@nil string) + f))%nat with (S (S f)).
    rewrite parse_elements_step.
    rewrite (value_quote _ _ x ("]" ++ rest)) by reflexivity.
    reflexivity.
  - change (2 + (List.length (y :: l) + f))%nat
      with (S (2 + (List.length l + f))).
    rewrite parse_elements_step.
    change (2 + (List.length l + f))%nat with (S (S (List.length l + f)))
      at 1.
    cbn [more_strings].
    rewrite (value_quote _ _ x ("," ++ quote y ++ more_strings l rest))
      by reflexivity.
    cbn [append skip_ws]. change (is_json_ws ",") with false. cbv iota.
    now rewrite IH.
Qed.

Lemma value_strings (l : list string) (F : nat) (rest : string) :
  (3 + List.length l <= F)%nat ->
  parse_value F (strings_text l ++ rest) = Some (Arr (map Str l), rest).
Proof.
  intros HF.
  replace F with (S (2 + (List.length l + (F - 3 - List.length l))))
    by lia.
  unfold strings_text. rewrite !append_assoc.
  destruct l as [|x l].
  - reflexivity.
  - rewrite join_more_strings.
    cbn [parse_value append skip_ws].
    change (is_json_ws "[") with false. cbv iota.
    change (Ascii.eqb "[" "{") with false.
    change (Ascii.eqb "[" "[") with true. cbv iota.
    rewrite skip_ws_quote.
    replace (2 + (List.length (x :: l) + (F - 3 - List.length (x :: l))))%nat
      with (2 + (List.length l + (S (F - 3 - List.length (x :: l)))))%nat
      by (cbn [List.length]; lia).
    rewrite elements_strings.
    unfold quote. reflexivity.
Qed.

Lemma value_parent (o : option string) (f : nat) (rest : string) :
  parse_value (S f) (parent_text o ++ rest)
  = Some (option_value Str (normal_parent o), rest).
Proof.
  rewrite parent_text_normal.
  destruct (normal_parent o) as [p|]; cbn [option_value].
  - eapply value_quote. reflexivity.
  - eapply value_null. reflexivity.
Qed.

Lemma value_semantic (k : ClaimData) (f : nat) (rest : string) :
  parse_value (5 + f) (semantic_text k ++ rest)
  = Some (semantic_value k, rest).
Proof.
  unfold semantic_text, semantic_value, field. rewrite !append_assoc.
  change (5 + f)%nat with (S (4 + f)).
  eapply (value_object _ _ "subject"); [reflexivity | | ].
  - eapply (members_more _ "subject");
      [reflexivity | eapply value_quote; reflexivity | reflexivity | ].
    eapply (members_more _ "predicate");
      [reflexivity | eapply value_quote; reflexivity | reflexivity | ].
    eapply (members_last _ "object");
      [reflexivity | eapply value_quote; reflexivity | reflexivity ].
  - reflexivity.
Qed.

Lemma parse_value_claim (k : ClaimData) (P : string) (T : Z) (f : nat)
  (rest : string) :
  0 <= T ->
  parse_value (13 + (List.length (cd_evidence k) + f))
              (claim_text k P T ++ rest)
  = Some (Obj (signed_claim k P T), rest).
Proof.
  intros HT. unfold claim_text, field. rewrite !append_assoc.
  change (13 + (List.length (cd_evidence k) + f))%nat
    with (S (12 + (List.length (cd_evidence k) + f))).
  eapply (value_object _ _ "claim"); [reflexivity | | ].
  - eapply (members_more _ "claim");
      [reflexivity | eapply value_quote; reflexivity | reflexivity | ].
    eapply (members_more _ "evidence");
      [reflexivity | apply value_strings; cbn [Nat.add]; lia
      | reflexivity | ].
    eapply (members_more _ "publicKey");
      [reflexivity | eapply value_quote; reflexivity | reflexivity | ].
    eapply (members_more _ "type");
      [reflexivity | eapply value_quote; reflexivity | reflexivity | ].
    eapply (members_more _ "parent_id");
      [reflexivity | apply value_parent | reflexivity | ].
    eapply (members_more _ "timestamp");
      [reflexivity | apply value_timestamp; [exact HT | reflexivity]
      | reflexivity | ].
    eapply (members_last _ "semantic");
      [reflexivity | apply (value_semantic k) | reflexivity ].
  - reflexivity.
Qed.

End ParseClaims.

Section ParseClaimText.
Import JS Node.

Lemma length_join_quotes (l : list string) :
  (List.length l <= String.length (join "," (map quote l)))%nat.
Proof.
  induction l as [|x l IH]; [apply Nat.le_refl|].
  destruct l as [|y l].
  - cbn [map join List.length]. unfold quote. cbn [String.length]. lia.
  - change (join "," (map quote (x :: y :: l)))
      with (quote x ++ "," ++ join "," (map quote (y :: l))).
    rewrite !length_append. cbn [List.length] in *.
    change (String.length ",") with 1%nat. lia.
Qed.

Lemma length_claim_text (k : ClaimData) (P : string) (T : Z) :
  (12 + List.length (cd_evidence k) <= String.length (claim_text k P T))%nat.
Proof.
  unfold claim_text, field, strings_text. rewrite !length_append.
  pose proof (length_join_quotes (cd_evidence k)) as H.
  change (String.length (quote "claim")) with 7%nat.
  change (String.length (quote "evidence")) with 10%nat.
  lia.
Qed.

Lemma append_empty (s : string) : s ++ "" = s.
Proof. induction s as [|c s IH]; cbn; congruence. Qed.

Lemma parse_claim_text (k : ClaimData) (P : string) (T : Z) :
  0 <= T ->
  parse (claim_text k P T) = Some (Obj (signed_claim k P T)).
Proof.
  intros HT. unfold parse.
  pose proof (length_claim_text k P T) as Hl.
  replace (S (String.length (claim_text k P T)))
    with (13 + (List.length (cd_evidence k)
                + (String.length (claim_text k P T) - 12
                   - List.length (cd_evidence k))))%nat by lia.
  rewrite <- (append_empty (claim_text k P T)) at 2.
  rewrite parse_value_claim by exact HT. reflexivity.
Qed.

End ParseClaimText.

Section CreateClaim.
Import JS Node.

Lemma request_outcome (E : Env) (method prefix url : string) (body : value)
  (a : OtrustCLI.State) (r : reply) :
  server E (api_request_of a method url body) = r ->
  try_catch
    (bind (OtrustCLI.api_request E method url body)
          (fun response => path response ["data"]))
    (OtrustCLI.rethrow prefix) a
  = (match r with
     | Response status _ data =>
         if ((200 <=? status) && (status <? 300))%bool
         then Return data else Throw (wrapped prefix r)
     | NoResponse => Throw (wrapped prefix r)
     end,
     with_world
       (add_console
          (if accepted r then []
           else log_lines (OtrustCLI.logLevel a) "error"
                          ("API Error: " ++ message (rejection r)))
          (add_sent (api_request_of a method url body) (world a))) a).
Proof.
  intros Hr. destruct (accepted r) eqn:Ha.
  - destruct r as [status text data|]; [|discriminate].
    erewrite try_bind_run
      by (apply api_api_request_accepted with (status := status)
                                              (text := text);
          [exact Hr | exact Ha]).
    cbn [accepted] in Ha. rewrite Ha.
    destruct a as [? ? ? ? ? ? ? []]. unfold add_console.
    cbn. now rewrite app_nil_r.
  - erewrite try_bind_throw
      by (apply api_api_request_rejected with (r := r);
          [exact Hr | exact Ha]).
    destruct r as [status text data|];
      cbn [rejection OtrustCLI.rethrow wrapped].
    + cbn [accepted] in Ha. rewrite Ha.
      unfold bind, lift. now destruct (member data "error").
    + reflexivity.
Qed.



End CreateClaim.
